(** * Assistant Pronote IA: the browser client, embedded and verified

    A shallow embedding of the front end's JavaScript
    ([frontend/js/config.js], [api-client.js], [auth.js],
    [pronote-data.js], the chat manager and the session and tab methods
    of [app.js]) and the proofs of its session, data-fetch and chat
    contracts.

    Conventions of the embedding.
    - A JavaScript value is a [JsValue]; numbers are IEEE 754 binary64
      values, Rocq's primitive [float].
    - A JavaScript string is the [string] of its UTF-8 bytes; its [length]
      is counted in UTF-16 code units.
    - A function that may throw returns a [Completion]; a method that reads
      or writes the page, the managers or the token store is a state
      transformer [M] over [App].
    - An [async] method that awaits one [fetch] takes the outcome of that
      fetch as an argument: the embedding runs the method from its call to
      the settlement of its promise. A call that is not awaited runs up to
      its [fetch]; what follows is a separate script.
    - What the engine and the browser compute (the text of a number,
      Unicode case mapping, dates and locales) is a parameter, [Host].

    Left out: logging, scrolling, the time labels of chat messages, the
    timer that hides the login error, the unused fields of the client
    ([requestQueue], [isProcessing]), and options of [fetch] other than
    the method, the body and the headers. *)

From Stdlib Require Import ZArith List Bool Lia.
From Stdlib Require Import String Ascii DecimalString.
From Stdlib Require Import Floats.
From stdpp Require Import base option gmap strings.

Set Warnings "-register-all".
Local Open Scope string_scope.
Local Open Scope list_scope.

(** ** JavaScript values *)

Inductive JsValue : Type :=
| JUndefined
| JNull
| JBool (b : bool)
| JNum (x : float)
| JStr (s : string)
| JArr (items : list JsValue)
| JObj (fields : list (string * JsValue)).

(** A thrown value: every value this program throws or catches is an
    [Error] object, of which the code reads [message] only. *)
Record JsError : Type := mkError { errName : string; errMessage : string }.

Inductive Completion (A : Type) : Type :=
| Normal (a : A)
| Throw (e : JsError).
Arguments Normal {A} a.
Arguments Throw {A} e.

Definition cbind {A B} (c : Completion A) (k : A -> Completion B) : Completion B :=
  match c with
  | Normal a => k a
  | Throw e => Throw e
  end.

(** The [TypeError]s the engine raises. Their message is the engine's own
    wording (V8's is used); no theorem below depends on it. *)
Definition TypeError_nullish (base prop : string) : JsError :=
  mkError "TypeError"
    ("Cannot read properties of " ++ base ++ " (reading '" ++ prop ++ "')").
Definition TypeError_not_function (what : string) : JsError :=
  mkError "TypeError" (what ++ " is not a function").
Definition TypeError_to_primitive : JsError :=
  mkError "TypeError" "Cannot convert object to primitive value".

(** [ToBoolean]: what [if (v)], [!v], [a && b] and [a || b] test. *)
Definition truthy (v : JsValue) : bool :=
  match v with
  | JUndefined | JNull => false
  | JBool b => b
  | JNum x => negb (PrimFloat.is_zero x || PrimFloat.is_nan x)
  | JStr s => negb (String.eqb s "")
  | JArr _ | JObj _ => true
  end.

Fixpoint assoc (k : string) (fields : list (string * JsValue)) : option JsValue :=
  match fields with
  | [] => None
  | (k', v) :: rest => if String.eqb k k' then Some v else assoc k rest
  end.

(** The number that is the length [n] of an array or a string. *)
Definition nat_to_float (n : nat) : float :=
  SF2Prim (binary_normalize prec emax (Z.of_nat n) 0 false).

(** The number of UTF-16 code units of a string, which is what its
    [length] counts, read off its UTF-8 bytes: one unit for a character
    encoded on one, two or three bytes, two units (a surrogate pair) for a
    character encoded on four. [pending] is the number of continuation
    bytes [10xxxxxx] that still belong to the character just counted; a
    continuation byte that belongs to none counts as a character. *)
Fixpoint utf16_units (pending : nat) (s : string) : nat :=
  match s with
  | EmptyString => 0
  | String c s' =>
      let n := nat_of_ascii c in
      if (128 <=? n)%nat && (n <? 192)%nat then
        match pending with
        | S k => utf16_units k s'
        | O => S (utf16_units 0 s')
        end
      else if (n <? 128)%nat then S (utf16_units 0 s')
      else if (n <? 224)%nat then S (utf16_units 1 s')
      else if (n <? 240)%nat then S (utf16_units 2 s')
      else S (S (utf16_units 3 s'))
  end.

(** [s.length] *)
Definition utf16_length (s : string) : nat := utf16_units 0 s.

(** [v.prop] for the property names this program reads: own properties of
    objects, [length] of arrays and strings. None of the names read is an
    array index or a member of a prototype, so every other read of a
    non-object is [undefined]; reading a property of [null] or [undefined]
    throws. *)
Definition GetV (v : JsValue) (prop : string) : Completion JsValue :=
  match v with
  | JUndefined => Throw (TypeError_nullish "undefined" prop)
  | JNull => Throw (TypeError_nullish "null" prop)
  | JObj fields => Normal (default JUndefined (assoc prop fields))
  | JArr items =>
      Normal (if String.eqb prop "length" then JNum (nat_to_float (List.length items))
              else JUndefined)
  | JStr s =>
      Normal (if String.eqb prop "length" then JNum (nat_to_float (utf16_length s))
              else JUndefined)
  | JBool _ | JNum _ => Normal JUndefined
  end.

(** ** Strings *)

(** The characters [String.prototype.trim] and [parseFloat] skip
    (ECMAScript's WhiteSpace and LineTerminator), as the UTF-8 byte
    sequences that encode them. *)
Definition whiteSpace : list (list nat) :=
  [ [9]; [10]; [11]; [12]; [13]; [32];
    [194; 160];                       (* U+00A0 *)
    [225; 154; 128];                  (* U+1680 *)
    [226; 128; 128]; [226; 128; 129]; [226; 128; 130]; [226; 128; 131];
    [226; 128; 132]; [226; 128; 133]; [226; 128; 134]; [226; 128; 135];
    [226; 128; 136]; [226; 128; 137]; [226; 128; 138]; (* U+2000 .. U+200A *)
    [226; 128; 168]; [226; 128; 169]; (* U+2028, U+2029 *)
    [226; 128; 175];                  (* U+202F *)
    [226; 129; 159];                  (* U+205F *)
    [227; 128; 128];                  (* U+3000 *)
    [239; 187; 191] ].                (* U+FEFF *)

Definition bytes_of (s : string) : list nat :=
  List.map nat_of_ascii (list_ascii_of_string s).
Definition string_of_bytes (l : list nat) : string :=
  string_of_list_ascii (List.map ascii_of_nat l).

Fixpoint strip_prefix (p l : list nat) : option (list nat) :=
  match p, l with
  | [], _ => Some l
  | a :: p', b :: l' => if Nat.eqb a b then strip_prefix p' l' else None
  | _ :: _, [] => None
  end.

Fixpoint strip_one (pats : list (list nat)) (l : list nat) : option (list nat) :=
  match pats with
  | [] => None
  | p :: rest =>
      match strip_prefix p l with
      | Some l' => Some l'
      | None => strip_one rest l
      end
  end.

(** Drops leading white space; [fuel] bounds the number of characters
    dropped, and the length of the input always suffices. *)
Fixpoint skip_space (pats : list (list nat)) (fuel : nat) (l : list nat) : list nat :=
  match fuel with
  | O => l
  | S fuel' =>
      match strip_one pats l with
      | Some l' => skip_space pats fuel' l'
      | None => l
      end
  end.

Definition trimStart_bytes (l : list nat) : list nat :=
  skip_space whiteSpace (List.length l) l.
Definition trimEnd_bytes (l : list nat) : list nat :=
  List.rev (skip_space (List.map (@List.rev nat) whiteSpace) (List.length l) (List.rev l)).

(** [s.trim()] *)
Definition trim (s : string) : string :=
  string_of_bytes (trimEnd_bytes (trimStart_bytes (bytes_of s))).

Fixpoint prefixb (p s : string) : bool :=
  match p, s with
  | EmptyString, _ => true
  | String a p', String b s' => Ascii.eqb a b && prefixb p' s'
  | String _ _, EmptyString => false
  end.

(** [s.includes(needle)] *)
Fixpoint includes (s needle : string) : bool :=
  prefixb needle s ||
  match s with
  | EmptyString => false
  | String _ s' => includes s' needle
  end.

(** [escapeHtml]'s replacement table, applied to one character. *)
Definition escapeChar (c : ascii) : string :=
  match nat_of_ascii c with
  | 38 => "&amp;"
  | 60 => "&lt;"
  | 62 => "&gt;"
  | 34 => "&quot;"
  | 39 => "&#039;"
  | _ => String c EmptyString
  end.

Fixpoint escapeChars (s : string) : string :=
  match s with
  | EmptyString => EmptyString
  | String c s' => escapeChar c ++ escapeChars s'
  end.

Definition decimal_of_N (n : N) : string := NilZero.string_of_uint (N.to_uint n).
Definition decimal_of_nat (n : nat) : string := decimal_of_N (N.of_nat n).

(** ** Numbers *)

(** The binary64 value nearest to [m * 10^e] (ties to even), for [0 <= m]:
    the rounding [parseFloat] applies to the decimal it has read. The
    quotient by a power of ten is rounded once, by the format's own
    division of two exact integers. *)
Definition float_of_decimal (negative : bool) (m e : Z) : float :=
  match m with
  | Zpos p =>
      if (0 <=? e)%Z then
        SF2Prim (binary_normalize prec emax
                   (if negative then Z.neg (p * Z.to_pos (10 ^ e)) else Z.pos p * 10 ^ e) 0 false)
      else
        SF2Prim (SFdiv prec emax (S754_finite negative p 0)
                   (S754_finite false (Z.to_pos (10 ^ (- e))) 0))
  | _ => if negative then PrimFloat.neg_zero else PrimFloat.zero
  end.

Definition is_digit (c : ascii) : bool :=
  (48 <=? nat_of_ascii c)%nat && (nat_of_ascii c <=? 57)%nat.

Fixpoint span_digits (s : string) : string * string :=
  match s with
  | String c s' =>
      if is_digit c then let (d, r) := span_digits s' in (String c d, r)
      else (EmptyString, s)
  | EmptyString => (EmptyString, EmptyString)
  end.

Fixpoint digits_value (acc : Z) (s : string) : Z :=
  match s with
  | String c s' => digits_value (10 * acc + Z.of_nat (nat_of_ascii c - 48)) s'
  | EmptyString => acc
  end.

(** The sign that may open a numeric literal: the rest, and whether it was
    a minus. *)
Definition read_sign (s : string) : bool * string :=
  match s with
  | String "-" s' => (true, s')
  | String "+" s' => (false, s')
  | _ => (false, s)
  end.

(** The exponent part, when one follows: [e] or [E], an optional sign and
    at least one digit; 0 otherwise. *)
Definition read_exponent (s : string) : Z :=
  match s with
  | String c s' =>
      if Ascii.eqb c "e" || Ascii.eqb c "E" then
        let (neg, s'') := read_sign s' in
        let (ds, _) := span_digits s'' in
        match ds with
        | EmptyString => 0%Z
        | _ => if neg then (- digits_value 0 ds)%Z else digits_value 0 ds
        end
      else 0%Z
  | EmptyString => 0%Z
  end.

(** [parseFloat] on a string: the longest prefix of the trimmed string that
    is a StrDecimalLiteral, [NaN] when there is none. *)
Definition parseFloat_string (s : string) : float :=
  let t := string_of_bytes (trimStart_bytes (bytes_of s)) in
  let (negative, u) := read_sign t in
  if prefixb "Infinity" u then
    if negative then PrimFloat.neg_infinity else PrimFloat.infinity
  else
    let (int_part, r1) := span_digits u in
    let (frac_part, r2) :=
      match r1 with
      | String "." r => span_digits r
      | _ => (EmptyString, r1)
      end in
    match (int_part ++ frac_part)%string with
    | EmptyString => PrimFloat.nan
    | ds =>
        float_of_decimal negative (digits_value 0 ds)
          (read_exponent r2 - Z.of_nat (String.length frac_part))
    end.

Definition hex_value (c : ascii) : option Z :=
  let n := nat_of_ascii c in
  if (48 <=? n)%nat && (n <=? 57)%nat then Some (Z.of_nat (n - 48))
  else if (65 <=? n)%nat && (n <=? 70)%nat then Some (Z.of_nat (n - 55))
  else if (97 <=? n)%nat && (n <=? 102)%nat then Some (Z.of_nat (n - 87))
  else None.

(** The value of the longest prefix of hexadecimal digits, if it is not
    empty. *)
Fixpoint hex_digits (acc : option Z) (s : string) : option Z :=
  match s with
  | String c s' =>
      match hex_value c with
      | Some d => hex_digits (Some (16 * default 0%Z acc + d)%Z) s'
      | None => acc
      end
  | EmptyString => acc
  end.

(** [parseInt(s)] with no radix: white space and a sign are skipped, [0x]
    selects base 16, and the digits that follow give the integer, [NaN]
    when there is none. *)
Definition parseInt_string (s : string) : float :=
  let t := string_of_bytes (trimStart_bytes (bytes_of s)) in
  let (negative, u) := read_sign t in
  let magnitude :=
    if prefixb "0x" u || prefixb "0X" u then hex_digits None (String.substring 2 (String.length u) u)
    else match span_digits u with
         | (EmptyString, _) => None
         | (ds, _) => Some (digits_value 0 ds)
         end in
  match magnitude with
  | Some m => float_of_decimal negative m 0
  | None => PrimFloat.nan
  end.

(** [x.toFixed(2)] for [0 <= x < 1e21]: the integer [n] nearest to
    [100 * x] (the larger one on a tie), written with its last two digits
    after the point. [x] is [m * 2^e] exactly. *)
Definition fixed2_digits (m : positive) (e : Z) : string :=
  let n := if (0 <=? e)%Z then (100 * Z.pos m * 2 ^ e)%Z
           else ((200 * Z.pos m + 2 ^ (- e)) / 2 ^ (1 - e))%Z in
  let ds := decimal_of_N (Z.to_N n) in
  let ds := if (String.length ds <=? 2)%nat
            then (string_of_list_ascii (List.repeat "0"%char (3 - String.length ds)) ++ ds)%string
            else ds in
  let k := String.length ds in
  (String.substring 0 (k - 2) ds ++ "." ++ String.substring (k - 2) 2 ds)%string.

(** ** The host

    What the browser and the engine provide and this development takes as
    given: the decimal text of a number, Unicode case mapping, URI
    encoding, and the calendar and locale functions of [Date]. A time is
    the number of milliseconds since the epoch. *)
Class Host : Type := {
  (** [Number::toString(x)] *)
  Number_toString : float -> string;
  (** [s.toLowerCase()] *)
  String_toLowerCase : string -> string;
  (** [encodeURIComponent(s)] *)
  encodeURIComponent : string -> string;
  (** [new Date(t).toISOString()] *)
  Date_toISOString : Z -> string;
  (** [d.getDate()], [d.getDay()] and the time after [d.setDate(n)] *)
  Date_getDate : Z -> Z;
  Date_getDay : Z -> Z;
  Date_setDate : Z -> Z -> Z;
  (** [new Date(p).toLocaleDateString('fr-FR')] for a primitive [p] *)
  Date_toLocaleDateString : JsValue -> string;
}.

Section Conversions.
Context `{Host}.

(** [ToString], as template literals, [String(v)], [new Error(v)] and DOM
    string attributes apply it. An object parsed from JSON has no callable
    property: it converts to ["[object Object]"] through
    [Object.prototype.toString], unless an own [toString] property shadows
    that method, and then the conversion throws. An array is joined with
    commas, [null] and [undefined] elements giving the empty string. *)
Fixpoint ToString (v : JsValue) : Completion string :=
  match v with
  | JUndefined => Normal "undefined"
  | JNull => Normal "null"
  | JBool b => Normal (if b then "true" else "false")
  | JNum x => Normal (Number_toString x)
  | JStr s => Normal s
  | JArr items =>
      (fix join (first : bool) (l : list JsValue) : Completion string :=
         match l with
         | [] => Normal ""
         | x :: rest =>
             cbind (match x with
                    | JUndefined | JNull => Normal ""
                    | _ => ToString x
                    end) (fun s =>
             cbind (join false rest) (fun r =>
             Normal ((if first then "" else ",") ++ s ++ r)%string))
         end) true items
  | JObj fields =>
      match assoc "toString" fields with
      | Some _ => Throw TypeError_to_primitive
      | None => Normal "[object Object]"
      end
  end.

(** [parseFloat(v)] *)
Definition parseFloat (v : JsValue) : Completion float :=
  cbind (ToString v) (fun s => Normal (parseFloat_string s)).

(** [x.toFixed(2)] *)
Definition toFixed2 (x : float) : string :=
  if PrimFloat.is_nan x then "NaN"
  else
    let negative := PrimFloat.ltb x 0 in
    let a := if negative then PrimFloat.opp x else x in
    let digits :=
      if PrimFloat.leb 1e21 a then Number_toString a
      else match Prim2SF a with
           | S754_finite _ m e => fixed2_digits m e
           | _ => "0.00"
           end in
    ((if negative then "-" else "") ++ digits)%string.

(** [escapeHtml(text)] *)
Definition escapeHtml (text : JsValue) : Completion string :=
  cbind (ToString text) (fun s => Normal (escapeChars s)).

End Conversions.

(** A host for examples: numbers print as integers below [2^63] do,
    letters are ASCII, and dates are left as their time value. *)
Definition example_Number_toString (x : float) : string :=
  if PrimFloat.is_nan x then "NaN"
  else if PrimFloat.eqb x PrimFloat.infinity then "Infinity"
  else if PrimFloat.eqb x PrimFloat.neg_infinity then "-Infinity"
  else match Prim2SF x with
       | S754_finite s m e =>
           ((if s then "-" else "") ++ decimal_of_N (Z.to_N (Z.shiftl (Z.pos m) e)))%string
       | _ => "0"
       end.

Definition ascii_lower (c : ascii) : ascii :=
  let n := nat_of_ascii c in
  if (65 <=? n)%nat && (n <=? 90)%nat then ascii_of_nat (n + 32) else c.

Fixpoint ascii_toLowerCase (s : string) : string :=
  match s with
  | EmptyString => EmptyString
  | String c s' => String (ascii_lower c) (ascii_toLowerCase s')
  end.

Definition example_host : Host := {|
  Number_toString := example_Number_toString;
  String_toLowerCase := ascii_toLowerCase;
  encodeURIComponent := fun s => s;
  Date_toISOString := fun t => decimal_of_N (Z.to_N t);
  Date_getDate := fun _ => 1%Z;
  Date_getDay := fun _ => 1%Z;
  Date_setDate := fun t _ => t;
  Date_toLocaleDateString := fun _ => "01/01/1970";
|}.

(** ** The page

    The elements the scripts look up by id, and what they write into
    them. [index.html] supplies the page; an element's content is kept as
    the nodes the scripts put there, not as markup: assigning a template
    to [innerHTML] leaves the template's element between the text nodes of
    its leading and trailing white space. *)

Inductive Node : Type :=
| NSpace                            (* a text node of template white space *)
| NLoading                          (* showLoading's [div.loading] *)
| NEmptyState (message : string)    (* showEmpty's [div.empty-state] *)
| NErrorMessage (message : string)  (* showError's [div.error-message.show] *)
| NGradesSummary (average : string) (count : nat)
| NGradeItem (subject date coefficient grade out_of : string) (comment : option string)
| NMessage (role content : string)  (* a chat bubble; its time label is not kept *)
| NTypingIndicator                  (* [div#typing-indicator] *)
| NGreeting                         (* the greeting bubble clearMessages writes *)
| NOption (value text : string)     (* an [option] of the ENT selector *)
| NExternal (html : string).        (* anything else *)

Record Element : Type := mkElement {
  children : list Node;
  textContent : string;
  value : string;
  defaultValue : string;
  form : option string;      (* the id of the form that owns this control *)
  classList : gset string;
}.

Definition with_children (c : list Node) (el : Element) : Element :=
  mkElement c (textContent el) (value el) (defaultValue el) (form el) (classList el).
Definition with_textContent (t : string) (el : Element) : Element :=
  mkElement (children el) t (value el) (defaultValue el) (form el) (classList el).
Definition with_value (v : string) (el : Element) : Element :=
  mkElement (children el) (textContent el) v (defaultValue el) (form el) (classList el).
Definition with_classList (c : gset string) (el : Element) : Element :=
  mkElement (children el) (textContent el) (value el) (defaultValue el) (form el) c.

(** ** The network *)

Record RequestInit : Type := mkRequestInit {
  method : option string;
  body : option JsValue;     (* the value whose JSON text is the body *)
  headers : gmap string string;
}.

(** What [response.json()] settles to. *)
Inductive Body : Type :=
| Json (v : JsValue)
| NotJson (e : JsError).

(** How a call to [fetch] settles: rejected (no response reached the
    client), or fulfilled with a response of some status. *)
Inductive FetchOutcome : Type :=
| NetworkFailure (e : JsError)
| Response (status : nat) (body : Body).

(** [response.ok] *)
Definition ok (status : nat) : bool := (200 <=? status)%nat && (status <=? 299)%nat.

(** ** The application state *)

Record App : Type := mkApp {
  (* window.apiClient *)
  accessToken : JsValue;
  (* window.authManager *)
  currentUser : JsValue;
  (* window.pronoteDataManager.data *)
  homework : JsValue;
  timetable : JsValue;
  grades : JsValue;
  (* window.chatManager *)
  messages : list (string * JsValue);
  isTyping : bool;
  (* the browser *)
  sessionStorage : gmap string string;
  document : gmap string Element;
  submitDisabled : bool;                  (* [disabled] of the submit buttons *)
  sent : list (string * RequestInit);     (* the calls to fetch, oldest first *)
  clock : Z;                              (* what [Date.now()] reads *)
}.

Definition with_accessToken (v : JsValue) (a : App) : App :=
  mkApp v (currentUser a) (homework a) (timetable a) (grades a) (messages a) (isTyping a)
        (sessionStorage a) (document a) (submitDisabled a) (sent a) (clock a).
Definition with_currentUser (v : JsValue) (a : App) : App :=
  mkApp (accessToken a) v (homework a) (timetable a) (grades a) (messages a) (isTyping a)
        (sessionStorage a) (document a) (submitDisabled a) (sent a) (clock a).
Definition with_homework (v : JsValue) (a : App) : App :=
  mkApp (accessToken a) (currentUser a) v (timetable a) (grades a) (messages a) (isTyping a)
        (sessionStorage a) (document a) (submitDisabled a) (sent a) (clock a).
Definition with_timetable (v : JsValue) (a : App) : App :=
  mkApp (accessToken a) (currentUser a) (homework a) v (grades a) (messages a) (isTyping a)
        (sessionStorage a) (document a) (submitDisabled a) (sent a) (clock a).
Definition with_grades (v : JsValue) (a : App) : App :=
  mkApp (accessToken a) (currentUser a) (homework a) (timetable a) v (messages a) (isTyping a)
        (sessionStorage a) (document a) (submitDisabled a) (sent a) (clock a).
Definition with_messages (v : list (string * JsValue)) (a : App) : App :=
  mkApp (accessToken a) (currentUser a) (homework a) (timetable a) (grades a) v (isTyping a)
        (sessionStorage a) (document a) (submitDisabled a) (sent a) (clock a).
Definition with_isTyping (v : bool) (a : App) : App :=
  mkApp (accessToken a) (currentUser a) (homework a) (timetable a) (grades a) (messages a) v
        (sessionStorage a) (document a) (submitDisabled a) (sent a) (clock a).
Definition with_sessionStorage (v : gmap string string) (a : App) : App :=
  mkApp (accessToken a) (currentUser a) (homework a) (timetable a) (grades a) (messages a)
        (isTyping a) v (document a) (submitDisabled a) (sent a) (clock a).
Definition with_document (v : gmap string Element) (a : App) : App :=
  mkApp (accessToken a) (currentUser a) (homework a) (timetable a) (grades a) (messages a)
        (isTyping a) (sessionStorage a) v (submitDisabled a) (sent a) (clock a).
Definition with_submitDisabled (v : bool) (a : App) : App :=
  mkApp (accessToken a) (currentUser a) (homework a) (timetable a) (grades a) (messages a)
        (isTyping a) (sessionStorage a) (document a) v (sent a) (clock a).
Definition with_sent (v : list (string * RequestInit)) (a : App) : App :=
  mkApp (accessToken a) (currentUser a) (homework a) (timetable a) (grades a) (messages a)
        (isTyping a) (sessionStorage a) (document a) (submitDisabled a) v (clock a).

(** ** Computations

    [M A] is a piece of script: from a state it reaches a new state and
    either a value or a thrown error. *)
Definition M (A : Type) : Type := App -> App * Completion A.

Definition ret {A} (a : A) : M A := fun st => (st, Normal a).
Definition throw {A} (e : JsError) : M A := fun st => (st, Throw e).
Definition bind {A B} (m : M A) (k : A -> M B) : M B :=
  fun st => match m st with
            | (st', Normal a) => k a st'
            | (st', Throw e) => (st', Throw e)
            end.
Definition lift {A} (c : Completion A) : M A := fun st => (st, c).
Definition gets {A} (f : App -> A) : M A := fun st => (st, Normal (f st)).
Definition modify (f : App -> App) : M unit := fun st => (f st, Normal tt).

Declare Scope js_scope.
Delimit Scope js_scope with js.
Notation "x <~ m ;; k" := (bind m (fun x => k))
  (at level 100, m at next level, right associativity) : js_scope.
Local Open Scope js_scope.

(** [try { body } catch (error) { handler }] *)
Definition try_catch {A} (body : M A) (handler : JsError -> M A) : M A :=
  fun st => match body st with
            | (st', Normal a) => (st', Normal a)
            | (st', Throw e) => handler e st'
            end.

(** [try { body } finally { final }]: [final] runs however [body] ends; the
    completion is [body]'s unless [final] itself throws. *)
Definition try_finally {A} (body : M A) (final : M unit) : M A :=
  fun st => match body st with
            | (st', c) =>
                match final st' with
                | (st'', Normal _) => (st'', c)
                | (st'', Throw e) => (st'', Throw e)
                end
            end.

(** [document.getElementById(id)] *)
Definition getElementById (id : string) : M (option Element) :=
  gets (fun st => document st !! id).

(** A write to the element [id], which the caller has found. *)
Definition update (id : string) (f : Element -> Element) : M unit :=
  modify (fun st => with_document (alter f id (document st)) st).

(** ** config.js *)

Module CONFIG.
Definition API_BASE_URL : string := "http://localhost:8000".
Definition AI_CONFIG_model : string := "deepseek/deepseek-r1:free".
Definition MAX_CHAT_MESSAGES : nat := 100.
End CONFIG.

(** ** api-client.js *)

(** The [options] argument of [request]; an absent [headers] is the empty
    map. *)
Record Options : Type := mkOptions {
  opt_method : option string;
  opt_body : option JsValue;
  opt_headers : gmap string string;
}.

(** [JSON.stringify(data)] as a request body: [undefined] has no JSON
    text. *)
Definition JSON_stringify (data : JsValue) : option JsValue :=
  match data with
  | JUndefined => None
  | _ => Some data
  end.

(** A parameter with a default value: [undefined] selects the default. *)
Definition or_default (v d : JsValue) : JsValue :=
  match v with
  | JUndefined => d
  | _ => v
  end.

Module APIClient.
Section APIClient.
Context `{Host}.

Definition saveToken (token : JsValue) : M unit :=
  s <~ lift (ToString token) ;;
  _ <~ modify (fun st => with_sessionStorage (<["access_token" := s]> (sessionStorage st)) st) ;;
  modify (with_accessToken token).

Definition loadToken : M JsValue :=
  gets (fun st => match sessionStorage st !! "access_token" with
                  | Some s => JStr s
                  | None => JNull
                  end).

Definition clearToken : M unit :=
  _ <~ modify (fun st => with_sessionStorage (delete "access_token" (sessionStorage st)) st) ;;
  modify (with_accessToken JNull).

Definition isAuthenticated : M bool :=
  gets (fun st => truthy (accessToken st)).

(** [new APIClient()] *)
Definition constructor : M unit :=
  token <~ loadToken ;;
  modify (with_accessToken token).

(** [request], up to and including its call to [fetch]: the url and the
    config are built and the request leaves. *)
Definition request_send (endpoint : string) (options : Options) : M unit :=
  let url := (CONFIG.API_BASE_URL ++ endpoint)%string in
  let defaultHeaders : gmap string string := {[ "Content-Type" := "application/json" ]} in
  token <~ gets accessToken ;;
  defaultHeaders <~
    (if truthy token then
       t <~ lift (ToString token) ;;
       ret (<["Authorization" := ("Bearer " ++ t)%string]> defaultHeaders)
     else ret defaultHeaders) ;;
  let config :=
    mkRequestInit (opt_method options) (opt_body options)
                  (opt_headers options ∪ defaultHeaders) in
  modify (fun st => with_sent (sent st ++ [(url, config)]) st).

(** [request], from the settlement of [fetch] on. *)
Definition request_receive (o : FetchOutcome) : M JsValue :=
  try_catch
    match o with
    | NetworkFailure e => throw e
    | Response status body =>
        if Nat.eqb status 401 then
          _ <~ clearToken ;;
          throw (mkError "Error" "Session expirée. Veuillez vous reconnecter.")
        else if negb (ok status) then
          let errorData := match body with
                           | Json v => v
                           | NotJson _ => JObj []
                           end in
          detail <~ lift (GetV errorData "detail") ;;
          message <~
            (if truthy detail then ret detail
             else
               error <~ lift (GetV errorData "error") ;;
               if truthy error then ret error
               else ret (JStr ("Erreur HTTP " ++ decimal_of_nat status)%string)) ;;
          m <~ lift (ToString message) ;;
          throw (mkError "Error" m)
        else
          match body with
          | Json data => ret data
          | NotJson e => throw e
          end
    end
    (fun error => throw error).

Definition request (endpoint : string) (options : Options) (o : FetchOutcome) : M JsValue :=
  _ <~ request_send endpoint options ;;
  request_receive o.

Definition get (endpoint : string) (o : FetchOutcome) : M JsValue :=
  request endpoint (mkOptions (Some "GET") None ∅) o.

Definition post (endpoint : string) (data : JsValue) (o : FetchOutcome) : M JsValue :=
  request endpoint (mkOptions (Some "POST") (JSON_stringify data) ∅) o.

Definition delete (endpoint : string) (o : FetchOutcome) : M JsValue :=
  request endpoint (mkOptions (Some "DELETE") None ∅) o.

Definition loginDirect (pronoteUrl username password accountType : JsValue)
    (o : FetchOutcome) : M JsValue :=
  response <~ post "/api/auth/login/direct"
                (JObj [ ("pronote_url", pronoteUrl); ("username", username);
                        ("password", password);
                        ("account_type", or_default accountType (JNum 3)) ]) o ;;
  success <~ lift (GetV response "success") ;;
  _ <~ (if truthy success then
          access_token <~ lift (GetV response "access_token") ;;
          if truthy access_token then saveToken access_token else ret tt
        else ret tt) ;;
  ret response.

Definition loginCAS (pronoteUrl username password entName : JsValue)
    (o : FetchOutcome) : M JsValue :=
  response <~ post "/api/auth/login/cas"
                (JObj [ ("pronote_url", pronoteUrl); ("username", username);
                        ("password", password); ("ent_name", entName) ]) o ;;
  success <~ lift (GetV response "success") ;;
  _ <~ (if truthy success then
          access_token <~ lift (GetV response "access_token") ;;
          if truthy access_token then saveToken access_token else ret tt
        else ret tt) ;;
  ret response.

Definition logout (o : FetchOutcome) : M unit :=
  try_finally
    (_ <~ post "/api/auth/logout" JUndefined o ;; ret tt)
    clearToken.

Definition getHomework (dateFrom dateTo : JsValue) (o : FetchOutcome) : M JsValue :=
  post "/api/pronote/homework"
    (JObj [ ("date_from", or_default dateFrom JNull);
            ("date_to", or_default dateTo JNull) ]) o.

Definition getTimetable (dateFrom dateTo : JsValue) (o : FetchOutcome) : M JsValue :=
  post "/api/pronote/timetable"
    (JObj [ ("date_from", or_default dateFrom JNull);
            ("date_to", or_default dateTo JNull) ]) o.

Definition getGrades (periodName : JsValue) (o : FetchOutcome) : M JsValue :=
  let periodName := or_default periodName JNull in
  params <~ (if truthy periodName then
               p <~ lift (ToString periodName) ;;
               ret ("?period_name=" ++ encodeURIComponent p)%string
             else ret "") ;;
  post ("/api/pronote/grades" ++ params) JUndefined o.

Definition sendChatMessage (message context : JsValue) (o : FetchOutcome) : M JsValue :=
  post "/api/ai/chat"
    (JObj [ ("message", message); ("context", or_default context JNull);
            ("model", JStr CONFIG.AI_CONFIG_model) ]) o.

Definition getENTs (o : FetchOutcome) : M JsValue := get "/api/ents" o.

Definition healthCheck (o : FetchOutcome) : M JsValue := get "/api/health" o.

(** *** Calls that are not awaited

    A caller that does not await an endpoint method runs it up to its call
    to [fetch] and goes on; these are the methods up to that point. *)

Definition get_send (endpoint : string) : M unit :=
  request_send endpoint (mkOptions (Some "GET") None ∅).

Definition post_send (endpoint : string) (data : JsValue) : M unit :=
  request_send endpoint (mkOptions (Some "POST") (JSON_stringify data) ∅).

Definition getHomework_send (dateFrom dateTo : JsValue) : M unit :=
  post_send "/api/pronote/homework"
    (JObj [ ("date_from", or_default dateFrom JNull);
            ("date_to", or_default dateTo JNull) ]).

Definition getTimetable_send (dateFrom dateTo : JsValue) : M unit :=
  post_send "/api/pronote/timetable"
    (JObj [ ("date_from", or_default dateFrom JNull);
            ("date_to", or_default dateTo JNull) ]).

Definition getGrades_send (periodName : JsValue) : M unit :=
  let periodName := or_default periodName JNull in
  params <~ (if truthy periodName then
               p <~ lift (ToString periodName) ;;
               ret ("?period_name=" ++ encodeURIComponent p)%string
             else ret "") ;;
  post_send ("/api/pronote/grades" ++ params) JUndefined.

Definition getENTs_send : M unit := get_send "/api/ents".

Definition sendChatMessage_send (message context : JsValue) : M unit :=
  post_send "/api/ai/chat"
    (JObj [ ("message", message); ("context", or_default context JNull);
            ("model", JStr CONFIG.AI_CONFIG_model) ]).

End APIClient.
End APIClient.

(** ** Arrays and operators *)

(** The receiver of an array method ([filter], [forEach], [slice], [map]):
    on anything but an array the property is absent or not callable and
    the call throws. *)
Definition array_method (what : string) (v : JsValue) : Completion (list JsValue) :=
  match v with
  | JArr items => Normal items
  | JUndefined => Throw (TypeError_nullish "undefined" what)
  | JNull => Throw (TypeError_nullish "null" what)
  | _ => Throw (TypeError_not_function what)
  end.

(** [v === 0] *)
Definition strict_eq_zero (v : JsValue) : bool :=
  match v with
  | JNum x => PrimFloat.eqb x 0
  | _ => false
  end.

(** [v.length === 0] *)
Definition length_is_zero (v : JsValue) : Completion bool :=
  match v with
  | JArr [] => Normal true
  | JArr (_ :: _) => Normal false
  | JStr s => Normal (String.eqb s "")
  | _ => cbind (GetV v "length") (fun n => Normal (strict_eq_zero n))
  end.

(** [ToPrimitive]: an object or an array becomes its string. *)
Definition ToPrimitive `{Host} (v : JsValue) : Completion JsValue :=
  match v with
  | JArr _ | JObj _ => cbind (ToString v) (fun s => Normal (JStr s))
  | _ => Normal v
  end.

(** [items.filter(keep)] with a callback that may throw. *)
Fixpoint filterC (keep : JsValue -> Completion bool) (items : list JsValue)
    : Completion (list JsValue) :=
  match items with
  | [] => Normal []
  | x :: rest =>
      cbind (keep x) (fun b =>
      cbind (filterC keep rest) (fun kept =>
      Normal (if b then x :: kept else kept)))
  end.

(** [items.reduce(step, init)] with a callback that may throw. *)
Fixpoint reduceC {A} (step : A -> JsValue -> Completion A) (init : A)
    (items : list JsValue) : Completion A :=
  match items with
  | [] => Normal init
  | x :: rest => cbind (step init x) (fun acc => reduceC step acc rest)
  end.

(** [items.forEach(action)] *)
Fixpoint forEach {A} (action : A -> M unit) (items : list A) : M unit :=
  match items with
  | [] => ret tt
  | x :: rest => (_ <~ action x ;; forEach action rest)%js
  end.

(** ** pronote-data.js *)

Module PronoteDataManager.
Section PronoteDataManager.
Context `{Host}.

(** The rendering of the homework and timetable lists, which formats dates
    for the locale and groups and sorts lessons, is outside this
    development: the two methods are parameters, and what is proved of
    their callers holds whatever they do. *)
Variable displayHomework : JsValue -> M unit.
Variable displayTimetable : JsValue -> M unit.

Definition showLoading (container : string) : M unit :=
  update container (with_children [NLoading]).

Definition showEmpty (container message : string) : M unit :=
  update container (with_children [NSpace; NEmptyState message; NSpace]).

Definition showError (container message : string) : M unit :=
  update container (with_children [NSpace; NErrorMessage message; NSpace]).

Definition appendChild (container : string) (node : Node) : M unit :=
  update container (fun el => with_children (children el ++ [node]) el).

(** [g => g.grade && g.out_of], as [filter] reads it. *)
Definition isValidGrade (g : JsValue) : Completion bool :=
  cbind (GetV g "grade") (fun grade =>
  if truthy grade then cbind (GetV g "out_of") (fun out_of => Normal (truthy out_of))
  else Normal false).

(** [(sum, g) => sum + (parseFloat(g.grade) / parseFloat(g.out_of)) * 20] *)
Definition addGrade (sum : float) (g : JsValue) : Completion float :=
  cbind (GetV g "grade") (fun grade =>
  cbind (parseFloat grade) (fun a =>
  cbind (GetV g "out_of") (fun out_of =>
  cbind (parseFloat out_of) (fun b =>
  Normal (sum + (a / b) * 20)%float)))).

(** Lines 261-265 of [displayGrades]: the entries that count and their
    average out of 20, when there is one. *)
Definition gradesAverage (grades : list JsValue)
    : Completion (list JsValue * option float) :=
  cbind (filterC isValidGrade grades) (fun validGrades =>
  if (0 <? List.length validGrades)%nat then
    cbind (reduceC addGrade 0%float validGrades) (fun sum =>
    Normal (validGrades, Some (sum / nat_to_float (List.length validGrades))%float))
  else Normal (validGrades, None)).

(** The body of the [forEach] of [displayGrades]. *)
Definition displayGrade (grade : JsValue) : M unit :=
  g <~ lift (GetV grade "grade") ;;
  if negb (truthy g) then ret tt
  else
    d <~ lift (GetV grade "date") ;;
    date <~ (if truthy d then
               p <~ lift (ToPrimitive d) ;; ret (Date_toLocaleDateString p)
             else ret "Date inconnue") ;;
    subject <~ lift (cbind (GetV grade "subject") escapeHtml) ;;
    coefficient <~ lift (cbind (GetV grade "coefficient") (fun c =>
                         ToString (if truthy c then c else JNum 1))) ;;
    value <~ lift (ToString g) ;;
    out_of <~ lift (cbind (GetV grade "out_of") (fun v =>
                    ToString (if truthy v then v else JNum 20))) ;;
    comment <~ lift (cbind (GetV grade "comment") (fun c =>
                     if truthy c then cbind (escapeHtml c) (fun s => Normal (Some s))
                     else Normal None)) ;;
    appendChild "grades-list" (NGradeItem subject date coefficient value out_of comment).

Definition displayGrades (grades : JsValue) : M unit :=
  container <~ getElementById "grades-list" ;;
  match container with
  | None => ret tt
  | Some _ =>
      empty <~ lift (length_is_zero grades) ;;
      if empty then showEmpty "grades-list" "Aucune note disponible"
      else
        _ <~ update "grades-list" (with_children []) ;;
        items <~ lift (array_method "grades.filter" grades) ;;
        r <~ lift (gradesAverage items) ;;
        _ <~ match r with
             | (validGrades, Some average) =>
                 appendChild "grades-list"
                   (NGradesSummary (toFixed2 average) (List.length validGrades))
             | (_, None) => ret tt
             end ;;
        forEach displayGrade items
  end.

(** [response.success && response.field], as a condition. *)
Definition hasData (response : JsValue) (field : string) : Completion bool :=
  cbind (GetV response "success") (fun success =>
  if truthy success then cbind (GetV response field) (fun v => Normal (truthy v))
  else Normal false).

Definition loadHomework (o : FetchOutcome) : M unit :=
  container <~ getElementById "homework-list" ;;
  match container with
  | None => ret tt
  | Some _ =>
      _ <~ showLoading "homework-list" ;;
      try_catch
        (now <~ gets clock ;;
         let dateFrom := Date_toISOString now in
         let dateTo := Date_toISOString (now + 14 * 24 * 60 * 60 * 1000) in
         response <~ APIClient.getHomework (JStr dateFrom) (JStr dateTo) o ;;
         present <~ lift (hasData response "homework") ;;
         if present then
           list <~ lift (GetV response "homework") ;;
           _ <~ modify (with_homework list) ;;
           displayHomework list
         else showEmpty "homework-list" "Aucun devoir à venir")
        (fun error => showError "homework-list" "Erreur lors du chargement des devoirs")
  end.

Definition loadTimetable (o : FetchOutcome) : M unit :=
  container <~ getElementById "timetable-list" ;;
  match container with
  | None => ret tt
  | Some _ =>
      _ <~ showLoading "timetable-list" ;;
      try_catch
        (today <~ gets clock ;;
         let monday := Date_setDate today (Date_getDate today - Date_getDay today + 1) in
         let sunday := Date_setDate monday (Date_getDate monday + 6) in
         response <~ APIClient.getTimetable (JStr (Date_toISOString monday))
                       (JStr (Date_toISOString sunday)) o ;;
         present <~ lift (hasData response "timetable") ;;
         if present then
           list <~ lift (GetV response "timetable") ;;
           _ <~ modify (with_timetable list) ;;
           displayTimetable list
         else showEmpty "timetable-list" "Aucun cours cette semaine")
        (fun error =>
           showError "timetable-list" "Erreur lors du chargement de l'emploi du temps")
  end.

Definition loadGrades (o : FetchOutcome) : M unit :=
  container <~ getElementById "grades-list" ;;
  match container with
  | None => ret tt
  | Some _ =>
      _ <~ showLoading "grades-list" ;;
      try_catch
        (response <~ APIClient.getGrades JUndefined o ;;
         present <~ lift (hasData response "grades") ;;
         if present then
           list <~ lift (GetV response "grades") ;;
           _ <~ modify (with_grades list) ;;
           displayGrades list
         else showEmpty "grades-list" "Aucune note disponible")
        (fun error => showError "grades-list" "Erreur lors du chargement des notes")
  end.

Definition clearAllData : M unit :=
  _ <~ modify (fun st => with_homework (JArr []) (with_timetable (JArr []) (with_grades (JArr []) st))) ;;
  forEach (fun id =>
             container <~ getElementById id ;;
             match container with
             | Some _ => showEmpty id "Connectez-vous pour voir vos données"
             | None => ret tt
             end)
          ["homework-list"; "timetable-list"; "grades-list"].

(** [new PronoteDataManager()] *)
Definition constructor : M unit :=
  modify (fun st => with_homework (JArr []) (with_timetable (JArr []) (with_grades (JArr []) st))).

(** *** [loadAllData], not awaited

    [onLoginSuccess] calls [loadAllData()] and goes on: each of the three
    loaders runs up to its [await] (the container shows the loading state
    and the request leaves) and settles later, by its [_resume]. A loader
    whose request cannot be built reports its error at once. *)

Definition loadHomework_begin : M bool :=
  container <~ getElementById "homework-list" ;;
  match container with
  | None => ret false
  | Some _ =>
      _ <~ showLoading "homework-list" ;;
      try_catch
        (now <~ gets clock ;;
         let dateFrom := Date_toISOString now in
         let dateTo := Date_toISOString (now + 14 * 24 * 60 * 60 * 1000) in
         _ <~ APIClient.getHomework_send (JStr dateFrom) (JStr dateTo) ;;
         ret true)
        (fun error =>
           _ <~ showError "homework-list" "Erreur lors du chargement des devoirs" ;;
           ret false)
  end.

Definition loadHomework_resume (o : FetchOutcome) : M unit :=
  try_catch
    (response <~ APIClient.request_receive o ;;
     present <~ lift (hasData response "homework") ;;
     if present then
       list <~ lift (GetV response "homework") ;;
       _ <~ modify (with_homework list) ;;
       displayHomework list
     else showEmpty "homework-list" "Aucun devoir à venir")
    (fun error => showError "homework-list" "Erreur lors du chargement des devoirs").

Definition loadTimetable_begin : M bool :=
  container <~ getElementById "timetable-list" ;;
  match container with
  | None => ret false
  | Some _ =>
      _ <~ showLoading "timetable-list" ;;
      try_catch
        (today <~ gets clock ;;
         let monday := Date_setDate today (Date_getDate today - Date_getDay today + 1) in
         let sunday := Date_setDate monday (Date_getDate monday + 6) in
         _ <~ APIClient.getTimetable_send (JStr (Date_toISOString monday))
                (JStr (Date_toISOString sunday)) ;;
         ret true)
        (fun error =>
           _ <~ showError "timetable-list" "Erreur lors du chargement de l'emploi du temps" ;;
           ret false)
  end.

Definition loadTimetable_resume (o : FetchOutcome) : M unit :=
  try_catch
    (response <~ APIClient.request_receive o ;;
     present <~ lift (hasData response "timetable") ;;
     if present then
       list <~ lift (GetV response "timetable") ;;
       _ <~ modify (with_timetable list) ;;
       displayTimetable list
     else showEmpty "timetable-list" "Aucun cours cette semaine")
    (fun error =>
       showError "timetable-list" "Erreur lors du chargement de l'emploi du temps").

Definition loadGrades_begin : M bool :=
  container <~ getElementById "grades-list" ;;
  match container with
  | None => ret false
  | Some _ =>
      _ <~ showLoading "grades-list" ;;
      try_catch
        (_ <~ APIClient.getGrades_send JUndefined ;; ret true)
        (fun error =>
           _ <~ showError "grades-list" "Erreur lors du chargement des notes" ;;
           ret false)
  end.

Definition loadGrades_resume (o : FetchOutcome) : M unit :=
  try_catch
    (response <~ APIClient.request_receive o ;;
     present <~ lift (hasData response "grades") ;;
     if present then
       list <~ lift (GetV response "grades") ;;
       _ <~ modify (with_grades list) ;;
       displayGrades list
     else showEmpty "grades-list" "Aucune note disponible")
    (fun error => showError "grades-list" "Erreur lors du chargement des notes").

(** [loadAllData()] up to its [await]: the three loaders have begun. *)
Definition loadAllData_begin : M unit :=
  _ <~ loadHomework_begin ;;
  _ <~ loadTimetable_begin ;;
  _ <~ loadGrades_begin ;;
  ret tt.

End PronoteDataManager.
End PronoteDataManager.

(** ** The chat manager (chat.js) *)

(** A value assigned to a nullable DOM string attribute ([textContent]):
    [null] and [undefined] give the empty string. *)
Definition DOMString_nullable `{Host} (v : JsValue) : Completion string :=
  match v with
  | JUndefined | JNull => Normal ""
  | _ => ToString v
  end.

(** [items.map(f)] with a callback that may throw. *)
Fixpoint mapC (f : JsValue -> Completion JsValue) (items : list JsValue)
    : Completion (list JsValue) :=
  match items with
  | [] => Normal []
  | x :: rest =>
      cbind (f x) (fun y => cbind (mapC f rest) (fun ys => Normal (y :: ys)))
  end.

(** [v.slice(0, n).map(f)]: an array gives the images of its first [n]
    elements; a string is sliced to a string, which has no [map]; nothing
    else has a [slice]. *)
Definition slice_map (what : string) (v : JsValue) (n : nat)
    (f : JsValue -> Completion JsValue) : Completion JsValue :=
  match v with
  | JArr items => cbind (mapC f (firstn n items)) (fun l => Normal (JArr l))
  | JStr _ => Throw (TypeError_not_function (what ++ ".slice(...).map"))
  | JUndefined => Throw (TypeError_nullish "undefined" "slice")
  | JNull => Throw (TypeError_nullish "null" "slice")
  | _ => Throw (TypeError_not_function (what ++ ".slice"))
  end.

(** An object literal whose fields are properties of one value,
    [{ a: v.p, ... }], given as the pairs of [a] and [p]. *)
Fixpoint pick (v : JsValue) (names : list (string * string))
    : Completion (list (string * JsValue)) :=
  match names with
  | [] => Normal []
  | (a, p) :: rest =>
      cbind (GetV v p) (fun x => cbind (pick v rest) (fun l => Normal ((a, x) :: l)))
  end.

Definition includes_any (s : string) (words : list string) : bool :=
  existsb (includes s) words.

Module ChatManager.
Section ChatManager.
Context `{Host}.

Definition addMessage (role : string) (content : JsValue) : M unit :=
  chatContainer <~ getElementById "chat-messages" ;;
  match chatContainer with
  | None => ret tt
  | Some _ =>
      text <~ lift (DOMString_nullable content) ;;
      _ <~ update "chat-messages" (fun el => with_children (children el ++ [NMessage role text]) el) ;;
      _ <~ modify (fun st => with_messages (messages st ++ [(role, content)]) st) ;;
      stored <~ gets messages ;;
      if (CONFIG.MAX_CHAT_MESSAGES <? List.length stored)%nat then
        _ <~ modify (with_messages
                       (skipn (List.length stored - CONFIG.MAX_CHAT_MESSAGES) stored)) ;;
        update "chat-messages" (fun el =>
          let elements := List.filter (fun n => match n with NSpace => false | _ => true end)
                            (children el) in
          let messagesToRemove := (List.length elements - CONFIG.MAX_CHAT_MESSAGES)%nat in
          with_children (skipn messagesToRemove (children el)) el)
      else ret tt
  end.

Definition showTypingIndicator : M unit :=
  chatContainer <~ getElementById "chat-messages" ;;
  match chatContainer with
  | None => ret tt
  | Some _ =>
      update "chat-messages" (fun el => with_children (children el ++ [NTypingIndicator]) el)
  end.

Fixpoint remove_indicator (l : list Node) : list Node :=
  match l with
  | [] => []
  | NTypingIndicator :: rest => rest
  | n :: rest => n :: remove_indicator rest
  end.

(** The page has no element of its own with the id [typing-indicator]:
    the one found, if any, is the one [showTypingIndicator] appended. *)
Definition hideTypingIndicator : M unit :=
  update "chat-messages" (fun el => with_children (remove_indicator (children el)) el).

(** The context [buildContext] assembles from the data of the data
    manager and the current user. *)
Definition contextFor (message : string) (homework timetable grades student : JsValue)
    : Completion JsValue :=
  let messageLower := String_toLowerCase message in
  let context := [("student", student)] in
  cbind
    (if includes_any messageLower
          ["devoir"; "dm"; "exercice"; "travail"; "demain"; "semaine"] then
       cbind (slice_map "data.homework" homework 10 (fun hw =>
                cbind (pick hw [("subject", "subject"); ("description", "description");
                                ("date", "date"); ("done", "done")])
                      (fun o => Normal (JObj o))))
             (fun l => Normal (context ++ [("homework", l)]))
     else Normal context) (fun context =>
  cbind
    (if includes_any messageLower
          ["emploi"; "cours"; "horaire"; "quand"; "prochain"] then
       cbind (slice_map "data.timetable" timetable 15 (fun lesson =>
                cbind (pick lesson [("subject", "subject"); ("teacher", "teacher");
                                    ("start", "start"); ("end", "end");
                                    ("room", "classroom")])
                      (fun o => Normal (JObj o))))
             (fun l => Normal (context ++ [("timetable", l)]))
     else Normal context) (fun context =>
  cbind
    (if includes_any messageLower ["note"; "moyenne"; "résultat"] then
       cbind (slice_map "data.grades" grades 20 (fun grade =>
                cbind (pick grade [("subject", "subject"); ("grade", "grade");
                                   ("out_of", "out_of"); ("date", "date")])
                      (fun o => Normal (JObj o))))
             (fun l => Normal (context ++ [("grades", l)]))
     else Normal context) (fun context =>
  match assoc "homework" context, assoc "timetable" context, assoc "grades" context with
  | None, None, None =>
      cbind (GetV homework "length") (fun h =>
      cbind (GetV timetable "length") (fun t =>
      cbind (GetV grades "length") (fun g =>
      Normal (JObj (context ++ [("summary", JObj [("homework_count", h);
                                                  ("timetable_count", t);
                                                  ("grades_count", g)])])))))
  | _, _, _ => Normal (JObj context)
  end))).

Definition buildContext (message : string) : M JsValue :=
  st <~ gets (fun st => st) ;;
  lift (contextFor message (homework st) (timetable st) (grades st) (currentUser st)).

Definition sendMessage (o : FetchOutcome) : M unit :=
  input <~ getElementById "chat-input" ;;
  match input with
  | None => throw (TypeError_nullish "null" "value")
  | Some input =>
      let message := trim (value input) in
      typing <~ gets isTyping ;;
      if String.eqb message "" || typing then ret tt
      else
        _ <~ addMessage "user" (JStr message) ;;
        _ <~ update "chat-input" (with_value "") ;;
        _ <~ showTypingIndicator ;;
        _ <~ modify (with_isTyping true) ;;
        try_finally
          (try_catch
             (context <~ buildContext message ;;
              response <~ APIClient.sendChatMessage (JStr message) context o ;;
              success <~ lift (GetV response "success") ;;
              reply <~ (if truthy success then lift (GetV response "response")
                        else ret success) ;;
              if truthy reply then addMessage "assistant" reply
              else addMessage "assistant"
                     (JStr "Désolé, je n'ai pas pu traiter votre demande."))
             (fun error =>
                addMessage "assistant" (JStr "Une erreur est survenue. Veuillez réessayer.")))
          (_ <~ hideTypingIndicator ;; modify (with_isTyping false))
  end.

Definition clearMessages : M unit :=
  chatContainer <~ getElementById "chat-messages" ;;
  _ <~ match chatContainer with
       | Some _ => update "chat-messages" (with_children [NSpace; NGreeting; NSpace])
       | None => ret tt
       end ;;
  modify (with_messages []).

(** [new ChatManager()] *)
Definition constructor : M unit :=
  _ <~ modify (with_messages []) ;;
  modify (with_isTyping false).

Definition addWelcomeMessage : M unit :=
  user <~ gets currentUser ;;
  if truthy user then
    name <~ lift (cbind (GetV user "student_name") ToString) ;;
    addMessage "assistant"
      (JStr ("Bonjour " ++ name ++ " ! Je suis ton assistant IA. " ++ String "010" (
             "Je peux t'aider à organiser tes devoirs, consulter ton emploi du temps et suivre tes notes. "
             ++ String "010" "N'hésite pas à me poser des questions !"))%string)
  else ret tt.

(** *** [sendMessage], around its [await]

    [sendMessage] runs up to the call of [fetch] when the user sends, and
    goes on when the response arrives; a second click in between finds the
    state the first half left. The first half tells whether a request is
    under way: when the context or the request cannot be built, the error
    is answered and the [finally] block runs at once. *)

Definition sendMessage_begin : M bool :=
  input <~ getElementById "chat-input" ;;
  match input with
  | None => throw (TypeError_nullish "null" "value")
  | Some input =>
      let message := trim (value input) in
      typing <~ gets isTyping ;;
      if String.eqb message "" || typing then ret false
      else
        _ <~ addMessage "user" (JStr message) ;;
        _ <~ update "chat-input" (with_value "") ;;
        _ <~ showTypingIndicator ;;
        _ <~ modify (with_isTyping true) ;;
        try_catch
          (context <~ buildContext message ;;
           _ <~ APIClient.sendChatMessage_send (JStr message) context ;;
           ret true)
          (fun error =>
             _ <~ try_finally
                    (addMessage "assistant"
                       (JStr "Une erreur est survenue. Veuillez réessayer."))
                    (_ <~ hideTypingIndicator ;; modify (with_isTyping false)) ;;
             ret false)
  end.

Definition sendMessage_resume (o : FetchOutcome) : M unit :=
  try_finally
    (try_catch
       (response <~ APIClient.request_receive o ;;
        success <~ lift (GetV response "success") ;;
        reply <~ (if truthy success then lift (GetV response "response")
                  else ret success) ;;
        if truthy reply then addMessage "assistant" reply
        else addMessage "assistant"
               (JStr "Désolé, je n'ai pas pu traiter votre demande."))
       (fun error =>
          addMessage "assistant" (JStr "Une erreur est survenue. Veuillez réessayer.")))
    (_ <~ hideTypingIndicator ;; modify (with_isTyping false)).

End ChatManager.
End ChatManager.

(** ** auth.js *)

(** [v !== null] *)
Definition not_null (v : JsValue) : bool :=
  match v with
  | JNull => false
  | _ => true
  end.

(** An element the script dereferences without a test: a missing one
    makes the access throw. *)
Definition element (id prop : string) : M Element :=
  el <~ getElementById id ;;
  match el with
  | Some el => ret el
  | None => throw (TypeError_nullish "null" prop)
  end.

(** [form.reset()]: every control of the form takes its default value
    again. *)
Definition reset (id : string) : M unit :=
  _ <~ element id "reset" ;;
  modify (fun st =>
    with_document
      ((fun el => if decide (form el = Some id) then with_value (defaultValue el) el else el)
         <$> document st) st).

Module AuthManager.
Section AuthManager.
Context `{Host}.

Definition showError (message : string) : M unit :=
  errorDiv <~ getElementById "login-error" ;;
  match errorDiv with
  | Some _ =>
      (* the timer that takes [show] away five seconds later is not part
         of the call *)
      update "login-error" (fun el =>
        with_classList ({["show"]} ∪ classList el) (with_textContent message el))
  | None => ret tt
  end.

Definition setLoading (isLoading : bool) (message : string) : M unit :=
  overlay <~ getElementById "loading-overlay" ;;
  loadingText <~ getElementById "loading-text" ;;
  _ <~ match overlay with
       | Some _ =>
           if isLoading then
             _ <~ update "loading-overlay" (fun el =>
                    with_classList ({["show"]} ∪ classList el) el) ;;
             match loadingText with
             | Some _ => update "loading-text" (with_textContent message)
             | None => ret tt
             end
           else
             update "loading-overlay" (fun el =>
               with_classList (classList el ∖ {["show"]}) el)
       | None => ret tt
       end ;;
  modify (with_submitDisabled isLoading).

Definition onLogoutSuccess : M unit :=
  _ <~ modify (with_currentUser JNull) ;;
  _ <~ element "dashboard-screen" "classList" ;;
  _ <~ update "dashboard-screen" (fun el =>
         with_classList (classList el ∖ {["active"]}) el) ;;
  _ <~ element "login-screen" "classList" ;;
  _ <~ update "login-screen" (fun el =>
         with_classList ({["active"]} ∪ classList el) el) ;;
  _ <~ reset "login-form-direct" ;;
  _ <~ reset "login-form-cas" ;;
  _ <~ ChatManager.clearMessages ;;
  PronoteDataManager.clearAllData.

Definition handleLogout (o : FetchOutcome) : M unit :=
  try_finally
    (try_catch
       (_ <~ setLoading true "Déconnexion..." ;;
        APIClient.logout o)
       (fun error => ret tt))
    (_ <~ onLogoutSuccess ;;
     setLoading false "Chargement...").

Definition isAuthenticated : M bool :=
  authenticated <~ APIClient.isAuthenticated ;;
  if authenticated then
    user <~ gets currentUser ;;
    ret (not_null user)
  else ret false.

Definition getCurrentUser : M JsValue := gets currentUser.

Definition onLoginSuccess : M unit :=
  user <~ gets currentUser ;;
  student_name <~ lift (GetV user "student_name") ;;
  _ <~ element "student-name" "textContent" ;;
  text <~ lift (DOMString_nullable student_name) ;;
  _ <~ update "student-name" (with_textContent text) ;;
  class_name <~ lift (GetV user "class_name") ;;
  _ <~ element "student-class" "textContent" ;;
  text <~ lift (DOMString_nullable
                  (if truthy class_name then class_name
                   else JStr "Classe non disponible")) ;;
  _ <~ update "student-class" (with_textContent text) ;;
  _ <~ element "login-screen" "classList" ;;
  _ <~ update "login-screen" (fun el =>
         with_classList (classList el ∖ {["active"]}) el) ;;
  _ <~ element "dashboard-screen" "classList" ;;
  _ <~ update "dashboard-screen" (fun el =>
         with_classList ({["active"]} ∪ classList el) el) ;;
  _ <~ PronoteDataManager.loadAllData_begin ;;
  ChatManager.addWelcomeMessage.

(** [handleDirectLogin(event)], to the settlement of its promise; the
    data loads [onLoginSuccess] starts are still in flight then. *)
Definition handleDirectLogin (o : FetchOutcome) : M unit :=
  url_input <~ element "pronote-url-direct" "value" ;;
  let pronoteUrl := trim (value url_input) in
  username_input <~ element "username-direct" "value" ;;
  let username := trim (value username_input) in
  password_input <~ element "password-direct" "value" ;;
  let password := value password_input in
  account_input <~ element "account-type" "value" ;;
  let accountType := parseInt_string (value account_input) in
  if String.eqb pronoteUrl "" || String.eqb username "" || String.eqb password "" then
    showError "Veuillez remplir tous les champs"
  else
    _ <~ setLoading true "Connexion en cours..." ;;
    try_finally
      (try_catch
         (response <~ APIClient.loginDirect (JStr pronoteUrl) (JStr username)
                        (JStr password) (JNum accountType) o ;;
          success <~ lift (GetV response "success") ;;
          if truthy success then
            student <~ lift (GetV response "student") ;;
            _ <~ modify (with_currentUser student) ;;
            onLoginSuccess
          else showError "Échec de l'authentification")
         (fun error =>
            showError (if String.eqb (errMessage error) "" then "Erreur de connexion"
                       else errMessage error)))
      (setLoading false "Chargement...").

(** [handleCASLogin(event)], to the settlement of its promise. *)
Definition handleCASLogin (o : FetchOutcome) : M unit :=
  url_input <~ element "pronote-url-cas" "value" ;;
  let pronoteUrl := trim (value url_input) in
  username_input <~ element "username-cas" "value" ;;
  let username := trim (value username_input) in
  password_input <~ element "password-cas" "value" ;;
  let password := value password_input in
  ent_input <~ element "ent-selector" "value" ;;
  let entName := value ent_input in
  if String.eqb pronoteUrl "" || String.eqb username "" || String.eqb password ""
     || String.eqb entName "" then
    showError "Veuillez remplir tous les champs"
  else
    _ <~ setLoading true "Authentification CAS en cours..." ;;
    try_finally
      (try_catch
         (response <~ APIClient.loginCAS (JStr pronoteUrl) (JStr username)
                        (JStr password) (JStr entName) o ;;
          success <~ lift (GetV response "success") ;;
          if truthy success then
            student <~ lift (GetV response "student") ;;
            _ <~ modify (with_currentUser student) ;;
            onLoginSuccess
          else showError "Échec de l'authentification CAS")
         (fun error =>
            showError (if String.eqb (errMessage error) ""
                       then "Erreur d'authentification CAS"
                       else errMessage error)))
      (setLoading false "Chargement...").

(** [loadENTs()] *)
Definition loadENTs (o : FetchOutcome) : M unit :=
  try_catch
    (response <~ APIClient.getENTs o ;;
     selector <~ getElementById "ent-selector" ;;
     match selector with
     | None => ret tt
     | Some _ =>
         ents <~ lift (GetV response "ents") ;;
         if truthy ents then
           items <~ lift (array_method "response.ents.forEach" ents) ;;
           forEach (fun ent =>
                      id <~ lift (cbind (GetV ent "id") ToString) ;;
                      name <~ lift (cbind (GetV ent "name") DOMString_nullable) ;;
                      update "ent-selector" (fun el =>
                        with_children (children el ++ [NOption id name]) el))
                   items
         else ret tt
     end)
    (fun error => ret tt).

(** [new AuthManager()]; the list of ENTs it asks for arrives later. *)
Definition constructor : M unit :=
  _ <~ modify (with_currentUser JNull) ;;
  try_catch APIClient.getENTs_send (fun error => ret tt).

End AuthManager.
End AuthManager.

(** ** app.js

    The two methods of the application object that work on the session
    and on the data: the restoration of a session when the page loads, and
    the loading of the data of a tab when it is shown. *)

Module App.
Section App.
Context `{Host}.
Variable displayHomework : JsValue -> M unit.
Variable displayTimetable : JsValue -> M unit.

Definition attemptSessionRestore (o : FetchOutcome) : M unit :=
  try_catch
    (_ <~ APIClient.healthCheck o ;;
     APIClient.clearToken)
    (fun error => APIClient.clearToken).

(** [loadTabData(tabName)]; the data manager, a global object, always
    exists. [tabName] is the [data-tab] attribute of the button, a string,
    or [undefined]. *)
Definition loadTabData (tabName : JsValue) (o : FetchOutcome) : M unit :=
  let is_tab (name : string) :=
    match tabName with
    | JStr s => String.eqb s name
    | _ => false
    end in
  if is_tab "homework" then
    data <~ gets homework ;;
    empty <~ lift (length_is_zero data) ;;
    if empty then PronoteDataManager.loadHomework displayHomework o else ret tt
  else if is_tab "timetable" then
    data <~ gets timetable ;;
    empty <~ lift (length_is_zero data) ;;
    if empty then PronoteDataManager.loadTimetable displayTimetable o else ret tt
  else if is_tab "grades" then
    data <~ gets grades ;;
    empty <~ lift (length_is_zero data) ;;
    if empty then PronoteDataManager.loadGrades o else ret tt
  else ret tt.

End App.
End App.

(** ** Example states *)

Definition blank : Element := mkElement [] "" "" "" None ∅.

Definition control (owner value : string) : Element :=
  mkElement [] "" value "" (Some owner) ∅.

(** A page with every element the scripts look up; the login form is
    filled in and a question waits in the chat box. *)
Definition example_page : gmap string Element :=
  list_to_map
    [ ("homework-list", blank); ("timetable-list", blank); ("grades-list", blank);
      ("chat-messages", blank); ("chat-input", with_value "Quels sont mes devoirs ?" blank);
      ("login-error", blank); ("loading-overlay", blank); ("loading-text", blank);
      ("student-name", blank); ("student-class", blank);
      ("login-screen", with_classList {["active"]} blank); ("dashboard-screen", blank);
      ("login-form-direct", blank); ("login-form-cas", blank);
      ("pronote-url-direct", control "login-form-direct" "https://demo.index-education.net/pronote/");
      ("username-direct", control "login-form-direct" "alice");
      ("password-direct", control "login-form-direct" "secret");
      ("account-type", control "login-form-direct" "3");
      ("ent-selector", control "login-form-cas" "") ].

(** The application as the constructors leave it on a fresh page. *)
Definition fresh_app : App :=
  mkApp JNull JNull (JArr []) (JArr []) (JArr []) [] false ∅ example_page false [] 0.

(** The same with a session: a token in the client and in the storage,
    and a profile. *)
Definition logged_in_app : App :=
  mkApp (JStr "abc123") (JObj [("student_name", JStr "Alice")])
        (JArr []) (JArr []) (JArr []) [] false
        {[ "access_token" := "abc123" ]} example_page false [] 0.

(** The grades of the specification's scenario C:
    [[{subject:"Math", grade:"15", out_of:"20"}, {subject:"Art", grade:null}]]. *)
Definition math_grade : JsValue :=
  JObj [("subject", JStr "Math"); ("grade", JStr "15"); ("out_of", JStr "20")].
Definition art_grade : JsValue :=
  JObj [("subject", JStr "Art"); ("grade", JNull)].

(** A grade of zero, and a grade with no [out_of]. *)
Definition zero_grade : JsValue :=
  JObj [("subject", JStr "Math"); ("grade", JNum 0); ("out_of", JNum 20)].
Definition unscaled_grade : JsValue :=
  JObj [("subject", JStr "Math"); ("grade", JStr "12")].

(** The answer of the backend to the login of scenario A. *)
Definition login_accepted : JsValue :=
  JObj [ ("success", JBool true); ("access_token", JStr "abc123");
         ("student", JObj [("student_name", JStr "Alice")]) ].

(** A login that is accepted without a profile. *)
Definition login_without_profile : JsValue :=
  JObj [ ("success", JBool true); ("access_token", JStr "abc123") ].

(** An answer whose token has no string form: an object with a property
    [toString] that is not a function. *)
Definition login_unsaved : JsValue :=
  JObj [ ("success", JBool true);
         ("access_token", JObj [("toString", JNum 1)]);
         ("student", JObj [("student_name", JStr "Alice")]) ].

(** The property [name] of [v] can be read and is falsy: [0], [NaN], the
    empty string, [false], [null], or [undefined] as when it is absent. *)
Definition falsy_property (v : JsValue) (name : string) : Prop :=
  exists x, GetV v name = Normal x /\ truthy x = false.

(** ** Vocabulary of the proofs

    The predicates and the derived functions in which the properties
    below are stated. *)

Section Vocabulary.
Context `{Host}.

(** The headers of a request that a server reads as [Authorization]:
    header names are compared without regard to case. *)
Definition authorization (h : gmap string string) : gmap string string :=
  filter (fun kv => ascii_toLowerCase (fst kv) = "authorization") h.

(** The state after [clearToken]. *)
Definition cleared (st : App) : App :=
  with_accessToken JNull
    (with_sessionStorage (delete "access_token" (sessionStorage st)) st).

Definition SessionExpired : JsError :=
  mkError "Error" "Session expirée. Veuillez vous reconnecter.".

(** What is read of the body of a failed response: the completion of
    [errorData.detail || errorData.error || `Erreur HTTP ${status}`],
    converted for [new Error]. *)
Definition failure_message (status : nat) (body : Body) : Completion string :=
  let errorData := match body with
                   | Json v => v
                   | NotJson _ => JObj []
                   end in
  cbind (GetV errorData "detail") (fun detail =>
  if truthy detail then ToString detail
  else cbind (GetV errorData "error") (fun error =>
       if truthy error then ToString error
       else Normal ("Erreur HTTP " ++ decimal_of_nat status)%string)).

(** How [request] ends, by the outcome of its [fetch]. *)
Definition settled (o : FetchOutcome) : Completion JsValue :=
  match o with
  | NetworkFailure e => Throw e
  | Response status body =>
      if Nat.eqb status 401 then Throw SessionExpired
      else if negb (ok status) then
        match failure_message status body with
        | Normal m => Throw (mkError "Error" m)
        | Throw e => Throw e
        end
      else match body with
           | Json data => Normal data
           | NotJson e => Throw e
           end
  end.

Definition unauthorized (o : FetchOutcome) : bool :=
  match o with
  | Response status _ => Nat.eqb status 401
  | NetworkFailure _ => false
  end.

(** The default headers of [request] in the state [st]. *)
Definition defaultHeaders (st : App) : Completion (gmap string string) :=
  if truthy (accessToken st) then
    cbind (ToString (accessToken st)) (fun t =>
    Normal (<["Authorization" := ("Bearer " ++ t)%string]>
              ({[ "Content-Type" := "application/json" ]} : gmap string string)))
  else Normal {[ "Content-Type" := "application/json" ]}.

Definition issued (endpoint : string) (options : Options) (h : gmap string string)
    (st : App) : App :=
  with_sent (sent st ++ [((CONFIG.API_BASE_URL ++ endpoint)%string,
                          mkRequestInit (opt_method options) (opt_body options)
                                        (opt_headers options ∪ h))]) st.

(** The element [id] holds exactly the nodes [nodes]. *)
Definition shows (id : string) (nodes : list Node) (st : App) : Prop :=
  children <$> (document st !! id) = Some nodes.

Definition empty_state (message : string) : list Node :=
  [NSpace; NEmptyState message; NSpace].
Definition error_state (message : string) : list Node :=
  [NSpace; NErrorMessage message; NSpace].

(** A response was received, with a 2xx status, and its body is the JSON
    value [v]. *)
Definition answered (o : FetchOutcome) (v : JsValue) : Prop :=
  exists status, o = Response status (Json v) /\ ok status = true.

(** No response, or one whose status is not 2xx. *)
Definition transport_failure (o : FetchOutcome) : Prop :=
  match o with
  | NetworkFailure _ => True
  | Response status _ => ok status = false
  end.


(** [v] is an envelope that announces no data: its [success] is falsy, or
    its [field] is missing (or falsy). *)
Definition no_data (field : string) (v : JsValue) : Prop :=
  exists success,
    GetV v "success" = Normal success /\
    (truthy success = false \/
     exists x, GetV v field = Normal x /\ truthy x = false).

(** The request can be built: the token held, if any, converts to a
    string. A token read from the storage or saved by [saveToken] does. *)
Definition sendable (st : App) : Prop := exists h, defaultHeaders st = Normal h.

(** The shape the three loaders share, over the call they make. *)
Definition loader (id field : string) (store : JsValue -> App -> App)
    (display : JsValue -> M unit) (emptyMessage errorMessage : string)
    (call : M JsValue) : M unit :=
  (container <~ getElementById id ;;
   match container with
   | None => ret tt
   | Some _ =>
       _ <~ PronoteDataManager.showLoading id ;;
       try_catch
         (response <~ call ;;
          present <~ lift (PronoteDataManager.hasData response field) ;;
          if present then
            list <~ lift (GetV response field) ;;
            _ <~ modify (store list) ;;
            display list
          else PronoteDataManager.showEmpty id emptyMessage)
         (fun error => PronoteDataManager.showError id errorMessage)
   end)%js.

(** A call that is one [request]: it leaves the page alone, and ends as
    the outcome of its [fetch] settles unless the request cannot be
    built. *)
Definition is_request (call : M JsValue) (o : FetchOutcome) : Prop :=
  forall st, exists endpoint options, call st = APIClient.request endpoint options o st.

(** [sound I m]: from a state with the property [I], the script [m] does
    not throw and ends in a state with [I]. *)
Definition sound (I : App -> Prop) {A} (m : M A) : Prop :=
  forall st, I st -> I (fst (m st)) /\ exists a, snd (m st) = Normal a.

(** An invariant of the page scripts: a property that no write to an
    element, to a form, to the data or to the chat can break. *)
Record page_invariant (I : App -> Prop) : Prop := {
  inv_update : forall id f st, I st -> I (with_document (alter f id (document st)) st);
  inv_reset : forall g st, I st -> I (with_document (g <$> document st) st);
  inv_homework : forall v st, I st -> I (with_homework v st);
  inv_timetable : forall v st, I st -> I (with_timetable v st);
  inv_grades : forall v st, I st -> I (with_grades v st);
  inv_messages : forall v st, I st -> I (with_messages v st);
  inv_isTyping : forall v st, I st -> I (with_isTyping v st);
  inv_submitDisabled : forall v st, I st -> I (with_submitDisabled v st);
}.

(** The page has the elements [ids]. *)
Definition page_has (ids : list string) (st : App) : Prop :=
  forall id, In id ids -> is_Some (document st !! id).

(** The token store is empty. *)
Definition token_absent (st : App) : Prop :=
  accessToken st = JNull /\ sessionStorage st !! "access_token" = None.

Definition logout_elements : list string :=
  ["dashboard-screen"; "login-screen"; "login-form-direct"; "login-form-cas"].

(** The last node of the chat container: what the user sees at the bottom
    of the conversation. *)
Definition last_message (st : App) : option Node :=
  el ← document st !! "chat-messages"; last (children el).

Definition fallback_reply : string := "Désolé, je n'ai pas pu traiter votre demande.".
Definition error_reply : string := "Une erreur est survenue. Veuillez réessayer.".

(** A property that writes to the elements and to the list of messages
    cannot break: the chat manager makes no other write, except to
    [isTyping]. *)
Record chat_invariant (I : App -> Prop) : Prop := {
  chat_update : forall id f st, I st -> I (with_document (alter f id (document st)) st);
  chat_messages : forall v st, I st -> I (with_messages v st);
}.

(** What [sendMessage] answers to [message] in the state [st], when its
    request settles as [o]. *)
Definition chat_reply (st : App) (message : string) (o : FetchOutcome) : string :=
  match ChatManager.contextFor message (homework st) (timetable st) (grades st) (currentUser st),
        defaultHeaders st, settled o with
  | Normal _, Normal _, Normal response =>
      match GetV response "success" with
      | Normal success =>
          if truthy success then
            match GetV response "response" with
            | Normal reply =>
                if truthy reply then
                  match DOMString_nullable reply with
                  | Normal text => text
                  | Throw _ => error_reply
                  end
                else fallback_reply
            | Throw _ => error_reply
            end
          else fallback_reply
      | Throw _ => error_reply
      end
  | _, _, _ => error_reply
  end.

(** The three text fields of the direct-login form hold something, and
    the account selector exists. *)
Definition login_form_filled (st : App) : Prop :=
  exists url user password account,
    document st !! "pronote-url-direct" = Some url /\ trim (value url) <> "" /\
    document st !! "username-direct" = Some user /\ trim (value user) <> "" /\
    document st !! "password-direct" = Some password /\ value password <> "" /\
    document st !! "account-type" = Some account.

(** The login form shows the error [message]. *)
Definition login_error_shown (message : string) (st : App) : Prop :=
  exists el,
    document st !! "login-error" = Some el /\
    textContent el = message /\ "show" ∈ classList el.

End Vocabulary.

(** ** Vocabulary of the further properties

    The predicates and the derived functions in which the properties of
    the second part of the proofs are stated. *)

(** The state [st] with the nodes [nodes] added at the end of the element
    [id], and with [nodes] as the whole content of this element. *)
Definition appended (id : string) (nodes : list Node) (st : App) : App :=
  with_document (alter (fun el => with_children (children el ++ nodes) el) id (document st)) st.
Definition repainted (id : string) (nodes : list Node) (st : App) : App :=
  with_document (alter (with_children nodes) id (document st)) st.

(** The nodes [displayGrades] draws. *)
Definition is_grade_node (n : Node) : bool :=
  match n with
  | NGradesSummary _ _ | NGradeItem _ _ _ _ _ _ => true
  | _ => false
  end.

(** The property [name] of [g] is read by [parseFloat] as [NaN]: it is
    not a number written in decimal (["Abs"], ["N.Not"], an object). *)
Definition not_a_number `{Host} (g : JsValue) (name : string) : Prop :=
  exists v x, GetV g name = Normal v /\ parseFloat v = Normal x /\ PrimFloat.is_nan x = true.

(** A grade the teacher gave as a word. *)
Definition absent_grade : JsValue :=
  JObj [("subject", JStr "EPS"); ("grade", JStr "Abs"); ("out_of", JStr "20")].

(** What a 401 response leaves behind a loader of the container [id]:
    the token store is empty and the container shows the loader's error,
    while the profile and the rest of the page are as before. *)
Definition session_lost (id message : string) (st st' : App) : Prop :=
  token_absent st' /\
  shows id (error_state message) st' /\
  currentUser st' = currentUser st /\
  (forall j, j <> id -> document st' !! j = document st !! j).

(** The characters that open or close markup in HTML text and in quoted
    attributes: [<], [>], the double and the single quote. *)
Definition is_markup (c : ascii) : bool :=
  match nat_of_ascii c with
  | 60 | 62 | 34 | 39 => true
  | _ => false
  end.

(** The characters [escapeHtml] rewrites. *)
Definition is_escaped (c : ascii) : bool :=
  is_markup c || Nat.eqb (nat_of_ascii c) 38.

Definition all_chars (p : ascii -> bool) (s : string) : bool :=
  forallb p (list_ascii_of_string s).

(** The text of which [s] is the escaped form: the five character
    references [escapeHtml] writes, read back. [skip] is the number of
    characters that still belong to the reference just read. *)
Fixpoint unescape_from (skip : nat) (s : string) : string :=
  match s with
  | EmptyString => EmptyString
  | String c rest =>
      match skip with
      | S n => unescape_from n rest
      | O =>
          if prefixb "&amp;" s then String "&" (unescape_from 4 rest)
          else if prefixb "&lt;" s then String "<" (unescape_from 3 rest)
          else if prefixb "&gt;" s then String ">" (unescape_from 3 rest)
          else if prefixb "&quot;" s then String "034" (unescape_from 5 rest)
          else if prefixb "&#039;" s then String "'" (unescape_from 5 rest)
          else String c (unescape_from 0 rest)
      end
  end.

(** [preserves I m]: the script [m] keeps the property [I] of the state,
    however it ends. *)
Definition preserves (I : App -> Prop) {A} (m : M A) : Prop :=
  forall st, I st -> I (fst (m st)).

(** The history of the chat holds at most [MAX_CHAT_MESSAGES] messages. *)
Definition history_bounded (st : App) : Prop :=
  (List.length (messages st) <= CONFIG.MAX_CHAT_MESSAGES)%nat.

(** A string of ASCII white space only: tabs, line feeds, vertical tabs,
    form feeds, carriage returns and spaces (the empty string is one). *)
Definition is_blank (s : string) : bool :=
  forallb (fun c => existsb (Nat.eqb (nat_of_ascii c)) [9; 10; 11; 12; 13; 32])
          (list_ascii_of_string s).

Definition is_indicator (n : Node) : bool :=
  match n with
  | NTypingIndicator => true
  | _ => false
  end.

(** The number of typing indicators in the chat container. *)
Definition indicators (st : App) : nat :=
  match document st !! "chat-messages" with
  | Some el => List.length (List.filter is_indicator (children el))
  | None => 0
  end.

(** [v] is the extract of the list [data] that [buildContext] sends: the
    objects made of the properties [names] of its first [n] entries, in
    order, under the names given. *)
Definition extract_of (data : JsValue) (n : nat) (names : list (string * string))
    (v : JsValue) : Prop :=
  exists entries items,
    data = JArr entries /\ v = JArr items /\
    (List.length items <= n)%nat /\
    Forall2 (fun entry item =>
               exists o, pick entry names = Normal o /\ item = JObj o /\
                         List.map fst o = List.map fst names)
            (firstn n entries) items.

(** The form was refused: all that happened between [st] and [st'] is
    that the login error, if the page has the element, shows
    [message]. *)
Definition form_refused (message : string) (st st' : App) : Prop :=
  sent st' = sent st /\
  accessToken st' = accessToken st /\ sessionStorage st' = sessionStorage st /\
  currentUser st' = currentUser st /\ submitDisabled st' = submitDisabled st /\
  (forall id, id <> "login-error" -> document st' !! id = document st !! id) /\
  (is_Some (document st !! "login-error") -> login_error_shown message st').

(** The page is no longer loading: the submit buttons are enabled and
    the overlay, if there is one, is hidden. *)
Definition loading_over (st : App) : Prop :=
  submitDisabled st = false /\
  forall el, document st !! "loading-overlay" = Some el -> "show" ∉ classList el.

(** The state after [saveToken(token)], [t] being the text of the token. *)
Definition logged (token : JsValue) (t : string) (st : App) : App :=
  with_accessToken token
    (with_sessionStorage (<["access_token" := t]> (sessionStorage st)) st).

(** The request carries the bearer token [t]. *)
Definition bearer (t : string) (config : RequestInit) : Prop :=
  headers config !! "Authorization" = Some ("Bearer " ++ t)%string.

(** The greeting of [addWelcomeMessage]. *)
Definition welcome (name : string) : string :=
  ("Bonjour " ++ name ++ " ! Je suis ton assistant IA. " ++ String "010" (
   "Je peux t'aider à organiser tes devoirs, consulter ton emploi du temps et suivre tes notes. "
   ++ String "010" "N'hésite pas à me poser des questions !"))%string.

(** The elements [onLoginSuccess] and the scripts it starts write to. *)
Definition dashboard_elements : list string :=
  ["student-name"; "student-class"; "login-screen"; "dashboard-screen";
   "homework-list"; "timetable-list"; "grades-list"; "chat-messages"].

(** The three text fields of the CAS form hold something and an ENT is
    selected. *)
Definition cas_form_filled (st : App) : Prop :=
  exists url user password ent,
    document st !! "pronote-url-cas" = Some url /\ trim (value url) <> "" /\
    document st !! "username-cas" = Some user /\ trim (value user) <> "" /\
    document st !! "password-cas" = Some password /\ value password <> "" /\
    document st !! "ent-selector" = Some ent /\ value ent <> "".

(** An ENT as the backend lists it, [{id, name}], and its option in the
    selector. *)
Definition ent_entry (ent : string * string) : JsValue :=
  JObj [("id", JStr (fst ent)); ("name", JStr (snd ent))].
Definition ent_option (ent : string * string) : Node :=
  NOption (fst ent) (snd ent).

(** Every element of the page [d'] is an element of [d] with the same
    value, default value and form. *)
Definition same_values (d d' : gmap string Element) : Prop :=
  forall id el', d' !! id = Some el' ->
    exists el, d !! id = Some el /\
      value el' = value el /\ defaultValue el' = defaultValue el /\ form el' = form el.

(** The controls of the form [id] hold their default values. *)
Definition form_is_reset (id : string) (d : gmap string Element) : Prop :=
  forall k el, d !! k = Some el -> form el = Some id -> value el = defaultValue el.

Definition keeps_value (f : Element -> Element) : Prop :=
  forall el, value (f el) = value el /\ defaultValue (f el) = defaultValue el /\
             form (f el) = form el.

Definition connect_message : string := "Connectez-vous pour voir vos données".

(** *** More example states *)

(** The page of [example_page] with the CAS form filled in, and the
    application on it. *)
Definition cas_page : gmap string Element :=
  <["pronote-url-cas" := control "login-form-cas" "https://demo.index-education.net/pronote/"]>
    (<["username-cas" := control "login-form-cas" "alice"]>
       (<["password-cas" := control "login-form-cas" "secret"]>
          (<["ent-selector" := control "login-form-cas" "ac_rennes"]> example_page))).
Definition cas_app : App :=
  mkApp JNull JNull (JArr []) (JArr []) (JArr []) [] false ∅ cas_page false [] 0.

(** The fresh page on which the user name was left blank, and the one on
    which the chat box holds spaces only. *)
Definition nameless_app : App :=
  with_document (<["username-direct" := control "login-form-direct" "   "]> example_page)
    fresh_app.
Definition idle_app : App :=
  with_document (<["chat-input" := with_value "  " blank]> example_page) logged_in_app.

(** Two pieces of homework, as the data manager holds them. *)
Definition example_homework : JsValue :=
  JArr [ JObj [ ("subject", JStr "Maths"); ("description", JStr "Exercice 12");
                ("date", JStr "2024-05-02"); ("done", JBool false);
                ("files", JArr []) ];
         JObj [ ("subject", JStr "Histoire"); ("description", JStr "Lire le chapitre 3");
                ("date", JStr "2024-05-03"); ("done", JBool true) ] ].

(** The list of ENTs, as the backend answers it. *)
Definition example_ents : JsValue :=
  JObj [("ents", JArr [ JObj [("id", JStr "ac_rennes"); ("name", JStr "Académie de Rennes")];
                        JObj [("id", JStr "monlycee"); ("name", JStr "Mon lycée")] ])].

(** The answer to a request for the grades of scenario C. *)
Definition grades_received : JsValue :=
  JObj [("success", JBool true); ("grades", JArr [math_grade; art_grade])].

(** The body of a 422 response, as FastAPI writes it when a field of the
    request is missing: [detail] is the list of the validation errors. *)
Definition validation_error : JsValue :=
  JObj [("detail", JArr [JObj [("loc", JArr [JStr "body"; JStr "username"]);
                               ("msg", JStr "field required");
                               ("type", JStr "value_error.missing")]]);
        ("error", JStr "Validation")].

(** ** Proofs *)

Section Transport.
Context `{Host}.

Lemma request_receive_eq o st :
  APIClient.request_receive o st =
  (if unauthorized o then cleared st else st, settled o).
Proof.
  unfold APIClient.request_receive, try_catch, settled, unauthorized, failure_message.
  destruct o as [e | status body]; [reflexivity |].
  destruct (Nat.eqb status 401); [reflexivity |].
  destruct (negb (ok status)).
  - unfold bind, lift, ret, throw.
    destruct (GetV _ "detail") as [detail | e]; simpl; [| reflexivity].
    destruct (truthy detail); simpl.
    + destruct (ToString detail); reflexivity.
    + destruct (GetV _ "error") as [error | e]; simpl; [| reflexivity].
      destruct (truthy error); simpl; [destruct (ToString error) |]; reflexivity.
  - destruct body; reflexivity.
Qed.

Lemma request_send_eq endpoint options st :
  APIClient.request_send endpoint options st =
  match defaultHeaders st with
  | Normal h => (issued endpoint options h st, Normal tt)
  | Throw e => (st, Throw e)
  end.
Proof.
  unfold APIClient.request_send, defaultHeaders, bind, gets, lift, ret, modify.
  destruct (truthy (accessToken st)); simpl; [| reflexivity].
  destruct (ToString (accessToken st)); reflexivity.
Qed.

Lemma request_eq endpoint options o st :
  APIClient.request endpoint options o st =
  match defaultHeaders st with
  | Normal h =>
      (if unauthorized o then cleared (issued endpoint options h st)
       else issued endpoint options h st, settled o)
  | Throw e => (st, Throw e)
  end.
Proof.
  unfold APIClient.request, bind. rewrite request_send_eq.
  destruct (defaultHeaders st); [apply request_receive_eq | reflexivity].
Qed.

(** C2. A call to [request] whose request has left and which receives a
    401 response ends by throwing the fixed session-expired error, and
    leaves the token store empty (the client's token is [null] and the
    storage has no [access_token]), whatever token was held before. *)
Theorem request_401_clears_token st endpoint options body :
  snd (APIClient.request_send endpoint options st) = Normal tt ->
  exists st',
    APIClient.request endpoint options (Response 401 body) st
      = (st', Throw (mkError "Error" "Session expirée. Veuillez vous reconnecter.")) /\
    accessToken st' = JNull /\
    sessionStorage st' !! "access_token" = None /\
    APIClient.loadToken st' = (st', Normal JNull) /\
    APIClient.isAuthenticated st' = (st', Normal false).
Proof.
  rewrite request_eq, request_send_eq.
  destruct (defaultHeaders st) as [h | e]; [intros _ | discriminate].
  exists (cleared (issued endpoint options h st)); split; [reflexivity |].
  assert (Hs : sessionStorage (cleared (issued endpoint options h st)) !! "access_token"
               = None) by apply lookup_delete_eq.
  repeat split; try assumption.
  unfold APIClient.loadToken, gets. now rewrite Hs.
Qed.

Lemma authorization_union (extra base : gmap string string) :
  (forall k, is_Some (extra !! k) -> ascii_toLowerCase k <> "authorization") ->
  authorization (extra ∪ base) = authorization base.
Proof.
  intros Hextra. apply map_eq. intros k. unfold authorization.
  rewrite !map_lookup_filter, lookup_union.
  destruct (extra !! k) as [v |] eqn:Hk; [| now rewrite (left_id None _)].
  assert (Hne : ascii_toLowerCase k <> "authorization") by (apply Hextra; eauto).
  destruct (base !! k) as [w |]; simpl;
    repeat (rewrite option_guard_False by exact Hne); reflexivity.
Qed.

Lemma authorization_bearer (v : string) :
  authorization (<["Authorization" := v]> {[ "Content-Type" := "application/json" ]})
  = {[ "Authorization" := v ]}.
Proof.
  unfold authorization.
  rewrite map_filter_insert_True by reflexivity.
  rewrite map_filter_singleton_False by (simpl; discriminate).
  reflexivity.
Qed.

Lemma authorization_none :
  authorization ({[ "Content-Type" := "application/json" ]} : gmap string string) = ∅.
Proof. unfold authorization. apply map_filter_singleton_False. simpl. discriminate. Qed.

(** C1, as amended. For every call to [request] whose options bring no
    Authorization header of their own (under any spelling of the name): if
    the client holds a token, the request that leaves carries exactly one
    Authorization header, ["Bearer "] followed by the token as held at the
    call; if it holds none, the request carries no Authorization header. *)
Theorem request_authorization st endpoint options o :
  (forall k, is_Some (opt_headers options !! k) ->
             ascii_toLowerCase k <> "authorization") ->
  (forall t, truthy (accessToken st) = true -> ToString (accessToken st) = Normal t ->
     exists config,
       sent (fst (APIClient.request endpoint options o st))
         = sent st ++ [((CONFIG.API_BASE_URL ++ endpoint)%string, config)] /\
       authorization (headers config) = {[ "Authorization" := ("Bearer " ++ t)%string ]}) /\
  (truthy (accessToken st) = false ->
     exists config,
       sent (fst (APIClient.request endpoint options o st))
         = sent st ++ [((CONFIG.API_BASE_URL ++ endpoint)%string, config)] /\
       authorization (headers config) = ∅).
Proof.
  intros Hoptions. rewrite request_eq. unfold defaultHeaders. split.
  - intros t -> ->. simpl. eexists. split.
    + destruct (unauthorized o); reflexivity.
    + simpl. rewrite authorization_union by exact Hoptions. apply authorization_bearer.
  - intros ->. eexists. split.
    + destruct (unauthorized o); reflexivity.
    + simpl. rewrite authorization_union by exact Hoptions. apply authorization_none.
Qed.

End Transport.

(** C1 as stated fails: the headers of the caller are merged over the
    default ones. With the token ["abc123"] held, a caller that brings its
    own Authorization header sends that one and no bearer token; with no
    token held, a caller's Authorization header is sent all the same. *)
Lemma request_authorization_overridden :
  let options := mkOptions (Some "GET") None {[ "Authorization" := "Basic dXNlcjpwdw==" ]} in
  (truthy (accessToken logged_in_app) = true /\
   List.map (fun r => headers (snd r) !! "Authorization")
     (sent (fst (@APIClient.request example_host "/api/health" options
                   (Response 200 (Json (JObj []))) logged_in_app)))
   = [Some "Basic dXNlcjpwdw=="]) /\
  (truthy (accessToken fresh_app) = false /\
   List.map (fun r => headers (snd r) !! "Authorization")
     (sent (fst (@APIClient.request example_host "/api/health" options
                   (Response 200 (Json (JObj []))) fresh_app)))
   = [Some "Basic dXNlcjpwdw=="]).
Proof. vm_compute. repeat split. Qed.

Lemma request_authorization_witness :
  (forall t, truthy (accessToken logged_in_app) = true ->
     @ToString example_host (accessToken logged_in_app) = Normal t ->
     exists config,
       sent (fst (@APIClient.request example_host "/api/pronote/grades"
                    (mkOptions (Some "POST") None ∅) (Response 200 (Json JNull))
                    logged_in_app))
         = sent logged_in_app
           ++ [((CONFIG.API_BASE_URL ++ "/api/pronote/grades")%string, config)] /\
       authorization (headers config) = {[ "Authorization" := ("Bearer " ++ t)%string ]}) /\
  (truthy (accessToken logged_in_app) = false ->
     exists config,
       sent (fst (@APIClient.request example_host "/api/pronote/grades"
                    (mkOptions (Some "POST") None ∅) (Response 200 (Json JNull))
                    logged_in_app))
         = sent logged_in_app
           ++ [((CONFIG.API_BASE_URL ++ "/api/pronote/grades")%string, config)] /\
       authorization (headers config) = ∅).
Proof.
  apply (@request_authorization example_host logged_in_app "/api/pronote/grades"
           (mkOptions (Some "POST") None ∅) (Response 200 (Json JNull))).
  intros k [v Hv]. simpl in Hv. rewrite lookup_empty in Hv. discriminate.
Defined.

Lemma request_401_clears_token_witness :
  exists st',
    @APIClient.request example_host "/api/pronote/homework"
      (mkOptions (Some "POST") None ∅) (Response 401 (Json (JObj []))) logged_in_app
      = (st', Throw (mkError "Error" "Session expirée. Veuillez vous reconnecter.")) /\
    accessToken st' = JNull /\
    sessionStorage st' !! "access_token" = None /\
    @APIClient.loadToken st' = (st', Normal JNull) /\
    @APIClient.isAuthenticated st' = (st', Normal false).
Proof.
  apply (@request_401_clears_token example_host logged_in_app). reflexivity.
Defined.

Section Failures.
Context `{Host}.

(** A response that is neither 2xx nor 401 makes [request] throw, never
    return: the error carries the [detail] of the body, else its [error],
    else the generic text with the status, provided the body is not the
    JSON [null] and the field chosen converts to a string. *)
Lemma request_failure_message st endpoint options status body m :
  snd (APIClient.request_send endpoint options st) = Normal tt ->
  Nat.eqb status 401 = false -> ok status = false ->
  failure_message status body = Normal m ->
  snd (APIClient.request endpoint options (Response status body) st)
    = Throw (mkError "Error" m).
Proof.
  rewrite request_eq, request_send_eq.
  destruct (defaultHeaders st); [intros _ | discriminate].
  intros H401 Hok Hm. simpl. now rewrite H401, Hok, Hm.
Qed.

Lemma failure_message_unparseable status e :
  failure_message status (NotJson e) = Normal ("Erreur HTTP " ++ decimal_of_nat status)%string.
Proof. reflexivity. Qed.

End Failures.

(** C9, at the input where the code departs from it. A 500 response whose
    body is the JSON text [null] parses, so the fallback object of
    [.catch(() => ({}))] is not used, and reading [errorData.detail]
    throws a TypeError: the failure carries the engine's message, neither
    a field of the body nor the generic text with the status. *)
Lemma request_failure_null_body :
  snd (@APIClient.request example_host "/api/pronote/grades"
         (mkOptions (Some "POST") None ∅) (Response 500 (Json JNull)) logged_in_app)
  = Throw (mkError "TypeError" "Cannot read properties of null (reading 'detail')").
Proof. reflexivity. Qed.

(** ** The data loaders *)

Section Loaders.
Context `{Host}.


Lemma ok_not_401 status : ok status = true -> Nat.eqb status 401 = false.
Proof.
  unfold ok. intros Hok. apply andb_true_iff in Hok as [_ Hle].
  apply Nat.leb_le in Hle. apply Nat.eqb_neq. lia.
Qed.

Lemma settled_answered o v : answered o v -> settled o = Normal v /\ unauthorized o = false.
Proof.
  intros (status & -> & Hok). simpl. now rewrite (ok_not_401 _ Hok), Hok.
Qed.

Lemma settled_transport_failure o : transport_failure o -> exists e, settled o = Throw e.
Proof.
  destruct o as [e | status body]; simpl; [eauto |].
  intros ->. simpl. destruct (Nat.eqb status 401); [eauto |].
  destruct (failure_message status body); eauto.
Qed.

Lemma loadHomework_loader display o :
  PronoteDataManager.loadHomework display o =
  loader "homework-list" "homework" with_homework display
    "Aucun devoir à venir" "Erreur lors du chargement des devoirs"
    (fun st =>
       APIClient.getHomework (JStr (Date_toISOString (clock st)))
         (JStr (Date_toISOString (clock st + 14 * 24 * 60 * 60 * 1000))) o st).
Proof. reflexivity. Qed.

Lemma loadTimetable_loader display o :
  PronoteDataManager.loadTimetable display o =
  loader "timetable-list" "timetable" with_timetable display
    "Aucun cours cette semaine" "Erreur lors du chargement de l'emploi du temps"
    (fun st =>
       let today := clock st in
       let monday := Date_setDate today (Date_getDate today - Date_getDay today + 1) in
       let sunday := Date_setDate monday (Date_getDate monday + 6) in
       APIClient.getTimetable (JStr (Date_toISOString monday))
         (JStr (Date_toISOString sunday)) o st).
Proof. reflexivity. Qed.

Lemma loadGrades_loader o :
  PronoteDataManager.loadGrades o =
  loader "grades-list" "grades" with_grades PronoteDataManager.displayGrades
    "Aucune note disponible" "Erreur lors du chargement des notes"
    (APIClient.getGrades JUndefined o).
Proof. reflexivity. Qed.




(** A loader is its beginning, up to the [await], followed by its
    resumption when the request has left. *)
Lemma loaders_split displayHomework displayTimetable o st :
  PronoteDataManager.loadHomework displayHomework o st
    = (began <~ PronoteDataManager.loadHomework_begin ;;
       if began then PronoteDataManager.loadHomework_resume displayHomework o
       else ret tt)%js st /\
  PronoteDataManager.loadTimetable displayTimetable o st
    = (began <~ PronoteDataManager.loadTimetable_begin ;;
       if began then PronoteDataManager.loadTimetable_resume displayTimetable o
       else ret tt)%js st /\
  PronoteDataManager.loadGrades o st
    = (began <~ PronoteDataManager.loadGrades_begin ;;
       if began then PronoteDataManager.loadGrades_resume o else ret tt)%js st.
Proof.
  unfold PronoteDataManager.loadHomework, PronoteDataManager.loadHomework_begin,
    PronoteDataManager.loadHomework_resume, PronoteDataManager.loadTimetable,
    PronoteDataManager.loadTimetable_begin, PronoteDataManager.loadTimetable_resume,
    PronoteDataManager.loadGrades, PronoteDataManager.loadGrades_begin,
    PronoteDataManager.loadGrades_resume,
    APIClient.getHomework, APIClient.getHomework_send, APIClient.getTimetable,
    APIClient.getTimetable_send, APIClient.getGrades, APIClient.getGrades_send,
    APIClient.post, APIClient.post_send, APIClient.request,
    PronoteDataManager.showLoading, try_catch, bind, getElementById, gets, update,
    modify, ret.
  repeat split.
  - destruct (document st !! "homework-list"); [| reflexivity].
    match goal with
    | |- context [APIClient.request_send ?e ?opts ?s] =>
        destruct (APIClient.request_send e opts s) as [st2 [[] | e2]]; reflexivity
    end.
  - destruct (document st !! "timetable-list"); [| reflexivity].
    match goal with
    | |- context [APIClient.request_send ?e ?opts ?s] =>
        destruct (APIClient.request_send e opts s) as [st2 [[] | e2]]; reflexivity
    end.
  - destruct (document st !! "grades-list"); [| reflexivity].
    cbn -[APIClient.request_send].
    match goal with
    | |- context [APIClient.request_send ?e ?opts ?s] =>
        destruct (APIClient.request_send e opts s) as [st2 [[] | e2]]; reflexivity
    end.
Qed.


End Loaders.

(** ** Grades *)

Section Grades.
Context `{Host}.

Lemma filterC_app keep l1 l2 :
  filterC keep (l1 ++ l2) =
  cbind (filterC keep l1) (fun a => cbind (filterC keep l2) (fun b => Normal (a ++ b))).
Proof.
  induction l1 as [| x l1 IH]; simpl.
  - destruct (filterC keep l2); reflexivity.
  - destruct (keep x) as [b | e]; simpl; [| reflexivity].
    rewrite IH. destruct (filterC keep l1) as [a | e]; simpl; [| reflexivity].
    destruct (filterC keep l2) as [c | e]; simpl; [| reflexivity].
    destruct b; reflexivity.
Qed.

Lemma filterC_skip keep l1 g l2 :
  keep g = Normal false ->
  filterC keep (l1 ++ g :: l2) = filterC keep (l1 ++ l2).
Proof.
  intros Hg. rewrite !filterC_app. simpl. rewrite Hg. simpl.
  destruct (filterC keep l1); simpl; [| reflexivity].
  destruct (filterC keep l2); reflexivity.
Qed.

Lemma forEach_skip {A} (action : A -> M unit) l1 g l2 st :
  (forall s, action g s = (s, Normal tt)) ->
  forEach action (l1 ++ g :: l2) st = forEach action (l1 ++ l2) st.
Proof.
  intros Hg. revert st. induction l1 as [| x l1 IH]; intros st; simpl.
  - unfold bind. now rewrite Hg.
  - unfold bind. destruct (action x st) as [st' [[] | e]]; [apply IH | reflexivity].
Qed.

Lemma excluded_from_average g :
  falsy_property g "grade" \/ falsy_property g "out_of" ->
  PronoteDataManager.isValidGrade g = Normal false.
Proof.
  unfold PronoteDataManager.isValidGrade.
  intros [(x & Hx & Hfalsy) | (x & Hx & Hfalsy)].
  - now rewrite Hx; simpl; rewrite Hfalsy.
  - destruct (GetV g "grade") as [grade | e] eqn:Hgrade; simpl.
    + rewrite Hx. simpl. rewrite Hfalsy. now destruct (truthy grade).
    + destruct g; simpl in *; discriminate.
Qed.

Lemma not_rendered g st :
  falsy_property g "grade" -> PronoteDataManager.displayGrade g st = (st, Normal tt).
Proof.
  intros (x & Hx & Hfalsy). unfold PronoteDataManager.displayGrade, bind, lift.
  now rewrite Hx, Hfalsy.
Qed.

(** C8. On the grades of scenario C the average is computed from the
    Math entry alone and is exactly 15 (out of 20), shown as ["15.00"];
    the Art entry, whose grade is [null], is left out of the average and
    of the list, and nothing is thrown. *)
Theorem scenario_C_average :
  PronoteDataManager.gradesAverage [math_grade; art_grade]
    = Normal ([math_grade], Some 15%float) /\
  toFixed2 15 = "15.00" /\
  forall st, is_Some (document st !! "grades-list") ->
    exists st',
      PronoteDataManager.displayGrades (JArr [math_grade; art_grade]) st
        = (st', Normal tt) /\
      shows "grades-list"
        [ NGradesSummary "15.00" 1;
          NGradeItem "Math" "Date inconnue" (Number_toString 1) "15" "20" None ] st'.
Proof.
  split; [vm_compute; reflexivity |].
  split; [vm_compute; reflexivity |].
  intros st [el Hel].
  unfold PronoteDataManager.displayGrades, getElementById.
  unfold bind at 1. unfold gets at 1. rewrite Hel.
  set (summary := NGradesSummary "15.00" 1).
  set (item := NGradeItem "Math" "Date inconnue" (Number_toString 1) "15" "20" None).
  exists (with_document
            (alter (fun e => with_children (children e ++ [item]) e) "grades-list"
               (alter (fun e => with_children (children e ++ [summary]) e) "grades-list"
                  (alter (with_children []) "grades-list" (document st)))) st).
  split; [reflexivity |].
  unfold shows. simpl. rewrite !lookup_alter_eq, Hel. reflexivity.
Qed.

(** C10. In [displayGrades], an entry whose [grade] is falsy (the number
    0, the empty string, [null], [undefined]) or whose [out_of] is falsy
    does not count: the entries averaged and the average are those of the
    list without it. An entry whose [grade] is falsy is not rendered
    either: whenever other entries remain, the page is the one drawn
    from the list without it. So a grade of 0 is treated as no grade, and
    an entry without [out_of] is left out of the average, although its
    item shows the default 20. (A list of ungraded entries alone leaves
    the container blank.) *)
Theorem falsy_grades_excluded :
  (forall l1 g l2,
     falsy_property g "grade" \/ falsy_property g "out_of" ->
     PronoteDataManager.gradesAverage (l1 ++ g :: l2)
       = PronoteDataManager.gradesAverage (l1 ++ l2)) /\
  (forall l1 g l2 st,
     falsy_property g "grade" ->
     PronoteDataManager.displayGrade g st = (st, Normal tt) /\
     (l1 ++ l2 <> [] ->
      PronoteDataManager.displayGrades (JArr (l1 ++ g :: l2)) st
        = PronoteDataManager.displayGrades (JArr (l1 ++ l2)) st)) /\
  (falsy_property zero_grade "grade" /\
   PronoteDataManager.gradesAverage [zero_grade] = Normal ([], None)) /\
  (falsy_property unscaled_grade "out_of" /\
   PronoteDataManager.gradesAverage [unscaled_grade] = Normal ([], None) /\
   forall st, is_Some (document st !! "grades-list") ->
     exists st',
       PronoteDataManager.displayGrades (JArr [unscaled_grade]) st = (st', Normal tt) /\
       shows "grades-list"
         [ NGradeItem "Math" "Date inconnue" (Number_toString 1) "12"
             (Number_toString 20) None ] st') /\
  (forall st, is_Some (document st !! "grades-list") ->
     exists st',
       PronoteDataManager.displayGrades (JArr [art_grade]) st = (st', Normal tt) /\
       shows "grades-list" [] st').
Proof.
  assert (Havg : forall l1 g l2,
             falsy_property g "grade" \/ falsy_property g "out_of" ->
             PronoteDataManager.gradesAverage (l1 ++ g :: l2)
               = PronoteDataManager.gradesAverage (l1 ++ l2)).
  { intros l1 g l2 Hg. unfold PronoteDataManager.gradesAverage.
    now rewrite (filterC_skip _ l1 g l2 (excluded_from_average g Hg)). }
  split; [exact Havg |]. split.
  - intros l1 g l2 st Hg. split; [now apply not_rendered |].
    intros Hne.
    assert (Hlen : forall l : list JsValue, l <> [] -> length_is_zero (JArr l) = Normal false)
      by (intros [| x l] Hl; [contradiction | reflexivity]).
    unfold PronoteDataManager.displayGrades, getElementById, update, array_method,
      bind, gets, lift, modify.
    destruct (document st !! "grades-list"); [| reflexivity].
    rewrite (Hlen (l1 ++ l2) Hne), (Hlen (l1 ++ g :: l2)) by (now destruct l1).
    rewrite (Havg l1 g l2 (or_introl Hg)).
    destruct (PronoteDataManager.gradesAverage (l1 ++ l2)) as [[valid average] | e0];
      [| reflexivity].
    match goal with
    | |- context [match ?summary ?s with _ => _ end] =>
        destruct (summary s) as [st2 [[] | e1]]; [| reflexivity]
    end.
    apply forEach_skip. intros s. now apply not_rendered.
  - split; [| split].
    + split; [exists (JNum 0); split; reflexivity | reflexivity].
    + split; [exists JUndefined; split; reflexivity |].
      split; [reflexivity |].
      intros st [el Hel].
      unfold PronoteDataManager.displayGrades, getElementById.
      unfold bind at 1. unfold gets at 1. rewrite Hel.
      set (item := NGradeItem "Math" "Date inconnue" (Number_toString 1) "12"
                     (Number_toString 20) None).
      exists (with_document
                (alter (fun e => with_children (children e ++ [item]) e) "grades-list"
                   (alter (with_children []) "grades-list" (document st))) st).
      split; [reflexivity |].
      unfold shows. simpl. rewrite !lookup_alter_eq, Hel. reflexivity.
    + intros st [el Hel].
      unfold PronoteDataManager.displayGrades, getElementById.
      unfold bind at 1. unfold gets at 1. rewrite Hel.
      exists (with_document (alter (with_children []) "grades-list" (document st)) st).
      split; [reflexivity |].
      unfold shows. simpl. rewrite lookup_alter_eq, Hel. reflexivity.
Qed.

End Grades.

(** ** Invariants of scripts *)

Section Invariants.
Variable I : App -> Prop.

Lemma sound_ret {A} (a : A) : sound I (ret a).
Proof. intros st Hst. split; [exact Hst | now exists a]. Qed.

Lemma sound_gets {A} (f : App -> A) : sound I (gets f).
Proof. intros st Hst. split; [exact Hst | now exists (f st)]. Qed.

Lemma sound_modify f : (forall st, I st -> I (f st)) -> sound I (modify f).
Proof. intros Hf st Hst. split; [now apply Hf | now exists tt]. Qed.

Lemma sound_bind {A B} (m : M A) (k : A -> M B) :
  sound I m -> (forall a, sound I (k a)) -> sound I (bind m k).
Proof.
  intros Hm Hk st Hst. unfold bind. destruct (Hm st Hst) as [HI [a Ha]].
  destruct (m st) as [st' c]; simpl in *. subst c. now apply Hk.
Qed.

Lemma sound_forEach {A} (action : A -> M unit) items :
  (forall x, sound I (action x)) -> sound I (forEach action items).
Proof.
  intros Ha. induction items as [| x items IH]; simpl.
  - apply sound_ret.
  - apply sound_bind; [apply Ha | intros _; exact IH].
Qed.

End Invariants.

Lemma page_has_page_invariant ids : page_invariant (page_has ids).
Proof.
  split; try (intros v st Hst; exact Hst).
  - intros id f st Hst j Hj. simpl. rewrite lookup_alter.
    destruct (decide (id = j)) as [-> |]; [| now apply Hst].
    destruct (Hst j Hj) as [el ->]. now eexists.
  - intros g st Hst j Hj. simpl. rewrite lookup_fmap.
    destruct (Hst j Hj) as [el ->]. now eexists.
Qed.

Lemma token_absent_page_invariant : page_invariant token_absent.
Proof. split; intros; assumption. Qed.

Section PageScripts.
Context `{Host}.
Variable I : App -> Prop.
Hypothesis page : page_invariant I.

Lemma sound_update id f : sound I (update id f).
Proof. apply sound_modify. intros st. apply (inv_update I page). Qed.

Lemma sound_showEmpty id message : sound I (PronoteDataManager.showEmpty id message).
Proof. apply sound_update. Qed.

Lemma sound_clearAllData : sound I PronoteDataManager.clearAllData.
Proof.
  unfold PronoteDataManager.clearAllData. apply sound_bind.
  - apply sound_modify. intros st Hst.
    now apply (inv_homework I page), (inv_timetable I page), (inv_grades I page).
  - intros _. apply sound_forEach. intros id. apply sound_bind; [apply sound_gets |].
    intros [el |]; [apply sound_showEmpty | apply sound_ret].
Qed.

Lemma sound_clearMessages : sound I ChatManager.clearMessages.
Proof.
  unfold ChatManager.clearMessages. apply sound_bind; [apply sound_gets |].
  intros container. apply sound_bind.
  - destruct container; [apply sound_update | apply sound_ret].
  - intros _. apply sound_modify. intros st. apply (inv_messages I page).
Qed.

Lemma sound_setLoading isLoading message : sound I (AuthManager.setLoading isLoading message).
Proof.
  unfold AuthManager.setLoading.
  apply sound_bind; [apply sound_gets | intros overlay].
  apply sound_bind; [apply sound_gets | intros loadingText].
  apply sound_bind.
  - destruct overlay; [| apply sound_ret].
    destruct isLoading; [| apply sound_update].
    apply sound_bind; [apply sound_update | intros _].
    destruct loadingText; [apply sound_update | apply sound_ret].
  - intros _. apply sound_modify. intros st. apply (inv_submitDisabled I page).
Qed.

End PageScripts.

(** ** Logout *)

Lemma page_invariant_and I J :
  page_invariant I -> page_invariant J -> page_invariant (fun st => I st /\ J st).
Proof.
  intros HI HJ. split; intros; split;
    first [ now apply (inv_update I HI) | now apply (inv_update J HJ)
          | now apply (inv_reset I HI) | now apply (inv_reset J HJ)
          | now apply (inv_homework I HI) | now apply (inv_homework J HJ)
          | now apply (inv_timetable I HI) | now apply (inv_timetable J HJ)
          | now apply (inv_grades I HI) | now apply (inv_grades J HJ)
          | now apply (inv_messages I HI) | now apply (inv_messages J HJ)
          | now apply (inv_isTyping I HI) | now apply (inv_isTyping J HJ)
          | now apply (inv_submitDisabled I HI) | now apply (inv_submitDisabled J HJ) ].
Qed.

Section Logout.
Context `{Host}.

Lemma sound_element I id prop :
  (forall st, I st -> is_Some (document st !! id)) -> sound I (element id prop).
Proof.
  intros Hid st Hst. unfold element, bind, getElementById, gets.
  destruct (Hid st Hst) as [el ->]. split; [exact Hst | now exists el].
Qed.

Lemma sound_reset I id :
  page_invariant I -> (forall st, I st -> is_Some (document st !! id)) -> sound I (reset id).
Proof.
  intros page Hid. unfold reset. apply sound_bind; [now apply sound_element |].
  intros _. apply sound_modify. intros st. apply (inv_reset I page).
Qed.

Lemma sound_after_modify {A} (I J : App -> Prop) f (k : M A) :
  (forall st, I st -> J (f st)) -> sound J k ->
  forall st, I st ->
    J (fst ((_ <~ modify f ;; k)%js st)) /\ exists a, snd ((_ <~ modify f ;; k)%js st) = Normal a.
Proof. intros Hf Hk st Hst. unfold bind, modify. now apply Hk, Hf. Qed.

(** [onLogoutSuccess] on a page that has the screens and the forms: it
    does not throw, forgets the profile, and keeps what the page scripts
    keep. *)
Lemma onLogoutSuccess_sound I st :
  page_invariant I -> (forall st, I st -> page_has logout_elements st) ->
  (forall st, I st -> I (with_currentUser JNull st)) ->
  I st ->
  I (fst (AuthManager.onLogoutSuccess st)) /\
  currentUser (fst (AuthManager.onLogoutSuccess st)) = JNull /\
  snd (AuthManager.onLogoutSuccess st) = Normal tt.
Proof.
  intros page Hhas Huser Hst.
  set (J := fun s => I s /\ currentUser s = JNull).
  assert (HJ : page_invariant J)
    by (apply page_invariant_and; [exact page | split; intros; assumption]).
  assert (Hid : forall id, In id logout_elements ->
                  forall s, J s -> is_Some (document s !! id))
    by (intros id Hin s [Hs _]; now apply (Hhas s Hs)).
  unfold AuthManager.onLogoutSuccess.
  match goal with
  | |- context [bind (modify ?f) (fun _ => ?k)] =>
      destruct (sound_after_modify I J f k) with (st := st) as [[HI HU] [[] Hret]]
  end; [now split; [apply Huser |] | | exact Hst | now repeat split].
  apply sound_bind; [apply sound_element, Hid; simpl; tauto | intros _].
  apply sound_bind; [now apply sound_update | intros _].
  apply sound_bind; [apply sound_element, Hid; simpl; tauto | intros _].
  apply sound_bind; [now apply sound_update | intros _].
  apply sound_bind; [apply sound_reset; [exact HJ | apply Hid; simpl; tauto] | intros _].
  apply sound_bind; [apply sound_reset; [exact HJ | apply Hid; simpl; tauto] | intros _].
  apply sound_bind; [now apply sound_clearMessages | intros _].
  now apply sound_clearAllData.
Qed.

(** [logout] always leaves the token store empty and the page as it
    was. *)
Lemma logout_clears o st :
  token_absent (fst (APIClient.logout o st)) /\
  document (fst (APIClient.logout o st)) = document st.
Proof.
  unfold APIClient.logout, try_finally, bind, APIClient.post. rewrite request_eq.
  unfold token_absent.
  destruct (defaultHeaders st) as [h | e]; simpl.
  - destruct (settled o), (unauthorized o); simpl;
      (split; [split; [reflexivity | apply lookup_delete_eq] | reflexivity]).
  - split; [split; [reflexivity | apply lookup_delete_eq] | reflexivity].
Qed.

(** The failure of the request is the failure of [logout]. *)
Lemma logout_propagates o st e :
  sendable st -> settled o = Throw e -> snd (APIClient.logout o st) = Throw e.
Proof.
  intros [h Hh] He.
  unfold APIClient.logout, try_finally, bind, APIClient.post. rewrite request_eq, Hh, He.
  now destruct (unauthorized o).
Qed.

Lemma handleLogout_once o st :
  page_has logout_elements st ->
  exists st',
    AuthManager.handleLogout o st = (st', Normal tt) /\
    page_has logout_elements st' /\ token_absent st' /\ currentUser st' = JNull.
Proof.
  intros Hpage. unfold AuthManager.handleLogout.
  match goal with
  | |- context [try_finally _ ?f] => set (final := f)
  end.
  unfold try_finally, try_catch.
  pose proof (page_has_page_invariant logout_elements) as Ipage.
  (* the try block *)
  unfold bind at 1.
  destruct (sound_setLoading _ Ipage true "Déconnexion..." st Hpage) as [Hpage1 [[] Hret]].
  destruct (AuthManager.setLoading true "Déconnexion..." st) as [st1 c1].
  simpl in Hpage1, Hret. subst c1.
  destruct (logout_clears o st1) as [Habsent Hdoc].
  assert (Hpage2 : page_has logout_elements (fst (APIClient.logout o st1)))
    by (intros id Hid; rewrite Hdoc; now apply Hpage1).
  destruct (APIClient.logout o st1) as [st2 c2]. simpl in Habsent, Hpage2.
  (* the finally block, after either end of the try block *)
  set (K := fun s => page_has logout_elements s /\ token_absent s).
  assert (HK : page_invariant K)
    by (apply page_invariant_and; [exact Ipage | exact token_absent_page_invariant]).
  assert (Hfinal : exists st',
             final st2 = (st', Normal tt) /\ K st' /\ currentUser st' = JNull).
  { unfold final, bind.
    destruct (onLogoutSuccess_sound K st2 HK (fun s Hs => proj1 Hs)
                (fun s Hs => Hs) (conj Hpage2 Habsent)) as (HK3 & Huser & Hret).
    destruct (AuthManager.onLogoutSuccess st2) as [st3 c3]. simpl in HK3, Huser, Hret.
    subst c3.
    set (J := fun s => K s /\ currentUser s = JNull).
    assert (HJ : page_invariant J)
      by (apply page_invariant_and; [exact HK | split; intros; assumption]).
    destruct (sound_setLoading J HJ false "Chargement..." st3 (conj HK3 Huser))
      as [[HK4 Huser4] [[] Hret4]].
    destruct (AuthManager.setLoading false "Chargement..." st3) as [st4 c4].
    simpl in *. subst c4. now exists st4. }
  destruct Hfinal as (st' & Heq & [Hp Ha] & Hu).
  exists st'. destruct c2 as [[] | e]; simpl; rewrite Heq; auto.
Qed.

(** C5, as amended. [APIClient.logout] always leaves the token store
    empty, but the failure of its request is its own failure: it
    propagates to the caller. That caller, [AuthManager.handleLogout],
    swallows it: on a page that has the screens and the forms it resets,
    [handleLogout] never throws and leaves the token store empty and the
    profile forgotten, and so does a second call made right after the
    first, whatever the two requests come to. *)
Theorem logout_clears_token st o1 o2 :
  page_has logout_elements st ->
  (token_absent (fst (APIClient.logout o1 st)) /\
   token_absent (fst (APIClient.logout o2 (fst (APIClient.logout o1 st)))) /\
   forall e, sendable st -> settled o1 = Throw e ->
     snd (APIClient.logout o1 st) = Throw e) /\
  exists st1 st2,
    AuthManager.handleLogout o1 st = (st1, Normal tt) /\
    token_absent st1 /\ currentUser st1 = JNull /\
    AuthManager.handleLogout o2 st1 = (st2, Normal tt) /\
    token_absent st2 /\ currentUser st2 = JNull.
Proof.
  intros Hpage. split.
  - split; [apply logout_clears |]. split; [apply logout_clears |].
    intros e. apply logout_propagates.
  - destruct (handleLogout_once o1 st Hpage) as (st1 & H1 & Hpage1 & Ha1 & Hu1).
    destruct (handleLogout_once o2 st1 Hpage1) as (st2 & H2 & _ & Ha2 & Hu2).
    now exists st1, st2.
Qed.

End Logout.

(** C5 as stated fails for [logout()] itself: when the request cannot
    reach the server, the call clears the token and then fails with the
    error of [fetch]. *)
Lemma logout_failure_propagates :
  snd (@APIClient.logout example_host
         (NetworkFailure (mkError "TypeError" "Failed to fetch")) logged_in_app)
    = Throw (mkError "TypeError" "Failed to fetch") /\
  token_absent (fst (@APIClient.logout example_host
                       (NetworkFailure (mkError "TypeError" "Failed to fetch"))
                       logged_in_app)).
Proof. split; [reflexivity | split; reflexivity]. Qed.

Lemma logout_clears_token_witness :
  exists st1 st2,
    @AuthManager.handleLogout example_host
      (NetworkFailure (mkError "TypeError" "Failed to fetch")) logged_in_app
      = (st1, Normal tt) /\
    token_absent st1 /\ currentUser st1 = JNull /\
    @AuthManager.handleLogout example_host (Response 401 (Json (JObj []))) st1
      = (st2, Normal tt) /\
    token_absent st2 /\ currentUser st2 = JNull.
Proof.
  apply (@logout_clears_token example_host logged_in_app).
  intros id Hid. simpl in Hid.
  repeat destruct Hid as [<- | Hid]; try contradiction; vm_compute; eauto.
Defined.

(** ** The authentication predicate *)

Section Authentication.
Context `{Host}.

Lemma constructor_state st :
  let st' := fst (AuthManager.constructor (fst (APIClient.constructor st))) in
  accessToken st' = match sessionStorage st !! "access_token" with
                    | Some t => JStr t
                    | None => JNull
                    end /\
  currentUser st' = JNull /\ sessionStorage st' = sessionStorage st.
Proof.
  unfold AuthManager.constructor, APIClient.constructor, APIClient.loadToken,
    APIClient.getENTs_send, APIClient.get_send, try_catch, bind, gets, modify.
  simpl. rewrite request_send_eq.
  match goal with
  | |- context [defaultHeaders ?s] => destruct (defaultHeaders s)
  end; simpl; auto.
Qed.

(** What [isAuthenticated()] computes. It reads the state without
    changing it, and answers [true] exactly when the token store holds a
    token (the client's own [isAuthenticated()] answers [true]: its token
    is truthy) and the current user is not [null], the value the
    constructor and [onLogoutSuccess] give it. In particular, once the
    page has been loaded again (the constructors have run), it answers
    [false] even though the storage still holds the token. *)
Theorem isAuthenticated_iff st :
  (fst (AuthManager.isAuthenticated st) = st /\
   (snd (AuthManager.isAuthenticated st) = Normal true <->
    snd (APIClient.isAuthenticated st) = Normal true /\ currentUser st <> JNull) /\
   (snd (APIClient.isAuthenticated st) = Normal true <-> truthy (accessToken st) = true)) /\
  (let st' := fst (AuthManager.constructor (fst (APIClient.constructor st))) in
   forall t, sessionStorage st !! "access_token" = Some t ->
     accessToken st' = JStr t /\ sessionStorage st' !! "access_token" = Some t /\
     currentUser st' = JNull /\
     AuthManager.isAuthenticated st' = (st', Normal false)).
Proof.
  split.
  - unfold AuthManager.isAuthenticated, APIClient.isAuthenticated, bind, gets, ret.
    destruct (truthy (accessToken st)); simpl.
    + split; [reflexivity |]. split; [| tauto]. split.
      * intros [= Hu]. split; [reflexivity |]. intros Hnull. now rewrite Hnull in Hu.
      * intros [_ Hu]. destruct (currentUser st); try reflexivity. contradiction.
    + split; [reflexivity |]. split; split; try discriminate. now intros [[=] _].
  - intros st' t Ht. destruct (constructor_state st) as (Htok & Huser & Hsto).
    fold st' in Htok, Huser, Hsto. rewrite Ht in Htok. clearbody st'.
    repeat split; try assumption; [now rewrite Hsto |].
    unfold AuthManager.isAuthenticated, APIClient.isAuthenticated, bind, gets, ret.
    destruct (truthy (accessToken st')); [now rewrite Huser | reflexivity].
Qed.

End Authentication.

(** ** The chat *)

Section Chat.
Context `{Host}.

Lemma last_after_trim (l : list Node) x n :
  (n <= List.length l)%nat -> last (skipn n (l ++ [x])) = Some x.
Proof.
  intros Hn. rewrite drop_app_le by exact Hn. apply last_snoc.
Qed.

Lemma last_remove_indicator l role text :
  last l = Some (NMessage role text) ->
  last (ChatManager.remove_indicator l) = Some (NMessage role text).
Proof.
  induction l as [| x [| y l] IH]; intros Hl; [discriminate | |].
  - injection Hl as ->. reflexivity.
  - rewrite last_cons_cons in Hl. specialize (IH Hl).
    assert (Hx : last (x :: ChatManager.remove_indicator (y :: l))
                 = Some (NMessage role text)).
    { destruct (ChatManager.remove_indicator (y :: l)) as [| z r];
        [discriminate | now rewrite last_cons_cons]. }
    destruct x; try exact Hx. exact Hl.
Qed.

Lemma addMessage_spec role content st :
  is_Some (document st !! "chat-messages") ->
  match DOMString_nullable content with
  | Normal text =>
      exists st',
        ChatManager.addMessage role content st = (st', Normal tt) /\
        last_message st' = Some (NMessage role text) /\
        isTyping st' = isTyping st /\
        (forall I, chat_invariant I -> I st -> I st')
  | Throw e => ChatManager.addMessage role content st = (st, Throw e)
  end.
Proof.
  intros [box Hbox].
  unfold ChatManager.addMessage, getElementById, update, bind, gets, lift, modify, ret.
  rewrite Hbox. destruct (DOMString_nullable content) as [text | e]; [| reflexivity].
  cbn [messages with_document with_messages].
  destruct (Nat.ltb _ _).
  - eexists. split; [reflexivity |]. split; [| split; [reflexivity |]].
    + unfold last_message. cbn [document with_document with_messages].
      rewrite !lookup_alter_eq, Hbox. cbn.
      apply last_after_trim.
      match goal with
      | |- (List.length (List.filter ?f ?l) - _ <= _)%nat =>
          pose proof (List.filter_length_le f l) as Hle
      end.
      rewrite List.length_app in Hle. cbn [List.length] in Hle.
      unfold CONFIG.MAX_CHAT_MESSAGES. lia.
    + intros I [Hupd Hmsg] Hst. apply Hupd, Hmsg, Hmsg, Hupd, Hst.
  - eexists. split; [reflexivity |]. split; [| split; [reflexivity |]].
    + unfold last_message. cbn [document with_document with_messages].
      rewrite lookup_alter_eq, Hbox. cbn. apply last_snoc.
    + intros I [Hupd Hmsg] Hst. apply Hmsg, Hupd, Hst.
Qed.

Lemma say_spec text st :
  is_Some (document st !! "chat-messages") ->
  exists st',
    ChatManager.addMessage "assistant" (JStr text) st = (st', Normal tt) /\
    last_message st' = Some (NMessage "assistant" text).
Proof.
  intros Hbox. destruct (addMessage_spec "assistant" (JStr text) st Hbox)
    as (st' & Heq & Hlast & _). now exists st'.
Qed.

(** The [try ... catch] of [sendMessage], from a state whose page has the
    chat container: it never throws, and the last message is the answer. *)
Lemma answer_spec message o st :
  is_Some (document st !! "chat-messages") ->
  exists st',
    try_catch
      (context <~ ChatManager.buildContext message ;;
       response <~ APIClient.sendChatMessage (JStr message) context o ;;
       success <~ lift (GetV response "success") ;;
       reply <~ (if truthy success then lift (GetV response "response")
                 else ret success) ;;
       if truthy reply then ChatManager.addMessage "assistant" reply
       else ChatManager.addMessage "assistant"
              (JStr "Désolé, je n'ai pas pu traiter votre demande."))%js
      (fun error =>
         ChatManager.addMessage "assistant"
           (JStr "Une erreur est survenue. Veuillez réessayer.")) st
    = (st', Normal tt) /\
    last_message st' = Some (NMessage "assistant" (chat_reply st message o)).
Proof.
  intros Hbox. unfold chat_reply, try_catch.
  unfold bind at 1. unfold ChatManager.buildContext, bind at 1, gets, lift.
  destruct (ChatManager.contextFor message _ _ _ _) as [context | e]; [| now apply say_spec].
  unfold bind at 1. unfold APIClient.sendChatMessage, APIClient.post.
  rewrite request_eq.
  destruct (defaultHeaders st) as [h | e]; [| now apply say_spec].
  set (st1 := if unauthorized o then _ else _).
  assert (Hbox1 : is_Some (document st1 !! "chat-messages"))
    by (unfold st1; now destruct (unauthorized o)).
  clearbody st1.
  destruct (settled o) as [response | e]; [| now apply say_spec].
  unfold bind at 1.
  destruct (GetV response "success") as [success | e]; [| now apply say_spec].
  unfold bind at 1. destruct (truthy success) eqn:Hsuccess.
  - destruct (GetV response "response") as [reply | e]; [| now apply say_spec].
    unfold ret. destruct (truthy reply) eqn:Hreply.
    + pose proof (addMessage_spec "assistant" reply st1 Hbox1) as Hadd.
      destruct (DOMString_nullable reply) as [text | e].
      * destruct Hadd as (st' & -> & Hlast & _). now exists st'.
      * rewrite Hadd. now apply say_spec.
    + destruct (say_spec fallback_reply st1 Hbox1) as (st' & Heq & Hlast).
      unfold fallback_reply in Heq. rewrite Heq. now exists st'.
  - unfold ret. rewrite Hsuccess.
    destruct (say_spec fallback_reply st1 Hbox1) as (st' & Heq & Hlast).
    unfold fallback_reply in Heq. rewrite Heq. now exists st'.
Qed.

Lemma chat_reply_frame st st' message o :
  homework st' = homework st -> timetable st' = timetable st -> grades st' = grades st ->
  currentUser st' = currentUser st -> accessToken st' = accessToken st ->
  chat_reply st' message o = chat_reply st message o.
Proof.
  intros Hh Ht Hg Hu Ha. unfold chat_reply, defaultHeaders. now rewrite Hh, Ht, Hg, Hu, Ha.
Qed.

Lemma DOMString_truthy reply : truthy reply = true -> DOMString_nullable reply = ToString reply.
Proof. now destruct reply. Qed.

Lemma sendMessage_spec st o input :
  document st !! "chat-input" = Some input ->
  trim (value input) <> "" ->
  is_Some (document st !! "chat-messages") ->
  isTyping st = false ->
  exists st',
    ChatManager.sendMessage o st = (st', Normal tt) /\
    last_message st'
      = Some (NMessage "assistant" (chat_reply st (trim (value input)) o)) /\
    isTyping st' = false.
Proof.
  intros Hinput Hmessage Hbox Htyping.
  set (message := trim (value input)) in *.
  set (K := fun s =>
         is_Some (document s !! "chat-messages") /\
         homework s = homework st /\ timetable s = timetable st /\
         grades s = grades st /\ currentUser s = currentUser st /\
         accessToken s = accessToken st).
  assert (HK : chat_invariant K).
  { split; [| intros v s Hs; exact Hs].
    intros id f s ([el Hel] & Hrest). split; [| exact Hrest].
    cbn. rewrite lookup_alter. destruct (decide (id = "chat-messages")) as [-> |];
      [rewrite Hel | rewrite Hel]; eauto. }
  assert (HKst : K st) by (unfold K; auto 10).
  unfold ChatManager.sendMessage.
  unfold bind at 1. unfold getElementById at 1, gets at 1. rewrite Hinput.
  fold message. unfold bind at 1. unfold gets at 1. rewrite Htyping.
  destruct (String.eqb_spec message "") as [Hempty | _]; [contradiction |].
  cbn [orb].
  (* the message of the user *)
  unfold bind at 1.
  destruct (addMessage_spec "user" (JStr message) st Hbox) as (st1 & -> & _ & _ & Hframe).
  apply (Hframe K HK) in HKst. clear Hframe.
  (* the input is emptied, the indicator shown, isTyping set *)
  unfold bind at 1. unfold update at 1, modify at 1.
  apply (chat_update K HK "chat-input" (with_value "")) in HKst.
  set (st2 := with_document _ st1) in *. clearbody st2. clear st1.
  unfold bind at 1. unfold ChatManager.showTypingIndicator.
  unfold bind at 1. unfold getElementById at 1, gets at 1.
  destruct HKst as ([box2 Hbox2] & Hrest). rewrite Hbox2.
  unfold update at 1, modify at 1.
  unfold bind at 1. unfold modify at 1.
  set (st4 := with_isTyping true _).
  assert (HK4 : K st4).
  { unfold st4. split; [| exact Hrest]. cbn. rewrite lookup_alter_eq, Hbox2. eauto. }
  clearbody st4. clear st2 box2 Hbox2 Hrest.
  (* the request and the answer *)
  unfold try_finally.
  destruct HK4 as (Hbox4 & Hh & Ht & Hg & Hu & Ha).
  destruct (answer_spec message o st4 Hbox4) as (st5 & -> & Hlast).
  rewrite (chat_reply_frame st st4 message o Hh Ht Hg Hu Ha) in Hlast.
  (* the indicator is removed *)
  eexists. split; [reflexivity |]. split; [| reflexivity].
  unfold last_message in *. cbn.
  rewrite lookup_alter_eq.
  destruct (document st5 !! "chat-messages") as [box5 |]; [| discriminate].
  cbn in *. now apply last_remove_indicator.
Qed.

(** C7. When a message is sent (the chat box holds one, no answer is
    pending, and the page has the chat container), [sendMessage] never
    throws and ends with an assistant message at the bottom of the
    conversation. That message is the reply of the backend when the
    response has a truthy [success] and a truthy [response]; it is the
    fixed apology when a response arrives in any other shape; and it is
    the fixed error phrase on any transport failure. No other text is ever
    shown. *)
Theorem chat_always_answers st o input :
  document st !! "chat-input" = Some input ->
  trim (value input) <> "" ->
  is_Some (document st !! "chat-messages") ->
  isTyping st = false ->
  exists st' text,
    ChatManager.sendMessage o st = (st', Normal tt) /\
    last_message st' = Some (NMessage "assistant" text) /\
    isTyping st' = false /\
    (forall context response reply t,
       snd (ChatManager.buildContext (trim (value input)) st) = Normal context ->
       sendable st -> answered o response ->
       (exists success, GetV response "success" = Normal success /\ truthy success = true) ->
       GetV response "response" = Normal reply -> truthy reply = true ->
       ToString reply = Normal t ->
       text = t) /\
    (forall context response,
       snd (ChatManager.buildContext (trim (value input)) st) = Normal context ->
       sendable st -> answered o response -> no_data "response" response ->
       text = "Désolé, je n'ai pas pu traiter votre demande.") /\
    (transport_failure o -> text = "Une erreur est survenue. Veuillez réessayer.") /\
    (text = "Désolé, je n'ai pas pu traiter votre demande." \/
     text = "Une erreur est survenue. Veuillez réessayer." \/
     exists response reply,
       answered o response /\ GetV response "response" = Normal reply /\
       truthy reply = true /\ ToString reply = Normal text).
Proof.
  intros Hinput Hmessage Hbox Htyping.
  destruct (sendMessage_spec st o input Hinput Hmessage Hbox Htyping)
    as (st' & Heq & Hlast & Hdone).
  exists st', (chat_reply st (trim (value input)) o).
  repeat (split; [assumption |]).
  unfold ChatManager.buildContext, bind, gets, lift. cbn [snd].
  unfold chat_reply. split; [| split; [| split]].
  - intros context response reply t -> [h ->] Hans (success & Hs & Hsuccess) Hr Hreply Ht.
    apply settled_answered in Hans as [-> _].
    now rewrite Hs, Hsuccess, Hr, Hreply, (DOMString_truthy reply Hreply), Ht.
  - intros context response -> [h ->] Hans (success & Hs & Hcase).
    apply settled_answered in Hans as [-> _]. rewrite Hs.
    destruct Hcase as [-> | (reply & -> & ->)]; [reflexivity |].
    now destruct (truthy success).
  - intros Hfail. apply settled_transport_failure in Hfail as [e ->].
    now destruct (ChatManager.contextFor _ _ _ _ _), (defaultHeaders st).
  - destruct (ChatManager.contextFor _ _ _ _ _); [| auto].
    destruct (defaultHeaders st); [| auto].
    destruct o as [e | status body]; [auto |]. unfold settled.
    destruct (Nat.eqb status 401) eqn:H401; [auto |].
    destruct (negb (ok status)) eqn:Hok;
      [destruct (failure_message status body); auto |].
    destruct body as [response | e]; [| auto].
    destruct (GetV response "success") as [success | e]; [| auto].
    destruct (truthy success); [| auto].
    destruct (GetV response "response") as [reply | e] eqn:Hreply; [| auto].
    destruct (truthy reply) eqn:Htruthy; [| auto].
    rewrite (DOMString_truthy reply Htruthy).
    destruct (ToString reply) as [text | e] eqn:Htext; [| auto].
    right. right. exists response, reply. repeat split; try assumption.
    exists status. split; [reflexivity |]. now apply negb_false_iff.
Qed.

End Chat.

Lemma chat_always_answers_witness :
  exists st' text,
    @ChatManager.sendMessage example_host
      (Response 200 (Json (JObj [("success", JBool false)]))) logged_in_app
      = (st', Normal tt) /\
    last_message st' = Some (NMessage "assistant" text) /\
    isTyping st' = false /\
    text = "Désolé, je n'ai pas pu traiter votre demande.".
Proof.
  destruct (@chat_always_answers example_host logged_in_app
              (Response 200 (Json (JObj [("success", JBool false)])))
              (with_value "Quels sont mes devoirs ?" blank))
    as (st' & text & Heq & Hlast & Hdone & _ & Hfallback & _).
  - reflexivity.
  - vm_compute. discriminate.
  - vm_compute. eauto.
  - reflexivity.
  - exists st', text. repeat (split; [assumption |]).
    eapply Hfallback.
    + reflexivity.
    + eexists. reflexivity.
    + exists 200%nat. split; reflexivity.
    + exists (JBool false). split; [reflexivity | now left].
Defined.

(** ** Login *)

Section Login.
Context `{Host}.

(** What an answer can be, for a reader of [success] and of the token. *)
Lemma envelope_cases v :
  (exists success, GetV v "success" = Normal success /\ truthy success = true /\
     exists token, GetV v "access_token" = Normal token /\ truthy token = true) \/
  no_data "access_token" v \/ v = JNull \/ v = JUndefined.
Proof.
  destruct v as [| | b | x | s | items | fields]; auto.
  all: destruct (GetV _ "success") as [success | e] eqn:Hs; try discriminate.
  all: destruct (truthy success) eqn:Hsuccess;
    [| right; left; exists success; split; [exact Hs | now left]].
  all: destruct (GetV _ "access_token") as [token | e] eqn:Ht; try discriminate.
  all: destruct (truthy token) eqn:Htoken;
    [left; exists success; split; [reflexivity |]; split; [exact Hsuccess |];
     exists token; split; [reflexivity | exact Htoken]
    | right; left; exists success; split; [exact Hs |]; right; exists token;
      split; [exact Ht | exact Htoken]].
Qed.

Lemma loginDirect_rejected pronoteUrl username password accountType o v st h :
  defaultHeaders st = Normal h -> answered o v -> no_data "access_token" v ->
  exists st',
    APIClient.loginDirect pronoteUrl username password accountType o st = (st', Normal v) /\
    accessToken st' = accessToken st /\ sessionStorage st' = sessionStorage st /\
    currentUser st' = currentUser st /\ document st' = document st.
Proof.
  intros Hh Hans (success & Hs & Hcase). apply settled_answered in Hans as [Hset Hun].
  unfold APIClient.loginDirect, APIClient.post. unfold bind at 1.
  rewrite request_eq, Hh, Hun, Hset.
  unfold bind at 1. unfold lift at 1. rewrite Hs.
  unfold bind at 1.
  destruct Hcase as [-> | (token & Ht & Htoken)].
  - eexists. split; [reflexivity |]. auto.
  - destruct (truthy success).
    + unfold bind at 1. unfold lift at 1. rewrite Ht, Htoken.
      eexists. split; [reflexivity |]. auto.
    + eexists. split; [reflexivity |]. auto.
Qed.

Lemma loginDirect_accepted pronoteUrl username password accountType o v st h token t :
  defaultHeaders st = Normal h -> answered o v ->
  (exists success, GetV v "success" = Normal success /\ truthy success = true) ->
  GetV v "access_token" = Normal token -> truthy token = true ->
  ToString token = Normal t ->
  exists st',
    APIClient.loginDirect pronoteUrl username password accountType o st = (st', Normal v) /\
    accessToken st' = token /\ sessionStorage st' !! "access_token" = Some t.
Proof.
  intros Hh Hans (success & Hs & Hsuccess) Ht Htoken Hstring.
  apply settled_answered in Hans as [Hset Hun].
  unfold APIClient.loginDirect, APIClient.post. unfold bind at 1.
  rewrite request_eq, Hh, Hun, Hset.
  unfold bind at 1. unfold lift at 1. rewrite Hs, Hsuccess.
  unfold bind at 1. unfold bind at 1. unfold lift at 1. rewrite Ht, Htoken.
  unfold APIClient.saveToken, bind, lift, modify, ret. rewrite Hstring.
  eexists. split; [reflexivity |]. split; [reflexivity |].
  cbn. apply lookup_insert_eq.
Qed.

(** A token that has no string form is not saved: [saveToken] throws
    before it writes, and the error leaves [loginDirect]. *)
Lemma loginDirect_unsaved pronoteUrl username password accountType o v st h token e :
  defaultHeaders st = Normal h -> answered o v ->
  (exists success, GetV v "success" = Normal success /\ truthy success = true) ->
  GetV v "access_token" = Normal token -> truthy token = true ->
  ToString token = Throw e ->
  exists st',
    APIClient.loginDirect pronoteUrl username password accountType o st = (st', Throw e) /\
    accessToken st' = accessToken st /\ sessionStorage st' = sessionStorage st.
Proof.
  intros Hh Hans (success & Hs & Hsuccess) Ht Htoken Hstring.
  apply settled_answered in Hans as [Hset Hun].
  unfold APIClient.loginDirect, APIClient.post. unfold bind at 1.
  rewrite request_eq, Hh, Hun, Hset.
  unfold bind at 1. unfold lift at 1. rewrite Hs, Hsuccess.
  unfold bind at 1. unfold bind at 1. unfold lift at 1. rewrite Ht, Htoken.
  unfold APIClient.saveToken, bind, lift, modify, ret. rewrite Hstring.
  eexists. split; [reflexivity |]. split; reflexivity.
Qed.

(** A body without an envelope, the JSON text [null]: reading [success]
    throws. *)
Lemma loginDirect_no_envelope pronoteUrl username password accountType o v st h e :
  defaultHeaders st = Normal h -> answered o v -> GetV v "success" = Throw e ->
  exists st',
    APIClient.loginDirect pronoteUrl username password accountType o st = (st', Throw e) /\
    accessToken st' = accessToken st /\ sessionStorage st' = sessionStorage st.
Proof.
  intros Hh Hans Hs. apply settled_answered in Hans as [Hset Hun].
  unfold APIClient.loginDirect, APIClient.post. unfold bind at 1.
  rewrite request_eq, Hh, Hun, Hset.
  unfold bind at 1. unfold lift at 1. rewrite Hs.
  eexists. split; [reflexivity |]. split; reflexivity.
Qed.

Lemma element_found id prop st el :
  document st !! id = Some el -> element id prop st = (st, Normal el).
Proof. intros Hel. unfold element, bind, getElementById, gets. now rewrite Hel. Qed.

(** [setLoading] writes to the overlay and to its text only. *)
Lemma setLoading_other isLoading message st id :
  id <> "loading-overlay" -> id <> "loading-text" ->
  document (fst (AuthManager.setLoading isLoading message st)) !! id = document st !! id.
Proof.
  intros Hoverlay Htext.
  unfold AuthManager.setLoading, bind, getElementById, gets, update, modify, ret.
  destruct (document st !! "loading-overlay"), (document st !! "loading-text"),
    isLoading; cbn; rewrite ?lookup_alter_ne by congruence; reflexivity.
Qed.

Lemma handleDirectLogin_rejected o v st :
  sendable st -> answered o v -> falsy_property v "success" ->
  login_form_filled st -> is_Some (document st !! "login-error") ->
  exists st',
    AuthManager.handleDirectLogin o st = (st', Normal tt) /\
    login_error_shown "Échec de l'authentification" st' /\
    currentUser st' = currentUser st /\
    accessToken st' = accessToken st /\ sessionStorage st' = sessionStorage st.
Proof.
  intros [h Hh] Hans (success & Hs & Hfalsy)
    (url & user & password & account & Hurl & Hurl' & Huser & Huser' & Hpass & Hpass'
       & Haccount) Herror.
  set (K := fun s =>
         (is_Some (document s !! "login-error") /\
          (accessToken s = accessToken st /\ sessionStorage s = sessionStorage st)) /\
         currentUser s = currentUser st).
  assert (HK : page_invariant K).
  { repeat apply page_invariant_and; try (split; intros; assumption).
    apply (page_has_page_invariant ["login-error"]) || idtac.
    split; try (intros; assumption).
    - intros id f s [el Hel]. cbn. rewrite lookup_alter.
      destruct (decide (id = "login-error")) as [-> |]; rewrite Hel; eauto.
    - intros g s [el Hel]. cbn. rewrite lookup_fmap, Hel. eauto. }
  assert (HKst : K st) by (unfold K; auto).
  unfold AuthManager.handleDirectLogin.
  unfold bind at 1. rewrite (element_found _ _ _ _ Hurl).
  unfold bind at 1. rewrite (element_found _ _ _ _ Huser).
  unfold bind at 1. rewrite (element_found _ _ _ _ Hpass).
  unfold bind at 1. rewrite (element_found _ _ _ _ Haccount).
  destruct (String.eqb_spec (trim (value url)) "") as [? | _]; [contradiction |].
  destruct (String.eqb_spec (trim (value user)) "") as [? | _]; [contradiction |].
  destruct (String.eqb_spec (value password) "") as [? | _]; [contradiction |].
  cbn [orb].
  match goal with
  | |- context [try_finally ?b ?f] => set (attempt := b); set (final := f)
  end.
  unfold bind.
  destruct (sound_setLoading K HK true "Connexion en cours..." st HKst) as [HK1 [[] Hret]].
  destruct (AuthManager.setLoading true "Connexion en cours..." st) as [st1 c1].
  cbn in HK1, Hret. subst c1.
  (* the attempt *)
  assert (Hattempt : exists st3,
            attempt st1 = (st3, Normal tt) /\ K st3 /\
            login_error_shown "Échec de l'authentification" st3).
  { destruct HK1 as [[Herr1 [Ha1 Hs1]] Hu1].
    assert (Hh1 : defaultHeaders st1 = Normal h)
      by (unfold defaultHeaders in *; now rewrite Ha1).
    destruct (loginDirect_rejected (JStr (trim (value url))) (JStr (trim (value user)))
                (JStr (value password)) (JNum (parseInt_string (value account)))
                o v st1 h Hh1 Hans) as (st2 & Hlogin & Ha2 & Hs2 & Hu2 & Hd2).
    { exists success. split; [exact Hs | now left]. }
    unfold attempt, try_catch. unfold bind at 1. rewrite Hlogin.
    unfold bind at 1. unfold lift at 1. rewrite Hs, Hfalsy.
    unfold AuthManager.showError, bind, getElementById, gets, update, modify.
    rewrite Hd2. destruct Herr1 as [el Hel]. rewrite Hel.
    eexists. split; [reflexivity |]. split.
    - unfold K. cbn. rewrite Hd2, lookup_alter_eq, Hel. cbn.
      rewrite Ha2, Hs2, Hu2. eauto 10.
    - unfold login_error_shown. cbn. rewrite Hd2, lookup_alter_eq, Hel. cbn.
      eexists. split; [reflexivity |]. split; [reflexivity | set_solver]. }
  destruct Hattempt as (st3 & Hattempt & HK3 & Hshown).
  unfold try_finally. rewrite Hattempt.
  destruct (sound_setLoading K HK false "Chargement..." st3 HK3) as [HK4 [[] Hret]].
  pose proof (setLoading_other false "Chargement..." st3 "login-error") as Hother.
  unfold final.
  destruct (AuthManager.setLoading false "Chargement..." st3) as [st4 c4].
  cbn in HK4, Hret, Hother. subst c4.
  exists st4. split; [reflexivity |].
  destruct HK4 as [[_ [Ha4 Hs4]] Hu4]. repeat split; try assumption.
  destruct Hshown as (el & Hel & Htext & Hshow).
  exists el. rewrite Hother by discriminate. auto.
Qed.

(** C4, as amended. For every call to [loginDirect] that receives a 2xx
    response with a JSON body: if [success] and [access_token] are
    truthy, the token is stored (the client holds it, the session storage
    its string form) and the envelope, which embeds the student profile,
    is returned, except that a token with no string form (for instance
    an object with a [toString] property of its own) makes [saveToken]
    throw: nothing is stored and the error leaves [loginDirect]. If [success] is falsy or
    the token is missing, the call does not fail: it returns the envelope
    as it is and leaves the token store alone. A body with no envelope to
    read (the JSON text [null]) makes the call throw, the token store
    untouched. The rejection is reported by the caller: when [success] is
    falsy, [handleDirectLogin] shows the fixed message
    "Échec de l'authentification" and keeps profile and token as they
    were. *)
Theorem loginDirect_outcomes st pronoteUrl username password accountType o v :
  sendable st -> answered o v ->
  (forall token t,
     (exists success, GetV v "success" = Normal success /\ truthy success = true) ->
     GetV v "access_token" = Normal token -> truthy token = true ->
     ToString token = Normal t ->
     exists st',
       APIClient.loginDirect pronoteUrl username password accountType o st
         = (st', Normal v) /\
       accessToken st' = token /\ sessionStorage st' !! "access_token" = Some t) /\
  (no_data "access_token" v ->
     exists st',
       APIClient.loginDirect pronoteUrl username password accountType o st
         = (st', Normal v) /\
       accessToken st' = accessToken st /\ sessionStorage st' = sessionStorage st) /\
  (falsy_property v "success" ->
   login_form_filled st -> is_Some (document st !! "login-error") ->
     exists st',
       AuthManager.handleDirectLogin o st = (st', Normal tt) /\
       login_error_shown "Échec de l'authentification" st' /\
       currentUser st' = currentUser st /\
       accessToken st' = accessToken st /\ sessionStorage st' = sessionStorage st) /\
  (forall token e,
     (exists success, GetV v "success" = Normal success /\ truthy success = true) ->
     GetV v "access_token" = Normal token -> truthy token = true ->
     ToString token = Throw e ->
     exists st',
       APIClient.loginDirect pronoteUrl username password accountType o st
         = (st', Throw e) /\
       accessToken st' = accessToken st /\ sessionStorage st' = sessionStorage st) /\
  (forall e,
     GetV v "success" = Throw e ->
     exists st',
       APIClient.loginDirect pronoteUrl username password accountType o st
         = (st', Throw e) /\
       accessToken st' = accessToken st /\ sessionStorage st' = sessionStorage st) /\
  ((exists success, GetV v "success" = Normal success /\ truthy success = true /\
      exists token, GetV v "access_token" = Normal token /\ truthy token = true) \/
   no_data "access_token" v \/ v = JNull \/ v = JUndefined).
Proof.
  intros Hsend Hans. split; [| split; [| split; [| split; [| split]]]].
  - intros token t Hsuccess Ht Htoken Hstring. destruct Hsend as [h Hh].
    now apply (loginDirect_accepted _ _ _ _ o v st h token t).
  - intros Hnd. destruct Hsend as [h Hh].
    destruct (loginDirect_rejected pronoteUrl username password accountType o v st h
                Hh Hans Hnd) as (st' & Heq & Ha & Hs & _).
    now exists st'.
  - intros Hfalsy Hform Herror. now apply (handleDirectLogin_rejected o v).
  - intros token e Hsuccess Ht Htoken Hstring. destruct Hsend as [h Hh].
    now apply (loginDirect_unsaved _ _ _ _ o v st h token e).
  - intros e Hs. destruct Hsend as [h Hh].
    now apply (loginDirect_no_envelope _ _ _ _ o v st h e).
  - apply envelope_cases.
Qed.

End Login.

(** C4 as stated fails: [loginDirect] returns what the backend answered
    and never rejects it. An envelope with [success: false] is returned,
    and so is a malformed one ([success: true] without a token); on an
    accepted login the caller gets the whole envelope, not the profile.
    And a token is not always stored: one that has no string form makes
    [saveToken] throw. *)
Lemma loginDirect_returns_rejection :
  snd (@APIClient.loginDirect example_host (JStr "https://demo.index-education.net/pronote/")
         (JStr "alice") (JStr "wrong") (JNum 3)
         (Response 200 (Json (JObj [("success", JBool false)]))) fresh_app)
    = Normal (JObj [("success", JBool false)]) /\
  snd (@APIClient.loginDirect example_host (JStr "https://demo.index-education.net/pronote/")
         (JStr "alice") (JStr "secret") (JNum 3)
         (Response 200 (Json (JObj [("success", JBool true)]))) fresh_app)
    = Normal (JObj [("success", JBool true)]) /\
  snd (@APIClient.loginDirect example_host (JStr "https://demo.index-education.net/pronote/")
         (JStr "alice") (JStr "secret") (JNum 3)
         (Response 200 (Json login_accepted)) fresh_app)
    = Normal login_accepted /\
  (let after := @APIClient.loginDirect example_host
                  (JStr "https://demo.index-education.net/pronote/")
                  (JStr "alice") (JStr "secret") (JNum 3)
                  (Response 200 (Json login_unsaved)) fresh_app in
   snd after = Throw TypeError_to_primitive /\
   accessToken (fst after) = JNull /\
   sessionStorage (fst after) !! "access_token" = None).
Proof. repeat split. Qed.

Lemma loginDirect_outcomes_witness :
  exists st',
    @APIClient.loginDirect example_host (JStr "https://demo.index-education.net/pronote/")
      (JStr "alice") (JStr "secret") (JNum 3) (Response 200 (Json login_accepted)) fresh_app
      = (st', Normal login_accepted) /\
    accessToken st' = JStr "abc123" /\ sessionStorage st' !! "access_token" = Some "abc123".
Proof.
  destruct (@loginDirect_outcomes example_host fresh_app
              (JStr "https://demo.index-education.net/pronote/") (JStr "alice")
              (JStr "secret") (JNum 3) (Response 200 (Json login_accepted)) login_accepted)
    as [Haccepted _].
  - eexists. reflexivity.
  - exists 200%nat. split; reflexivity.
  - apply Haccepted; try reflexivity. exists (JBool true). split; reflexivity.
Defined.



(** Scenario A of the specification: the direct login of Alice on a fresh
    page stores the token, records the profile, and starts the three
    loads. *)
Example scenario_A :
  let after := @AuthManager.handleDirectLogin example_host
                 (Response 200 (Json login_accepted)) fresh_app in
  snd after = Normal tt /\
  accessToken (fst after) = JStr "abc123" /\
  sessionStorage (fst after) !! "access_token" = Some "abc123" /\
  currentUser (fst after) = JObj [("student_name", JStr "Alice")] /\
  snd (AuthManager.isAuthenticated (fst after)) = Normal true /\
  List.map fst (sent (fst after))
    = [ "http://localhost:8000/api/auth/login/direct";
        "http://localhost:8000/api/pronote/homework";
        "http://localhost:8000/api/pronote/timetable";
        "http://localhost:8000/api/pronote/grades" ].
Proof. vm_compute. repeat split. Qed.


Lemma scenario_C_average_witness :
  exists st',
    @PronoteDataManager.displayGrades example_host (JArr [math_grade; art_grade])
      logged_in_app = (st', Normal tt) /\
    shows "grades-list"
      [ NGradesSummary "15.00" 1;
        NGradeItem "Math" "Date inconnue" "1" "15" "20" None ] st'.
Proof.
  destruct (@scenario_C_average example_host) as (_ & _ & Hpage).
  apply (Hpage logged_in_app). vm_compute. eauto.
Defined.

Lemma falsy_grades_excluded_witness :
  @PronoteDataManager.gradesAverage example_host [math_grade; zero_grade; unscaled_grade]
    = Normal ([math_grade], Some 15%float).
Proof.
  destruct (@falsy_grades_excluded example_host) as (Haverage & _).
  transitivity (@PronoteDataManager.gradesAverage example_host
                  ([math_grade] ++ [unscaled_grade])).
  - apply (Haverage [math_grade] zero_grade [unscaled_grade]).
    left. exists (JNum 0). split; reflexivity.
  - transitivity (@PronoteDataManager.gradesAverage example_host ([math_grade] ++ [])).
    + apply (Haverage [math_grade] unscaled_grade []).
      right. exists JUndefined. split; reflexivity.
    + reflexivity.
Defined.

Lemma isAuthenticated_iff_witness :
  snd (AuthManager.isAuthenticated logged_in_app) = Normal true /\
  snd (AuthManager.isAuthenticated
         (fst (@AuthManager.constructor example_host
                 (fst (APIClient.constructor logged_in_app)))))
    = Normal false /\
  accessToken (fst (@AuthManager.constructor example_host
                      (fst (APIClient.constructor logged_in_app))))
    = JStr "abc123".
Proof.
  destruct (@isAuthenticated_iff example_host logged_in_app)
    as [(_ & Hiff & _) Hreload].
  split; [apply Hiff; split; [reflexivity | discriminate] |].
  destruct (Hreload "abc123") as (Htoken & _ & _ & Heq); [reflexivity |].
  split; [now rewrite Heq | exact Htoken].
Defined.

(** C6, at the input where the code departs from it. A direct login is
    answered with [success] and a token but without [student]:
    [handleDirectLogin] stores the token and assigns [undefined] to the
    current user, [onLoginSuccess] throws on reading the student's name,
    and the login screen stays with an error. No profile is held, yet
    [isAuthenticated()] answers [true]: its test [!== null] lets
    [undefined] through. *)
Lemma isAuthenticated_without_profile :
  let after := fst (@AuthManager.handleDirectLogin example_host
                      (Response 200 (Json login_without_profile)) fresh_app) in
  accessToken after = JStr "abc123" /\
  sessionStorage after !! "access_token" = Some "abc123" /\
  currentUser after = JUndefined /\
  (exists el, document after !! "login-screen" = Some el /\ "active" ∈ classList el) /\
  (exists el, document after !! "login-error" = Some el /\ "show" ∈ classList el) /\
  snd (AuthManager.isAuthenticated after) = Normal true.
Proof.
  cbv zeta. split; [reflexivity |]. split; [reflexivity |]. split; [reflexivity |].
  split; [| split; [| reflexivity]].
  - eexists. split; [vm_compute; reflexivity |]. vm_compute. set_solver.
  - eexists. split; [vm_compute; reflexivity |]. vm_compute. set_solver.
Qed.

(** * Further properties of the code

    Properties of the functions above that the code shows by itself:
    what the scripts leave alone, how they end when something fails, and
    how they compose. *)

(** ** The token store and the transport, further *)

Section Session.
Context `{Host}.

(** X1. The token store round trip. A token saved by [saveToken] is
    the one the client holds, and its text is what [loadToken] reads back
    and what a client constructed afterwards (the page reloaded in the
    same tab) starts with; the other keys of the session storage are
    untouched. After [clearToken], [loadToken] gives [null] and a new
    client starts without a token. A token that cannot be converted to a
    string is not saved: [saveToken] throws and the state is as
    before. *)
Theorem token_store_round_trip st token :
  match ToString token with
  | Normal s =>
      exists st1,
        APIClient.saveToken token st = (st1, Normal tt) /\
        accessToken st1 = token /\
        APIClient.loadToken st1 = (st1, Normal (JStr s)) /\
        accessToken (fst (APIClient.constructor st1)) = JStr s /\
        (forall k, k <> "access_token" -> sessionStorage st1 !! k = sessionStorage st !! k) /\
        (let st2 := fst (APIClient.clearToken st1) in
         APIClient.loadToken st2 = (st2, Normal JNull) /\
         accessToken (fst (APIClient.constructor st2)) = JNull /\
         forall k, k <> "access_token" -> sessionStorage st2 !! k = sessionStorage st !! k)
  | Throw e => APIClient.saveToken token st = (st, Throw e)
  end.
Proof.
  unfold APIClient.saveToken, APIClient.loadToken, APIClient.constructor,
    APIClient.clearToken, bind, lift, modify, gets.
  destruct (ToString token) as [s | e]; [| reflexivity].
  eexists. split; [reflexivity |]. cbn.
  rewrite lookup_insert_eq, lookup_delete_eq. repeat split.
  - intros k Hk. now apply lookup_insert_ne.
  - intros k Hk. now rewrite lookup_delete_ne, lookup_insert_ne.
Qed.

Lemma settled_normal_iff o v : settled o = Normal v <-> answered o v.
Proof.
  split.
  - destruct o as [e | status body]; simpl; [discriminate |].
    destruct (Nat.eqb status 401); [discriminate |].
    destruct (negb (ok status)) eqn:Hok.
    + destruct (failure_message status body); discriminate.
    + destruct body as [data | e]; [| discriminate].
      intros [= ->]. exists status. split; [reflexivity | now apply negb_false_iff].
  - intros Hans. now apply settled_answered in Hans as [-> _].
Qed.

(** X2. When the request can be built, [request] returns a value
    exactly when a response arrived with a 2xx status and a JSON body,
    and the value is that body; in every other case it throws. *)
Theorem request_returns_iff st endpoint options o v :
  sendable st ->
  (snd (APIClient.request endpoint options o st) = Normal v <-> answered o v).
Proof.
  intros [h Hh]. rewrite request_eq, Hh. cbn [snd]. apply settled_normal_iff.
Qed.

(** X3. What [request] leaves alone. The page, the profile, the
    cached data, the chat and the submit buttons are as before, whatever
    the outcome; the token store is untouched unless the response is a
    401, and no other key of the session storage is ever written. When
    the request can be built exactly one [fetch] is issued, to the base
    URL followed by the endpoint, with the method and the body of the
    options, every header of the options, and a JSON content type unless
    the options set one; when it cannot, nothing happens at all. *)
Theorem request_frame st endpoint options o :
  let st' := fst (APIClient.request endpoint options o st) in
  (document st' = document st /\ currentUser st' = currentUser st /\
   homework st' = homework st /\ timetable st' = timetable st /\
   grades st' = grades st /\ messages st' = messages st /\
   isTyping st' = isTyping st /\ submitDisabled st' = submitDisabled st) /\
  (unauthorized o = false ->
   accessToken st' = accessToken st /\ sessionStorage st' = sessionStorage st) /\
  (forall k, k <> "access_token" -> sessionStorage st' !! k = sessionStorage st !! k) /\
  (sendable st ->
   exists config,
     sent st' = sent st ++ [((CONFIG.API_BASE_URL ++ endpoint)%string, config)] /\
     method config = opt_method options /\ body config = opt_body options /\
     (forall k v, opt_headers options !! k = Some v -> headers config !! k = Some v) /\
     (opt_headers options !! "Content-Type" = None ->
      headers config !! "Content-Type" = Some "application/json")) /\
  (~ sendable st -> st' = st).
Proof.
  cbv zeta. rewrite request_eq.
  destruct (defaultHeaders st) as [h | e] eqn:Hh.
  - split; [destruct (unauthorized o); cbn; auto 10 |].
    split; [intros ->; cbn; auto |].
    split; [intros k Hk; destruct (unauthorized o); cbn; [now apply lookup_delete_ne | reflexivity] |].
    split; [| intros Hn; exfalso; apply Hn; now exists h].
    intros _. eexists. split; [destruct (unauthorized o); reflexivity |].
    cbn. repeat split.
    + intros k v Hk. now apply lookup_union_Some_l.
    + intros Hnone. rewrite lookup_union_r by exact Hnone.
      unfold defaultHeaders in Hh. destruct (truthy (accessToken st)).
      * destruct (ToString (accessToken st)); [| discriminate].
        injection Hh as <-. rewrite lookup_insert_ne by discriminate.
        apply lookup_singleton_eq.
      * injection Hh as <-. apply lookup_singleton_eq.
  - cbn. split; [auto 10 |]. split; [auto |]. split; [auto |].
    split; [| reflexivity]. intros [h Hh']. congruence.
Qed.

End Session.

Section Messages.
Context `{Host}.

(** X4. The message of a failed request. For a response
    whose status is neither 2xx nor 401, [request] always throws. The
    error carries the string form of the body's [detail] when [detail] is
    truthy: a non-empty string as it is, but a list of one validation
    error, as FastAPI answers with 422, as [[object Object]], whatever
    [error] holds. When [detail] is falsy it carries the string form of a
    truthy [error], and when both are falsy the text
    [Erreur HTTP <status>], which is also what a body that is not JSON
    gives. *)
Theorem failed_request_carries_the_server_message st endpoint options status :
  sendable st -> Nat.eqb status 401 = false -> ok status = false ->
  let failure body := snd (APIClient.request endpoint options (Response status body) st) in
  let generic := ("Erreur HTTP " ++ decimal_of_nat status)%string in
  (forall e, failure (NotJson e) = Throw (mkError "Error" generic)) /\
  (forall v detail message,
     GetV v "detail" = Normal detail -> truthy detail = true ->
     ToString detail = Normal message ->
     failure (Json v) = Throw (mkError "Error" message)) /\
  (forall v detail error message,
     GetV v "detail" = Normal detail -> truthy detail = false ->
     GetV v "error" = Normal error -> truthy error = true ->
     ToString error = Normal message ->
     failure (Json v) = Throw (mkError "Error" message)) /\
  (forall v detail error,
     GetV v "detail" = Normal detail -> truthy detail = false ->
     GetV v "error" = Normal error -> truthy error = false ->
     failure (Json v) = Throw (mkError "Error" generic)) /\
  (forall fields detail,
     assoc "detail" fields = Some (JStr detail) -> detail <> "" ->
     failure (Json (JObj fields)) = Throw (mkError "Error" detail)) /\
  (forall fields errors,
     assoc "detail" fields = Some (JArr [JObj errors]) -> assoc "toString" errors = None ->
     failure (Json (JObj fields)) = Throw (mkError "Error" "[object Object]")) /\
  (forall body, exists e, failure body = Throw e).
Proof.
  intros [h Hh] H401 Hok. cbv zeta.
  assert (Hfail : forall body,
            snd (APIClient.request endpoint options (Response status body) st)
            = match failure_message status body with
              | Normal m => Throw (mkError "Error" m)
              | Throw e => Throw e
              end).
  { intros body. rewrite request_eq, Hh. cbn [snd settled]. now rewrite H401, Hok. }
  assert (Hdetail : forall v detail message,
            GetV v "detail" = Normal detail -> truthy detail = true ->
            ToString detail = Normal message ->
            snd (APIClient.request endpoint options (Response status (Json v)) st)
            = Throw (mkError "Error" message)).
  { intros v detail message Hd Htruthy Hm. rewrite Hfail. unfold failure_message.
    rewrite Hd. cbn [cbind]. now rewrite Htruthy, Hm. }
  split; [| split; [| split; [| split; [| split; [| split]]]]].
  - intros e. now rewrite Hfail.
  - exact Hdetail.
  - intros v detail error message Hd Hfalsy He Htruthy Hm. rewrite Hfail.
    unfold failure_message. rewrite Hd. cbn [cbind]. rewrite Hfalsy, He. cbn [cbind].
    now rewrite Htruthy, Hm.
  - intros v detail error Hd Hfalsy He Hfalsy'. rewrite Hfail. unfold failure_message.
    rewrite Hd. cbn [cbind]. rewrite Hfalsy, He. cbn [cbind]. now rewrite Hfalsy'.
  - intros fields detail Hd Hne. apply (Hdetail _ (JStr detail)).
    + cbn [GetV]. now rewrite Hd.
    + cbn. now destruct (String.eqb_spec detail "").
    + reflexivity.
  - intros fields errors Hd Hnone. apply (Hdetail _ (JArr [JObj errors])).
    + cbn [GetV]. now rewrite Hd.
    + reflexivity.
    + cbn. now rewrite Hnone.
  - intros body. rewrite Hfail. destruct (failure_message status body); eauto.
Qed.

End Messages.

Section CASSession.
Context `{Host}.

Lemma loginCAS_rejected pronoteUrl username password entName o v st h :
  defaultHeaders st = Normal h -> answered o v -> no_data "access_token" v ->
  exists st',
    APIClient.loginCAS pronoteUrl username password entName o st = (st', Normal v) /\
    accessToken st' = accessToken st /\ sessionStorage st' = sessionStorage st /\
    currentUser st' = currentUser st /\ document st' = document st.
Proof.
  intros Hh Hans (success & Hs & Hcase). apply settled_answered in Hans as [Hset Hun].
  unfold APIClient.loginCAS, APIClient.post. unfold bind at 1.
  rewrite request_eq, Hh, Hun, Hset.
  unfold bind at 1. unfold lift at 1. rewrite Hs.
  unfold bind at 1.
  destruct Hcase as [-> | (token & Ht & Htoken)].
  - eexists. split; [reflexivity |]. auto.
  - destruct (truthy success).
    + unfold bind at 1. unfold lift at 1. rewrite Ht, Htoken.
      eexists. split; [reflexivity |]. auto.
    + eexists. split; [reflexivity |]. auto.
Qed.

Lemma loginCAS_accepted pronoteUrl username password entName o v st h token t :
  defaultHeaders st = Normal h -> answered o v ->
  (exists success, GetV v "success" = Normal success /\ truthy success = true) ->
  GetV v "access_token" = Normal token -> truthy token = true ->
  ToString token = Normal t ->
  exists st',
    APIClient.loginCAS pronoteUrl username password entName o st = (st', Normal v) /\
    accessToken st' = token /\ sessionStorage st' !! "access_token" = Some t /\
    currentUser st' = currentUser st /\ document st' = document st.
Proof.
  intros Hh Hans (success & Hs & Hsuccess) Ht Htoken Hstring.
  apply settled_answered in Hans as [Hset Hun].
  unfold APIClient.loginCAS, APIClient.post. unfold bind at 1.
  rewrite request_eq, Hh, Hun, Hset.
  unfold bind at 1. unfold lift at 1. rewrite Hs, Hsuccess.
  unfold bind at 1. unfold bind at 1. unfold lift at 1. rewrite Ht, Htoken.
  unfold APIClient.saveToken, bind, lift, modify, ret. rewrite Hstring.
  eexists. split; [reflexivity |]. split; [reflexivity |].
  cbn. split; [apply lookup_insert_eq | auto].
Qed.

Lemma loginCAS_unsaved pronoteUrl username password entName o v st h token e :
  defaultHeaders st = Normal h -> answered o v ->
  (exists success, GetV v "success" = Normal success /\ truthy success = true) ->
  GetV v "access_token" = Normal token -> truthy token = true ->
  ToString token = Throw e ->
  exists st',
    APIClient.loginCAS pronoteUrl username password entName o st = (st', Throw e) /\
    accessToken st' = accessToken st /\ sessionStorage st' = sessionStorage st.
Proof.
  intros Hh Hans (success & Hs & Hsuccess) Ht Htoken Hstring.
  apply settled_answered in Hans as [Hset Hun].
  unfold APIClient.loginCAS, APIClient.post. unfold bind at 1.
  rewrite request_eq, Hh, Hun, Hset.
  unfold bind at 1. unfold lift at 1. rewrite Hs, Hsuccess.
  unfold bind at 1. unfold bind at 1. unfold lift at 1. rewrite Ht, Htoken.
  unfold APIClient.saveToken, bind, lift, modify, ret. rewrite Hstring.
  eexists. split; [reflexivity |]. split; reflexivity.
Qed.

Lemma loginCAS_no_envelope pronoteUrl username password entName o v st h e :
  defaultHeaders st = Normal h -> answered o v -> GetV v "success" = Throw e ->
  exists st',
    APIClient.loginCAS pronoteUrl username password entName o st = (st', Throw e) /\
    accessToken st' = accessToken st /\ sessionStorage st' = sessionStorage st.
Proof.
  intros Hh Hans Hs. apply settled_answered in Hans as [Hset Hun].
  unfold APIClient.loginCAS, APIClient.post. unfold bind at 1.
  rewrite request_eq, Hh, Hun, Hset.
  unfold bind at 1. unfold lift at 1. rewrite Hs.
  eexists. split; [reflexivity |]. split; reflexivity.
Qed.

(** X5. The outcomes of [loginCAS], for every outcome of its
    request. One POST is sent to [/api/auth/login/cas] with the four
    fields of the form. A 2xx JSON answer whose [success] and
    [access_token] are truthy is returned as it is and its token saved, in
    the client and (as its string form) in the session storage; but a
    token that has no string form makes [saveToken] throw, and nothing is
    stored. An answer with a falsy [success] or without a token is
    returned as it is, the store as it was. An answer with no envelope to
    read (the JSON text [null]) makes [loginCAS] throw, the store as it
    was. A failed request is thrown on to the caller, and it leaves the
    store alone unless it was a 401. *)
Theorem loginCAS_outcomes st pronoteUrl username password entName o :
  sendable st ->
  (forall v token t,
     answered o v ->
     (exists success, GetV v "success" = Normal success /\ truthy success = true) ->
     GetV v "access_token" = Normal token -> truthy token = true ->
     ToString token = Normal t ->
     exists st',
       APIClient.loginCAS pronoteUrl username password entName o st = (st', Normal v) /\
       accessToken st' = token /\ sessionStorage st' !! "access_token" = Some t) /\
  (forall v token e,
     answered o v ->
     (exists success, GetV v "success" = Normal success /\ truthy success = true) ->
     GetV v "access_token" = Normal token -> truthy token = true ->
     ToString token = Throw e ->
     exists st',
       APIClient.loginCAS pronoteUrl username password entName o st = (st', Throw e) /\
       accessToken st' = accessToken st /\ sessionStorage st' = sessionStorage st) /\
  (forall v,
     answered o v -> no_data "access_token" v ->
     exists st',
       APIClient.loginCAS pronoteUrl username password entName o st = (st', Normal v) /\
       accessToken st' = accessToken st /\ sessionStorage st' = sessionStorage st) /\
  (forall v e,
     answered o v -> GetV v "success" = Throw e ->
     exists st',
       APIClient.loginCAS pronoteUrl username password entName o st = (st', Throw e) /\
       accessToken st' = accessToken st /\ sessionStorage st' = sessionStorage st) /\
  (forall v,
     (exists success, GetV v "success" = Normal success /\ truthy success = true /\
        exists token, GetV v "access_token" = Normal token /\ truthy token = true) \/
     no_data "access_token" v \/ v = JNull \/ v = JUndefined) /\
  (forall e,
     settled o = Throw e ->
     snd (APIClient.loginCAS pronoteUrl username password entName o st) = Throw e /\
     (unauthorized o = false ->
      accessToken (fst (APIClient.loginCAS pronoteUrl username password entName o st))
        = accessToken st /\
      sessionStorage (fst (APIClient.loginCAS pronoteUrl username password entName o st))
        = sessionStorage st)) /\
  (exists config,
     sent (fst (APIClient.loginCAS pronoteUrl username password entName o st))
       = sent st ++ [((CONFIG.API_BASE_URL ++ "/api/auth/login/cas")%string, config)] /\
     method config = Some "POST" /\
     body config = Some (JObj [ ("pronote_url", pronoteUrl); ("username", username);
                                ("password", password); ("ent_name", entName) ])).
Proof.
  intros [h Hh]. split; [| split; [| split; [| split; [| split; [| split]]]]].
  - intros v token t Hans Hsuccess Ht Htoken Hstring.
    destruct (loginCAS_accepted pronoteUrl username password entName o v st h token t
                Hh Hans Hsuccess Ht Htoken Hstring) as (st' & Heq & Ha & Hs & _).
    now exists st'.
  - intros v token e Hans Hsuccess Ht Htoken Hstring.
    now apply (loginCAS_unsaved _ _ _ _ o v st h token e).
  - intros v Hans Hnd.
    destruct (loginCAS_rejected pronoteUrl username password entName o v st h Hh Hans Hnd)
      as (st' & Heq & Ha & Hs & _).
    now exists st'.
  - intros v e Hans Hs. now apply (loginCAS_no_envelope _ _ _ _ o v st h e).
  - apply envelope_cases.
  - intros e He.
    assert (Heq : exists st1,
              APIClient.loginCAS pronoteUrl username password entName o st
                = (st1, Throw e) /\
              (unauthorized o = false ->
               accessToken st1 = accessToken st /\ sessionStorage st1 = sessionStorage st)).
    { unfold APIClient.loginCAS, APIClient.post. unfold bind at 1.
      rewrite request_eq, Hh, He. eexists. split; [reflexivity |]. now intros ->. }
    destruct Heq as (st1 & -> & Hframe). now split.
  - unfold APIClient.loginCAS, APIClient.post. unfold bind at 1.
    rewrite request_eq, Hh.
    set (st1 := if unauthorized o then _ else _).
    assert (Hsent : sent st1 = sent st ++
              [((CONFIG.API_BASE_URL ++ "/api/auth/login/cas")%string,
                mkRequestInit (Some "POST")
                  (Some (JObj [ ("pronote_url", pronoteUrl); ("username", username);
                                ("password", password); ("ent_name", entName) ]))
                  (∅ ∪ h))])
      by (unfold st1; destruct (unauthorized o); reflexivity).
    clearbody st1.
    exists (mkRequestInit (Some "POST")
              (Some (JObj [ ("pronote_url", pronoteUrl); ("username", username);
                            ("password", password); ("ent_name", entName) ]))
              (∅ ∪ h)).
    split; [| split; reflexivity].
    rewrite <- Hsent.
    destruct (settled o) as [v | e]; [| reflexivity].
    unfold bind, lift, ret.
    destruct (GetV v "success") as [success | e]; [| reflexivity].
    destruct (truthy success); [| reflexivity].
    destruct (GetV v "access_token") as [token | e]; [| reflexivity].
    destruct (truthy token); [| reflexivity].
    unfold APIClient.saveToken, bind, lift, modify.
    destruct (ToString token); reflexivity.
Qed.

(** X6. The bearer token follows the session. After a login,
    direct or CAS, that was accepted with the token [t], every request
    carries [Authorization: Bearer t] and no other authorization header;
    after a logout, or after any request that was answered 401, requests
    carry no authorization header at all. (The caller's own headers are
    assumed not to set one.) *)
Theorem bearer_follows_the_session st endpoint options o' :
  (forall k, is_Some (opt_headers options !! k) ->
             ascii_toLowerCase k <> "authorization") ->
  (forall pronoteUrl username password accountType entName o v token t st1,
     sendable st -> answered o v ->
     (exists success, GetV v "success" = Normal success /\ truthy success = true) ->
     GetV v "access_token" = Normal token -> truthy token = true ->
     ToString token = Normal t ->
     st1 = fst (APIClient.loginDirect pronoteUrl username password accountType o st) \/
     st1 = fst (APIClient.loginCAS pronoteUrl username password entName o st) ->
     exists config,
       sent (fst (APIClient.request endpoint options o' st1))
         = sent st1 ++ [((CONFIG.API_BASE_URL ++ endpoint)%string, config)] /\
       authorization (headers config) = {[ "Authorization" := ("Bearer " ++ t)%string ]}) /\
  (forall o st1,
     st1 = fst (APIClient.logout o st) \/
     (sendable st /\ unauthorized o = true /\
      exists endpoint0 options0, st1 = fst (APIClient.request endpoint0 options0 o st)) ->
     exists config,
       sent (fst (APIClient.request endpoint options o' st1))
         = sent st1 ++ [((CONFIG.API_BASE_URL ++ endpoint)%string, config)] /\
       authorization (headers config) = ∅).
Proof.
  intros Hoptions. split.
  - intros pronoteUrl username password accountType entName o v token t st1
      [h Hh] Hans Hsuccess Ht Htoken Hstring Hst1.
    assert (Htok : accessToken st1 = token).
    { destruct Hst1 as [-> | ->].
      - destruct (loginDirect_accepted pronoteUrl username password accountType o v st h
                    token t Hh Hans Hsuccess Ht Htoken Hstring) as (st' & -> & Ha & _).
        exact Ha.
      - destruct (loginCAS_accepted pronoteUrl username password entName o v st h
                    token t Hh Hans Hsuccess Ht Htoken Hstring) as (st' & -> & Ha & _).
        exact Ha. }
    rewrite request_eq. unfold defaultHeaders. rewrite Htok, Htoken, Hstring. cbn.
    eexists. split; [destruct (unauthorized o'); reflexivity |].
    cbn. rewrite authorization_union by exact Hoptions. apply authorization_bearer.
  - intros o st1 Hst1.
    assert (Htok : accessToken st1 = JNull).
    { destruct Hst1 as [-> | ([h Hh] & Hun & endpoint0 & options0 & ->)].
      - apply (logout_clears o st).
      - rewrite request_eq, Hh, Hun. reflexivity. }
    rewrite request_eq. unfold defaultHeaders. rewrite Htok. cbn.
    eexists. split; [destruct (unauthorized o'); reflexivity |].
    cbn. rewrite authorization_union by exact Hoptions. apply authorization_none.
Qed.

End CASSession.

(** ** Rendering, further *)

Section Escaping.
Context `{Host}.

Lemma all_chars_app p s1 s2 :
  all_chars p (s1 ++ s2) = all_chars p s1 && all_chars p s2.
Proof.
  unfold all_chars. induction s1 as [| c s1 IH]; [reflexivity |].
  change (forallb p (list_ascii_of_string (String c s1 ++ s2)))
    with (p c && forallb p (list_ascii_of_string (s1 ++ s2))).
  rewrite IH. apply andb_assoc.
Qed.

Lemma escapeChars_no_markup s : all_chars (fun c => negb (is_markup c)) (escapeChars s) = true.
Proof.
  induction s as [| c s IH]; [reflexivity |].
  cbn [escapeChars]. rewrite all_chars_app, IH, andb_true_r.
  destruct c as [[] [] [] [] [] [] [] []]; reflexivity.
Qed.

Lemma unescape_escapeChars s : unescape_from 0 (escapeChars s) = s.
Proof.
  induction s as [| c s IH]; [reflexivity |].
  cbn [escapeChars].
  destruct c as [[] [] [] [] [] [] [] []]; simpl;
    change (String.append "" (escapeChars s)) with (escapeChars s); now rewrite IH.
Qed.

Lemma escapeChars_plain s : all_chars (fun c => negb (is_escaped c)) s = true -> escapeChars s = s.
Proof.
  unfold all_chars. induction s as [| c s IH]; [reflexivity |].
  cbn [list_ascii_of_string forallb escapeChars]. intros Hs.
  apply andb_true_iff in Hs as [Hc Hs]. rewrite (IH Hs).
  destruct c as [[] [] [] [] [] [] [] []]; try reflexivity; discriminate.
Qed.

(** X7. [escapeHtml] neutralises markup. Its output never
    contains [<], [>], a double or a single quote, whatever the value
    given; on strings it loses nothing, since two different texts have
    different escaped forms; and a text without any of the five special
    characters is returned as it is. *)
Theorem escapeHtml_neutralises_markup :
  (forall text out,
     escapeHtml text = Normal out ->
     all_chars (fun c => negb (is_markup c)) out = true) /\
  (forall s1 s2, escapeHtml (JStr s1) = escapeHtml (JStr s2) -> s1 = s2) /\
  (forall s, all_chars (fun c => negb (is_escaped c)) s = true ->
     escapeHtml (JStr s) = Normal s) /\
  escapeHtml (JStr "<b>Tom & Léa</b>") = Normal "&lt;b&gt;Tom &amp; Léa&lt;/b&gt;".
Proof.
  split; [| split; [| split]].
  - intros text out. unfold escapeHtml.
    destruct (ToString text) as [s | e]; [cbn | discriminate].
    intros [= <-]. apply escapeChars_no_markup.
  - intros s1 s2. cbn. intros [= Heq].
    rewrite <- (unescape_escapeChars s1), <- (unescape_escapeChars s2). now rewrite Heq.
  - intros s Hs. cbn. now rewrite (escapeChars_plain s Hs).
  - reflexivity.
Qed.

End Escaping.

Section Painting.
Context `{Host}.

Lemma appended_nil id st : appended id [] st = st.
Proof.
  unfold appended.
  replace (alter _ id (document st)) with (document st); [now destruct st |].
  symmetry. apply alter_id. intros el _. destruct el. cbn. now rewrite app_nil_r.
Qed.

Lemma appended_appended id n1 n2 st :
  appended id n2 (appended id n1 st) = appended id (n1 ++ n2) st.
Proof.
  unfold appended. unfold with_document. cbn. f_equal. rewrite alter_alter_eq. apply alter_ext.
  intros [] _. cbn. unfold with_children. cbn. now rewrite <- app_assoc.
Qed.

Lemma appended_repainted id n1 n2 st :
  appended id n2 (repainted id n1 st) = repainted id (n1 ++ n2) st.
Proof.
  unfold appended, repainted. unfold with_document. cbn. f_equal. rewrite alter_alter_eq.
  now apply alter_ext.
Qed.

Lemma repainted_repainted id n1 n2 st :
  repainted id n2 (repainted id n1 st) = repainted id n2 st.
Proof.
  unfold repainted. unfold with_document. cbn. f_equal. rewrite alter_alter_eq. now apply alter_ext.
Qed.

Lemma repainted_present id nodes st :
  is_Some (document st !! id) -> is_Some (document (repainted id nodes st) !! id).
Proof. intros [el Hel]. cbn. rewrite lookup_alter_eq, Hel. now eexists. Qed.

Lemma displayGrade_appends g :
  exists nodes c,
    forallb is_grade_node nodes = true /\
    forall st, PronoteDataManager.displayGrade g st = (appended "grades-list" nodes st, c).
Proof.
  unfold PronoteDataManager.displayGrade, PronoteDataManager.appendChild, update,
    bind, lift, ret, modify.
  destruct (GetV g "grade") as [grade | e];
    [| exists [], (Throw e); split; [reflexivity | intros st; now rewrite appended_nil]].
  destruct (negb (truthy grade));
    [exists [], (Normal tt); split; [reflexivity | intros st; now rewrite appended_nil] |].
  assert (Hstop : forall c : Completion unit,
            exists nodes c',
              forallb is_grade_node nodes = true /\
              forall st : App, (st, c) = (appended "grades-list" nodes st, c'))
    by (intros c; exists [], c; split; [reflexivity | intros st; now rewrite appended_nil]).
  destruct (GetV g "date") as [d | e]; [| apply Hstop].
  assert (Hdate : exists c0 : Completion string,
            forall st : App,
              (if truthy d
               then fun st0 : App =>
                      match ToPrimitive d with
                      | Normal a0 => (st0, Normal (Date_toLocaleDateString a0))
                      | Throw e => (st0, Throw e)
                      end
               else fun st0 : App => (st0, Normal "Date inconnue")) st = (st, c0)).
  { destruct (truthy d); [destruct (ToPrimitive d) |]; eexists; reflexivity. }
  destruct Hdate as [c0 Hdate].
  destruct c0 as [date | e];
    [| exists [], (Throw e); split;
       [reflexivity | intros st; now rewrite Hdate, appended_nil]].
  destruct (cbind (GetV g "subject") escapeHtml) as [subject | e];
    [| exists [], (Throw e); split;
       [reflexivity | intros st; now rewrite Hdate, appended_nil]].
  destruct (cbind (GetV g "coefficient") _) as [coefficient | e];
    [| exists [], (Throw e); split;
       [reflexivity | intros st; now rewrite Hdate, appended_nil]].
  destruct (ToString grade) as [value | e];
    [| exists [], (Throw e); split;
       [reflexivity | intros st; now rewrite Hdate, appended_nil]].
  destruct (cbind (GetV g "out_of") _) as [out_of | e];
    [| exists [], (Throw e); split;
       [reflexivity | intros st; now rewrite Hdate, appended_nil]].
  destruct (cbind (GetV g "comment") _) as [comment | e];
    [| exists [], (Throw e); split;
       [reflexivity | intros st; now rewrite Hdate, appended_nil]].
  exists [NGradeItem subject date coefficient value out_of comment], (Normal tt).
  split; [reflexivity |]. intros st. now rewrite Hdate.
Qed.


Lemma forEach_displayGrade_appends items :
  exists nodes c,
    forallb is_grade_node nodes = true /\
    forall st,
      forEach PronoteDataManager.displayGrade items st = (appended "grades-list" nodes st, c).
Proof.
  induction items as [| g items (nodes & c & Hnodes & IH)]; cbn [forEach].
  - exists [], (Normal tt). split; [reflexivity |]. intros st. now rewrite appended_nil.
  - destruct (displayGrade_appends g) as (n1 & c1 & Hn1 & Hg).
    destruct c1 as [[] | e].
    + exists (n1 ++ nodes), c. split; [now rewrite forallb_app, Hn1, Hnodes |].
      intros st. unfold bind. now rewrite Hg, IH, appended_appended.
    + exists n1, (Throw e). split; [exact Hn1 |].
      intros st. unfold bind. now rewrite Hg.
Qed.

(** [displayGrades] draws its container anew: what it leaves there, and
    how it ends, depend on the grades alone. Nothing is drawn only when
    the list has no [length] to read. *)
Lemma displayGrades_paints grades :
  (exists e, length_is_zero grades = Throw e /\
     forall st, is_Some (document st !! "grades-list") ->
       PronoteDataManager.displayGrades grades st = (st, Throw e)) \/
  (exists nodes c,
     (forallb is_grade_node nodes = true \/
      nodes = empty_state "Aucune note disponible") /\
     forall st, is_Some (document st !! "grades-list") ->
       PronoteDataManager.displayGrades grades st = (repainted "grades-list" nodes st, c)).
Proof.
  unfold PronoteDataManager.displayGrades, getElementById.
  destruct (length_is_zero grades) as [empty | e] eqn:Hlen.
  - right. destruct empty.
    + exists (empty_state "Aucune note disponible"), (Normal tt). split; [now right |].
      intros st [el Hel]. unfold bind at 1. unfold gets at 1. rewrite Hel.
      unfold bind, lift. reflexivity.
    + destruct (array_method "grades.filter" grades) as [items | e] eqn:Hitems.
      2: { exists [], (Throw e). split; [now left |].
           intros st [el Hel]. unfold bind at 1. unfold gets at 1. rewrite Hel.
           unfold bind, lift, update, modify. reflexivity. }
      destruct (PronoteDataManager.gradesAverage items) as [[valid average] | e] eqn:Havg.
      2: { exists [], (Throw e). split; [now left |].
           intros st [el Hel]. unfold bind at 1. unfold gets at 1. rewrite Hel.
           unfold bind, lift, update, modify. rewrite Havg. reflexivity. }
      destruct (forEach_displayGrade_appends items) as (nodes & c & Hnodes & Heach).
      destruct average as [average |].
      * exists ([NGradesSummary (toFixed2 average) (List.length valid)] ++ nodes), c.
        split; [left; cbn; exact Hnodes |].
        intros st [el Hel]. unfold bind at 1. unfold gets at 1. rewrite Hel.
        unfold bind, lift, update, modify, PronoteDataManager.appendChild, update, modify.
        rewrite Havg, Heach.
        change (with_document (alter ?f "grades-list" (document ?s)) ?s)
          with (appended "grades-list" [NGradesSummary (toFixed2 average) (List.length valid)]
                  (repainted "grades-list" [] st)) at 1.
        now rewrite appended_appended, appended_repainted.
      * exists nodes, c. split; [now left |].
        intros st [el Hel]. unfold bind at 1. unfold gets at 1. rewrite Hel.
        unfold bind, lift, update, modify, ret.
        rewrite Havg, Heach.
        change (with_document (alter (with_children []) "grades-list" (document st)) st)
          with (repainted "grades-list" [] st).
        now rewrite appended_repainted.
  - left. exists e. split; [reflexivity |].
    intros st [el Hel]. unfold bind at 1. unfold gets at 1. rewrite Hel.
    reflexivity.
Qed.


Lemma displayGrades_absent grades st :
  document st !! "grades-list" = None ->
  PronoteDataManager.displayGrades grades st = (st, Normal tt).
Proof.
  intros Hel. unfold PronoteDataManager.displayGrades, getElementById.
  unfold bind at 1. unfold gets at 1. now rewrite Hel.
Qed.

Lemma repainted_frame id nodes st :
  with_document (document st) (repainted id nodes st) = st /\
  (forall j, j <> id -> document (repainted id nodes st) !! j = document st !! j) /\
  (forall el', document (repainted id nodes st) !! id = Some el' ->
     exists el, document st !! id = Some el /\ el' = with_children nodes el).
Proof.
  split; [now destruct st |]. split.
  - intros j Hj. cbn. now apply lookup_alter_ne.
  - intros el'. cbn. rewrite lookup_alter_eq.
    destruct (document st !! id) as [el |]; [| discriminate].
    intros [= <-]. now exists el.
Qed.

(** X8. [displayGrades] draws anew. Displaying the same grades
    a second time changes nothing, and what is displayed for a list does
    not depend on what the container held before; the only thing
    [displayGrades] writes to is the content of [#grades-list]. *)
Theorem displayGrades_draws_anew grades st :
  let st' := fst (PronoteDataManager.displayGrades grades st) in
  PronoteDataManager.displayGrades grades st'
    = (st', snd (PronoteDataManager.displayGrades grades st)) /\
  (forall items nodes,
     grades = JArr items ->
     PronoteDataManager.displayGrades grades (repainted "grades-list" nodes st)
       = PronoteDataManager.displayGrades grades st) /\
  with_document (document st) st' = st /\
  (forall id, id <> "grades-list" -> document st' !! id = document st !! id) /\
  (forall el', document st' !! "grades-list" = Some el' ->
     exists el, document st !! "grades-list" = Some el /\
                el' = with_children (children el') el).
Proof.
  cbv zeta.
  destruct (document st !! "grades-list") as [el |] eqn:Hel.
  2: { rewrite (displayGrades_absent grades st Hel). cbn [fst snd].
       split; [now apply displayGrades_absent |]. split.
       - intros items nodes _. rewrite displayGrades_absent.
         + unfold repainted. replace (alter _ _ _) with (document st); [now destruct st |].
           symmetry. apply alter_id. intros x Hx. congruence.
         + cbn. now rewrite lookup_alter_eq, Hel.
       - split; [now destruct st |]. split; [reflexivity |]. intros el'. congruence. }
  assert (Hsome : is_Some (document st !! "grades-list")) by (now exists el).
  destruct (displayGrades_paints grades) as [(e & Hlen & He) | (nodes & c & _ & Hp)].
  - rewrite (He st Hsome). cbn [fst snd].
    split; [now apply He |]. split.
    + intros items nodes ->. destruct items; discriminate.
    + split; [now destruct st |]. split; [reflexivity |].
      intros el' Hel'. exists el'. split; [congruence | now destruct el'].
  - rewrite (Hp st Hsome). cbn [fst snd].
    pose proof (repainted_frame "grades-list" nodes st) as (Hframe & Hother & Hsame).
    split; [now rewrite (Hp _ (repainted_present _ nodes st Hsome)), repainted_repainted |].
    split; [| split; [exact Hframe | split; [exact Hother |]]].
    + intros items nodes0 _.
      now rewrite (Hp _ (repainted_present _ nodes0 st Hsome)), repainted_repainted.
    + intros el' Hel'. destruct (Hsame el' Hel') as (el0 & Hel0 & ->).
      exists el0. split; [congruence | now destruct el0].
Qed.

Lemma request_document endpoint options o st :
  document (fst (APIClient.request endpoint options o st)) = document st.
Proof.
  rewrite request_eq. destruct (defaultHeaders st); [| reflexivity].
  now destruct (unauthorized o).
Qed.

(** X9. [loadGrades] always settles. It never throws, whatever
    the outcome of the request and whatever the response holds; when the
    page has no [#grades-list] it does nothing; otherwise the container
    ends with the error message, the empty state or nothing but grade
    nodes, never with the loading indicator, and no other element of the
    page is touched. *)
Theorem loadGrades_always_settles o st :
  exists st',
    PronoteDataManager.loadGrades o st = (st', Normal tt) /\
    (document st !! "grades-list" = None -> st' = st) /\
    (forall id, id <> "grades-list" -> document st' !! id = document st !! id) /\
    (forall el,
       document st' !! "grades-list" = Some el ->
       children el = error_state "Erreur lors du chargement des notes" \/
       children el = empty_state "Aucune note disponible" \/
       forallb is_grade_node (children el) = true).
Proof.
  unfold PronoteDataManager.loadGrades, getElementById.
  unfold bind at 1. unfold gets at 1.
  destruct (document st !! "grades-list") as [el |] eqn:Hel.
  2: { exists st. split; [reflexivity |]. split; [reflexivity |]. split; [reflexivity |].
       intros el'. congruence. }
  unfold bind at 1. unfold PronoteDataManager.showLoading, update at 1, modify at 1.
  change (with_document (alter (with_children [NLoading]) "grades-list" (document st)) st)
    with (repainted "grades-list" [NLoading] st).
  set (drawn := fun s : App =>
         exists n, document s = alter (with_children n) "grades-list" (document st)).
  assert (Hdone : forall nodes (s : App),
            drawn s ->
            (nodes = error_state "Erreur lors du chargement des notes" \/
             nodes = empty_state "Aucune note disponible" \/
             forallb is_grade_node nodes = true) ->
            (forall id, id <> "grades-list" ->
               document (repainted "grades-list" nodes s) !! id = document st !! id) /\
            (forall el',
               document (repainted "grades-list" nodes s) !! "grades-list" = Some el' ->
               children el' = error_state "Erreur lors du chargement des notes" \/
               children el' = empty_state "Aucune note disponible" \/
               forallb is_grade_node (children el') = true)).
  { intros nodes s [n Hs] Hnodes. split.
    - intros id Hid. cbn. rewrite Hs. now rewrite !lookup_alter_ne.
    - intros el'. cbn. rewrite Hs. rewrite !lookup_alter_eq, Hel. cbn.
      now intros [= <-]. }
  assert (Herror : forall (s : App) e,
            drawn s ->
            exists st',
              (fun error : JsError =>
                 PronoteDataManager.showError "grades-list"
                   "Erreur lors du chargement des notes") e s = (st', Normal tt) /\
              (Some el = None -> st' = st) /\
              (forall id, id <> "grades-list" -> document st' !! id = document st !! id) /\
              (forall el',
                 document st' !! "grades-list" = Some el' ->
                 children el' = error_state "Erreur lors du chargement des notes" \/
                 children el' = empty_state "Aucune note disponible" \/
                 forallb is_grade_node (children el') = true)).
  { intros s e Hs. eexists. split; [reflexivity |]. split; [discriminate |].
    apply (Hdone (error_state "Erreur lors du chargement des notes") s Hs). now left. }
  unfold try_catch.
  unfold bind at 1. unfold APIClient.getGrades. unfold bind at 1. cbn [or_default truthy ret].
  unfold APIClient.post.
  pose proof (request_document ("/api/pronote/grades" ++ "")
                (mkOptions (Some "POST") (JSON_stringify JUndefined) ∅) o
                (repainted "grades-list" [NLoading] st)) as Hdoc.
  destruct (APIClient.request _ _ o _) as [st2 [response | e]]; cbn [fst] in Hdoc.
  2: { apply (Herror st2 e). unfold drawn; cbv beta. exists [NLoading]. exact Hdoc. }
  assert (Hdrawn2 : drawn st2) by (unfold drawn; cbv beta; exists [NLoading]; exact Hdoc).
  unfold bind at 1. unfold lift at 1.
  destruct (PronoteDataManager.hasData response "grades") as [present | e];
    [| now apply (Herror st2 e)].
  destruct present.
  - unfold bind at 1. unfold lift at 1.
    destruct (GetV response "grades") as [list | e]; [| now apply (Herror st2 e)].
    unfold bind at 1. unfold modify at 1.
    set (st3 := with_grades list st2).
    assert (Hdrawn3 : drawn st3) by exact Hdrawn2.
    assert (Hsome3 : is_Some (document st3 !! "grades-list")).
    { destruct Hdrawn3 as [n ->]. rewrite lookup_alter_eq, Hel. now eexists. }
    destruct (displayGrades_paints list) as [(e & _ & He) | (nodes & c & Hnodes & Hp)].
    + rewrite (He st3 Hsome3). now apply (Herror st3 e).
    + rewrite (Hp st3 Hsome3). destruct c as [[] | e].
      * eexists. split; [reflexivity |]. split; [discriminate |].
        apply (Hdone nodes st3 Hdrawn3). tauto.
      * apply (Herror _ e). destruct Hdrawn3 as [n Hn]. unfold drawn; cbv beta. exists nodes.
        unfold repainted. cbn [document with_document]. rewrite Hn, alter_alter_eq.
        now apply alter_ext.
  - eexists. split; [reflexivity |]. split; [discriminate |].
    apply (Hdone (empty_state "Aucune note disponible") st2 Hdrawn2). tauto.
Qed.

End Painting.

Section NaN.
Context `{Host}.

Lemma is_nan_spec x : PrimFloat.is_nan x = true <-> Prim2SF x = S754_nan.
Proof.
  unfold PrimFloat.is_nan. rewrite FloatAxioms.eqb_spec. unfold SFeqb, SFcompare.
  destruct (Prim2SF x) as [s | s | | s m e]; split; try discriminate; try reflexivity.
  - now destruct s.
  - rewrite Z.compare_refl.
    change (PosDef.Pos.compare_cont Eq m m) with (Pos.compare m m).
    rewrite Pos.compare_refl. now destruct s.
Qed.

Lemma nan_add_l x y : PrimFloat.is_nan x = true -> PrimFloat.is_nan (x + y) = true.
Proof.
  rewrite !is_nan_spec, add_spec. intros ->. reflexivity.
Qed.

Lemma nan_add_r x y : PrimFloat.is_nan y = true -> PrimFloat.is_nan (x + y) = true.
Proof.
  rewrite !is_nan_spec, add_spec. intros ->. unfold SF64add, SFadd.
  now destruct (Prim2SF x) as [[] | [] | |].
Qed.

Lemma nan_mul_l x y : PrimFloat.is_nan x = true -> PrimFloat.is_nan (x * y) = true.
Proof. rewrite !is_nan_spec, mul_spec. intros ->. reflexivity. Qed.

Lemma nan_div_l x y : PrimFloat.is_nan x = true -> PrimFloat.is_nan (x / y) = true.
Proof. rewrite !is_nan_spec, div_spec. intros ->. reflexivity. Qed.

Lemma nan_div_r x y : PrimFloat.is_nan y = true -> PrimFloat.is_nan (x / y) = true.
Proof.
  rewrite !is_nan_spec, div_spec. intros ->. unfold SF64div, SFdiv.
  now destruct (Prim2SF x).
Qed.

Lemma addGrade_nan_sum sum g r :
  PrimFloat.is_nan sum = true ->
  PronoteDataManager.addGrade sum g = Normal r -> PrimFloat.is_nan r = true.
Proof.
  intros Hsum. unfold PronoteDataManager.addGrade.
  destruct (GetV g "grade") as [grade |]; [cbn | discriminate].
  destruct (parseFloat grade) as [a |]; [cbn | discriminate].
  destruct (GetV g "out_of") as [out_of |]; [cbn | discriminate].
  destruct (parseFloat out_of) as [b |]; [cbn | discriminate].
  intros [= <-]. now apply nan_add_l.
Qed.

Lemma addGrade_nan_grade sum g r :
  not_a_number g "grade" \/ not_a_number g "out_of" ->
  PronoteDataManager.addGrade sum g = Normal r -> PrimFloat.is_nan r = true.
Proof.
  unfold PronoteDataManager.addGrade.
  intros [(v & x & Hv & Hx & Hnan) | (v & x & Hv & Hx & Hnan)].
  - rewrite Hv. cbn. rewrite Hx. cbn.
    destruct (GetV g "out_of") as [out_of |]; [cbn | discriminate].
    destruct (parseFloat out_of) as [b |]; [cbn | discriminate].
    intros [= <-]. now apply nan_add_r, nan_mul_l, nan_div_l.
  - destruct (GetV g "grade") as [grade |]; [cbn | discriminate].
    destruct (parseFloat grade) as [a |]; [cbn | discriminate].
    rewrite Hv. cbn. rewrite Hx. cbn.
    intros [= <-]. now apply nan_add_r, nan_mul_l, nan_div_r.
Qed.

Lemma reduce_nan_sum l sum r :
  PrimFloat.is_nan sum = true ->
  reduceC PronoteDataManager.addGrade sum l = Normal r -> PrimFloat.is_nan r = true.
Proof.
  revert sum. induction l as [| g l IH]; intros sum Hsum; cbn.
  - now intros [= <-].
  - destruct (PronoteDataManager.addGrade sum g) as [acc |] eqn:Hacc; [cbn | discriminate].
    apply IH. now apply (addGrade_nan_sum sum g).
Qed.

Lemma reduce_nan_grade l1 g l2 sum r :
  not_a_number g "grade" \/ not_a_number g "out_of" ->
  reduceC PronoteDataManager.addGrade sum (l1 ++ g :: l2) = Normal r ->
  PrimFloat.is_nan r = true.
Proof.
  intros Hg. revert sum. induction l1 as [| x l1 IH]; intros sum; cbn.
  - destruct (PronoteDataManager.addGrade sum g) as [acc |] eqn:Hacc; [cbn | discriminate].
    apply reduce_nan_sum. now apply (addGrade_nan_grade sum g).
  - destruct (PronoteDataManager.addGrade sum x) as [acc |]; [cbn | discriminate].
    apply IH.
Qed.

(** X10. One unreadable grade spoils the average. When a
    grade that counts (its [grade] and [out_of] are truthy) has a
    [grade] or an [out_of] that [parseFloat] cannot read, such as
    ["Abs"], the general average is [NaN] and the summary shows
    [NaN/20]. *)
Theorem unreadable_grade_spoils_average grades valid average g :
  PronoteDataManager.gradesAverage grades = Normal (valid, average) ->
  In g valid ->
  not_a_number g "grade" \/ not_a_number g "out_of" ->
  exists a, average = Some a /\ PrimFloat.is_nan a = true /\ toFixed2 a = "NaN".
Proof.
  intros Havg Hin Hg. unfold PronoteDataManager.gradesAverage in Havg.
  destruct (filterC PronoteDataManager.isValidGrade grades) as [kept |];
    [cbn [cbind] in Havg | discriminate].
  destruct (Nat.ltb_spec 0 (List.length kept)) as [Hlen | Hlen].
  - destruct (reduceC PronoteDataManager.addGrade 0%float kept) as [sum |] eqn:Hsum;
      [cbn [cbind] in Havg | discriminate].
    injection Havg as <- <-.
    apply in_split in Hin as (l1 & l2 & ->).
    pose proof (reduce_nan_grade l1 g l2 _ _ Hg Hsum) as Hnan.
    eexists. split; [reflexivity |].
    assert (Ha : PrimFloat.is_nan (sum / nat_to_float (List.length (l1 ++ g :: l2))) = true)
      by now apply nan_div_l.
    split; [exact Ha |]. unfold toFixed2. now rewrite Ha.
  - injection Havg as <- <-. destruct kept; [contradiction | cbn in Hlen; lia].
Qed.

End NaN.

(** ** The tabs and the session on the page *)

Section Caching.
Context `{Host}.

Lemma loadGrades_received o v list el st h :
  document st !! "grades-list" = Some el -> defaultHeaders st = Normal h ->
  answered o v -> PronoteDataManager.hasData v "grades" = Normal true ->
  GetV v "grades" = Normal list ->
  exists nodes,
    PronoteDataManager.loadGrades o st
    = (repainted "grades-list" nodes
         (with_grades list
            (issued "/api/pronote/grades" (mkOptions (Some "POST") None ∅) h st)),
       Normal tt).
Proof.
  intros Hel Hh Hans Hdata Hlist. apply settled_answered in Hans as [Hset Hun].
  unfold PronoteDataManager.loadGrades, getElementById.
  unfold bind at 1. unfold gets at 1. rewrite Hel.
  unfold bind at 1. unfold PronoteDataManager.showLoading, update at 1, modify at 1.
  unfold try_catch.
  unfold bind at 1. unfold APIClient.getGrades. unfold bind at 1. cbn [or_default truthy ret].
  unfold APIClient.post. rewrite request_eq.
  change (defaultHeaders (with_document _ st)) with (defaultHeaders st).
  rewrite Hh, Hun, Hset.
  unfold bind at 1. unfold lift at 1. rewrite Hdata.
  unfold bind at 1. unfold lift at 1. rewrite Hlist.
  unfold bind at 1. unfold modify at 1.
  set (st3 := with_grades list _).
  assert (Hsome3 : is_Some (document st3 !! "grades-list")).
  { unfold st3. cbn. rewrite lookup_alter_eq, Hel. now eexists. }
  assert (Hst3 : st3 = repainted "grades-list" [NLoading]
                         (with_grades list
                            (issued "/api/pronote/grades" (mkOptions (Some "POST") None ∅) h st)))
    by reflexivity.
  destruct (displayGrades_paints list) as [(e & _ & He) | (nodes & c & Hnodes & Hp)].
  - rewrite (He st3 Hsome3). eexists.
    unfold PronoteDataManager.showError, update, modify.
    change (with_document (alter ?f "grades-list" (document st3)) st3)
      with (repainted "grades-list" [NSpace; NErrorMessage "Erreur lors du chargement des notes"; NSpace] st3).
    now rewrite Hst3, repainted_repainted.
  - rewrite (Hp st3 Hsome3). destruct c as [[] | e].
    + exists nodes. now rewrite Hst3, repainted_repainted.
    + eexists.
      unfold PronoteDataManager.showError, update, modify.
      change (with_document (alter ?f "grades-list" (document ?s)) ?s)
        with (repainted "grades-list" [NSpace; NErrorMessage "Erreur lors du chargement des notes"; NSpace] s).
      now rewrite Hst3, !repainted_repainted.
Qed.

(** X11. [loadTabData] fetches only what is missing. For a
    tab other than the three data tabs, and for a data tab whose list is
    not empty, it does nothing and sends nothing; for a data tab whose
    list is empty it is the loader of this tab. Hence, once [loadGrades]
    has received a non-empty list, going back to the grades tab does not
    fetch again, even if drawing the list failed. *)
Theorem loadTabData_fetches_missing_data displayHomework displayTimetable st o :
  (forall tabName,
     tabName <> JStr "homework" -> tabName <> JStr "timetable" ->
     tabName <> JStr "grades" ->
     App.loadTabData displayHomework displayTimetable tabName o st = (st, Normal tt)) /\
  (forall x l,
     (homework st = JArr (x :: l) ->
      App.loadTabData displayHomework displayTimetable (JStr "homework") o st
        = (st, Normal tt)) /\
     (timetable st = JArr (x :: l) ->
      App.loadTabData displayHomework displayTimetable (JStr "timetable") o st
        = (st, Normal tt)) /\
     (grades st = JArr (x :: l) ->
      App.loadTabData displayHomework displayTimetable (JStr "grades") o st
        = (st, Normal tt))) /\
  ((homework st = JArr [] ->
    App.loadTabData displayHomework displayTimetable (JStr "homework") o st
      = PronoteDataManager.loadHomework displayHomework o st) /\
   (timetable st = JArr [] ->
    App.loadTabData displayHomework displayTimetable (JStr "timetable") o st
      = PronoteDataManager.loadTimetable displayTimetable o st) /\
   (grades st = JArr [] ->
    App.loadTabData displayHomework displayTimetable (JStr "grades") o st
      = PronoteDataManager.loadGrades o st)) /\
  (forall v x l o',
     is_Some (document st !! "grades-list") -> sendable st -> answered o v ->
     (exists success, GetV v "success" = Normal success /\ truthy success = true) ->
     GetV v "grades" = Normal (JArr (x :: l)) ->
     exists st1,
       PronoteDataManager.loadGrades o st = (st1, Normal tt) /\
       grades st1 = JArr (x :: l) /\
       App.loadTabData displayHomework displayTimetable (JStr "grades") o' st1
         = (st1, Normal tt)).
Proof.
  assert (Hcached : forall x l s o0,
            grades s = JArr (x :: l) ->
            App.loadTabData displayHomework displayTimetable (JStr "grades") o0 s
              = (s, Normal tt)).
  { intros x l s o0 Hg. unfold App.loadTabData. cbn [String.eqb Ascii.eqb Bool.eqb].
    unfold bind, gets, lift. now rewrite Hg. }
  split; [| split; [| split]].
  - intros tabName Hh Ht Hg. unfold App.loadTabData.
    destruct tabName as [| | | | s | |]; try reflexivity.
    destruct (String.eqb_spec s "homework") as [-> | _]; [congruence |].
    destruct (String.eqb_spec s "timetable") as [-> | _]; [congruence |].
    destruct (String.eqb_spec s "grades") as [-> | _]; [congruence | reflexivity].
  - intros x l. repeat split.
    + intros Hd. unfold App.loadTabData. cbn [String.eqb Ascii.eqb Bool.eqb].
      unfold bind, gets, lift. now rewrite Hd.
    + intros Hd. unfold App.loadTabData. cbn [String.eqb Ascii.eqb Bool.eqb].
      unfold bind, gets, lift. now rewrite Hd.
    + apply Hcached.
  - repeat split; intros Hd; unfold App.loadTabData; cbn [String.eqb Ascii.eqb Bool.eqb];
      unfold bind at 1; unfold gets at 1; unfold bind at 1; unfold lift at 1;
      now rewrite Hd.
  - intros v x l o' [el Hel] [h Hh] Hans (success & Hs & Hsuccess) Hlist.
    destruct (loadGrades_received o v (JArr (x :: l)) el st h Hel Hh Hans) as [nodes Heq];
      [| exact Hlist |].
    { unfold PronoteDataManager.hasData. rewrite Hs. cbn [cbind].
      rewrite Hsuccess, Hlist. reflexivity. }
    eexists. split; [exact Heq |]. split; [reflexivity |].
    now apply (Hcached x l).
Qed.


Lemma loader_unauthorized id field store display emptyMessage errorMessage call body st :
  is_request call (Response 401 body) ->
  is_Some (document st !! id) -> sendable st ->
  exists st',
    loader id field store display emptyMessage errorMessage call st = (st', Normal tt) /\
    session_lost id errorMessage st st'.
Proof.
  intros Hcall [el Hel] [h Hh].
  unfold loader, PronoteDataManager.showLoading, getElementById, update.
  unfold bind at 1. unfold gets at 1. rewrite Hel.
  unfold bind at 1. unfold modify at 1.
  set (st1 := with_document _ st).
  destruct (Hcall st1) as (endpoint & options & Hreq).
  unfold try_catch, bind at 1. rewrite Hreq, request_eq.
  change (defaultHeaders st1) with (defaultHeaders st). rewrite Hh.
  cbn [unauthorized settled Nat.eqb].
  eexists. split; [reflexivity |].
  unfold session_lost, token_absent, shows. cbn.
  rewrite lookup_delete_eq, !lookup_alter_eq, Hel. repeat split.
  intros j Hj. now rewrite !lookup_alter_ne.
Qed.

(** X12. A session that expires while data loads. When one of
    the three loaders is answered 401, it does not throw; the token is
    removed from the client and from the session storage, the container
    shows the loader's error message, and the profile and the rest of the
    page stay as they were: the dashboard remains on screen, while
    [authManager.isAuthenticated()] now answers [false]. *)
Theorem expired_session_while_loading displayHomework displayTimetable st body :
  sendable st ->
  (is_Some (document st !! "homework-list") ->
   exists st',
     PronoteDataManager.loadHomework displayHomework (Response 401 body) st
       = (st', Normal tt) /\
     session_lost "homework-list" "Erreur lors du chargement des devoirs" st st' /\
     AuthManager.isAuthenticated st' = (st', Normal false)) /\
  (is_Some (document st !! "timetable-list") ->
   exists st',
     PronoteDataManager.loadTimetable displayTimetable (Response 401 body) st
       = (st', Normal tt) /\
     session_lost "timetable-list" "Erreur lors du chargement de l'emploi du temps" st st' /\
     AuthManager.isAuthenticated st' = (st', Normal false)) /\
  (is_Some (document st !! "grades-list") ->
   exists st',
     PronoteDataManager.loadGrades (Response 401 body) st = (st', Normal tt) /\
     session_lost "grades-list" "Erreur lors du chargement des notes" st st' /\
     AuthManager.isAuthenticated st' = (st', Normal false)).
Proof.
  intros Hsend.
  assert (Hout : forall id message st',
            session_lost id message st st' ->
            AuthManager.isAuthenticated st' = (st', Normal false)).
  { intros id message st' [[Htoken _] _].
    unfold AuthManager.isAuthenticated, APIClient.isAuthenticated, bind, gets.
    now rewrite Htoken. }
  rewrite loadHomework_loader, loadTimetable_loader, loadGrades_loader.
  repeat split; intros Hel;
    (edestruct loader_unauthorized as (st' & Heq & Hlost);
     [| exact Hel | exact Hsend | exists st'; split; [exact Heq |];
                                  split; [exact Hlost | exact (Hout _ _ _ Hlost)]]);
    intros s; eexists _, _; reflexivity.
Qed.

End Caching.

Section Restore.
Context `{Host}.

(** X13. A stored session is never restored. Whatever the
    health check answers, success included, [attemptSessionRestore] ends
    without throwing with an empty token store; the profile and the page
    are untouched, and [authManager.isAuthenticated()] answers
    [false]. *)
Theorem stored_session_is_never_restored o st :
  exists st',
    App.attemptSessionRestore o st = (st', Normal tt) /\
    token_absent st' /\
    currentUser st' = currentUser st /\ document st' = document st /\
    AuthManager.isAuthenticated st' = (st', Normal false).
Proof.
  assert (Hout : forall s, token_absent s ->
            AuthManager.isAuthenticated s = (s, Normal false)).
  { intros s [Htoken _].
    unfold AuthManager.isAuthenticated, APIClient.isAuthenticated, bind, gets.
    now rewrite Htoken. }
  assert (Habsent : forall s, token_absent (cleared s))
    by (intros s; split; [reflexivity | apply lookup_delete_eq]).
  unfold App.attemptSessionRestore, try_catch, APIClient.healthCheck, APIClient.get.
  unfold bind at 1. rewrite request_eq.
  destruct (defaultHeaders st) as [h | e].
  - destruct (settled o) as [v | e];
      (eexists; split; [reflexivity |]);
      (split; [apply Habsent |]);
      (split; [now destruct (unauthorized o) |]);
      (split; [now destruct (unauthorized o) | apply Hout, Habsent]).
  - eexists. split; [reflexivity |]. split; [apply Habsent |].
    split; [reflexivity |]. split; [reflexivity | apply Hout, Habsent].
Qed.

Lemma forEach_ents (ents : list (string * string)) st :
  forEach (fun ent =>
             id <~ lift (cbind (GetV ent "id") ToString) ;;
             name <~ lift (cbind (GetV ent "name") DOMString_nullable) ;;
             update "ent-selector" (fun el =>
               with_children (children el ++ [NOption id name]) el))
          (List.map ent_entry ents) st
  = (appended "ent-selector" (List.map ent_option ents) st, Normal tt).
Proof.
  match goal with
  | |- context [forEach ?a _ _] => set (action := a)
  end.
  revert st. induction ents as [| [i n] ents IH]; intros st; cbn [List.map forEach].
  - now rewrite appended_nil.
  - unfold bind at 1.
    assert (Hhead : action (ent_entry (i, n)) st
                    = (appended "ent-selector" [ent_option (i, n)] st, Normal tt))
      by reflexivity.
    rewrite Hhead, IH. now rewrite appended_appended.
Qed.

Lemma loadENTs_document o st :
  snd (AuthManager.loadENTs o st) = Normal tt /\
  ((forall v, ~ answered o v) \/ ~ sendable st ->
   document (fst (AuthManager.loadENTs o st)) = document st) /\
  (forall v ents,
     sendable st -> answered o v ->
     GetV v "ents" = Normal (JArr (List.map ent_entry ents)) ->
     document (fst (AuthManager.loadENTs o st))
       = alter (fun el => with_children (children el ++ List.map ent_option ents) el)
               "ent-selector" (document st)).
Proof.
  unfold AuthManager.loadENTs, try_catch, APIClient.getENTs, APIClient.get.
  split; [| split].
  - match goal with
    | |- context [bind ?m ?k st] => destruct (bind m k st) as [st' [[] | e]]; reflexivity
    end.
  - intros Hfail. unfold bind at 1. rewrite request_eq.
    destruct (defaultHeaders st) as [h | e] eqn:Hh; [| reflexivity].
    destruct (settled o) as [v | e] eqn:Hset.
    + exfalso. destruct Hfail as [Hnone | Hns].
      * apply (Hnone v).
        destruct o as [e | status body]; [discriminate |]. cbn in Hset.
        destruct (Nat.eqb status 401); [discriminate |].
        destruct (negb (ok status)) eqn:Hok;
          [destruct (failure_message status body); discriminate |].
        destruct body; [| discriminate]. injection Hset as ->.
        exists status. split; [reflexivity | now apply negb_false_iff].
      * apply Hns. now exists h.
    + now destruct (unauthorized o).
  - intros v ents [h Hh] Hans Hents. apply settled_answered in Hans as [Hset Hun].
    unfold bind at 1. rewrite request_eq, Hh, Hset, Hun.
    unfold bind at 1. unfold getElementById, gets at 1.
    cbn [document issued with_sent].
    destruct (document st !! "ent-selector") as [sel |] eqn:Hsel.
    + unfold bind at 1. unfold lift at 1. rewrite Hents. cbn [truthy].
      unfold bind at 1. unfold lift at 1. cbn [array_method].
      rewrite forEach_ents. reflexivity.
    + cbn. symmetry. apply alter_id. intros x Hx. congruence.
Qed.

(** X14. [loadENTs] fills the selector. It never throws; when
    the request fails the page is unchanged; and when the backend
    answers a list of [{id, name}] entries, one option per entry is added
    after the options the selector already has, in the order of the list,
    and nothing else on the page changes. *)
Theorem loadENTs_fills_the_selector o st :
  let st' := fst (AuthManager.loadENTs o st) in
  snd (AuthManager.loadENTs o st) = Normal tt /\
  ((forall v, ~ answered o v) \/ ~ sendable st -> document st' = document st) /\
  (forall v ents,
     sendable st -> answered o v ->
     GetV v "ents" = Normal (JArr (List.map ent_entry ents)) ->
     (forall selector,
        document st !! "ent-selector" = Some selector ->
        shows "ent-selector" (children selector ++ List.map ent_option ents) st') /\
     (forall id, id <> "ent-selector" -> document st' !! id = document st !! id)).
Proof.
  cbv zeta. destruct (loadENTs_document o st) as (Hend & Hfail & Hlist).
  split; [exact Hend |]. split; [exact Hfail |].
  intros v ents Hs Hans Hents. unfold shows.
  rewrite (Hlist v ents Hs Hans Hents). split.
  - intros selector Hsel. now rewrite lookup_alter_eq, Hsel.
  - intros id Hid. now apply lookup_alter_ne.
Qed.

End Restore.

(** ** The chat, further *)

Section Preservation.
Variable I : App -> Prop.

Lemma preserves_ret {A} (a : A) : preserves I (ret a).
Proof. intros st Hst. exact Hst. Qed.

Lemma preserves_throw {A} e : preserves I (@throw A e).
Proof. intros st Hst. exact Hst. Qed.

Lemma preserves_lift {A} (c : Completion A) : preserves I (lift c).
Proof. intros st Hst. exact Hst. Qed.

Lemma preserves_gets {A} (f : App -> A) : preserves I (gets f).
Proof. intros st Hst. exact Hst. Qed.

Lemma preserves_modify f : (forall st, I st -> I (f st)) -> preserves I (modify f).
Proof. intros Hf st Hst. now apply Hf. Qed.

Lemma preserves_bind {A B} (m : M A) (k : A -> M B) :
  preserves I m -> (forall a, preserves I (k a)) -> preserves I (bind m k).
Proof.
  intros Hm Hk st Hst. unfold bind. specialize (Hm st Hst).
  destruct (m st) as [st' [a | e]]; [now apply Hk | exact Hm].
Qed.

Lemma preserves_try_catch {A} (body : M A) handler :
  preserves I body -> (forall e, preserves I (handler e)) ->
  preserves I (try_catch body handler).
Proof.
  intros Hb Hh st Hst. unfold try_catch. specialize (Hb st Hst).
  destruct (body st) as [st' [a | e]]; [exact Hb | now apply Hh].
Qed.

Lemma preserves_try_finally {A} (body : M A) final :
  preserves I body -> preserves I final -> preserves I (try_finally body final).
Proof.
  intros Hb Hf st Hst. unfold try_finally. specialize (Hb st Hst).
  destruct (body st) as [st' c]. specialize (Hf st' Hb).
  now destruct (final st') as [st'' [[] | e]].
Qed.

Lemma preserves_forEach {A} (action : A -> M unit) items :
  (forall x, preserves I (action x)) -> preserves I (forEach action items).
Proof.
  intros Ha. induction items as [| x items IH]; cbn [forEach].
  - apply preserves_ret.
  - apply preserves_bind; [apply Ha | intros _; exact IH].
Qed.

End Preservation.

Section History.
Context `{Host}.

Lemma preserves_request I endpoint options o :
  (forall s r, I s -> I (with_sent r s)) ->
  (forall s v, I s -> I (with_accessToken v s)) ->
  (forall s v, I s -> I (with_sessionStorage v s)) ->
  preserves I (APIClient.request endpoint options o).
Proof.
  intros Hsent Htoken Hstorage st Hst. rewrite request_eq.
  destruct (defaultHeaders st); [| exact Hst].
  destruct (unauthorized o); cbn [fst]; [| now apply Hsent].
  apply Htoken, Hstorage, Hsent, Hst.
Qed.

Lemma preserves_update I id f :
  (forall s d, I s -> I (with_document d s)) -> preserves I (update id f).
Proof. intros Hdoc. apply preserves_modify. intros st. apply Hdoc. Qed.

Lemma addMessage_history role content st :
  let st' := fst (ChatManager.addMessage role content st) in
  history_bounded st -> history_bounded st'.
Proof.
  cbv zeta. unfold history_bounded, ChatManager.addMessage, getElementById, update,
    bind, gets, lift, modify, ret.
  destruct (document st !! "chat-messages"); [| auto].
  destruct (DOMString_nullable content); [| auto].
  cbn [messages with_document with_messages fst].
  destruct (Nat.ltb_spec CONFIG.MAX_CHAT_MESSAGES
              (List.length (messages st ++ [(role, content)]))) as [Hlt | Hle];
    cbn [messages with_document with_messages fst]; intros Hst; [| exact Hle].
  rewrite length_skipn. lia.
Qed.

(** What [addMessage] keeps of the history: the last [MAX_CHAT_MESSAGES]
    messages, the new one included. *)
Lemma addMessage_history_eq role content text st :
  is_Some (document st !! "chat-messages") ->
  DOMString_nullable content = Normal text ->
  messages (fst (ChatManager.addMessage role content st))
  = skipn (List.length (messages st) + 1 - CONFIG.MAX_CHAT_MESSAGES)
      (messages st ++ [(role, content)]).
Proof.
  intros [el Hel] Htext.
  unfold ChatManager.addMessage, getElementById, update, bind, gets, lift, modify, ret.
  rewrite Hel, Htext. cbn [messages with_document with_messages fst].
  rewrite length_app. cbn [List.length].
  destruct (Nat.ltb_spec CONFIG.MAX_CHAT_MESSAGES (List.length (messages st) + 1))
    as [Hlt | Hle]; cbn [messages with_document with_messages fst]; [reflexivity |].
  replace (_ + 1 - _)%nat with 0%nat by lia. reflexivity.
Qed.

(** X15. The chat history is bounded. A history of at most
    [MAX_CHAT_MESSAGES] messages stays so through [addMessage],
    [sendMessage] and [addWelcomeMessage], however they end, and
    [clearMessages] empties it. What [addMessage] keeps is the end of the
    history with the new message last: only the oldest messages are
    dropped. *)
Theorem chat_history_is_bounded st o role content :
  history_bounded st ->
  history_bounded (fst (ChatManager.addMessage role content st)) /\
  history_bounded (fst (ChatManager.sendMessage o st)) /\
  history_bounded (fst (ChatManager.addWelcomeMessage st)) /\
  messages (fst (ChatManager.clearMessages st)) = [] /\
  (forall text,
     is_Some (document st !! "chat-messages") ->
     DOMString_nullable content = Normal text ->
     let kept := messages (fst (ChatManager.addMessage role content st)) in
     last kept = Some (role, content) /\
     exists dropped, messages st ++ [(role, content)] = dropped ++ kept).
Proof.
  assert (Hadd : forall r c, preserves history_bounded (ChatManager.addMessage r c))
    by (intros r c s; apply addMessage_history).
  assert (Hdoc : forall s d, history_bounded s -> history_bounded (with_document d s))
    by (intros s d Hs; exact Hs).
  intros Hst. split; [now apply Hadd |]. split; [| split; [| split]].
  - revert st Hst. change (preserves history_bounded (ChatManager.sendMessage o)).
    unfold ChatManager.sendMessage.
    apply preserves_bind; [apply preserves_gets | intros [input |]; [| apply preserves_throw]].
    apply preserves_bind; [apply preserves_gets | intros typing].
    destruct (_ || _); [apply preserves_ret |].
    apply preserves_bind; [apply Hadd | intros _].
    apply preserves_bind; [now apply preserves_update | intros _].
    apply preserves_bind.
    { unfold ChatManager.showTypingIndicator.
      apply preserves_bind; [apply preserves_gets | intros [box |]];
        [now apply preserves_update | apply preserves_ret]. }
    intros _. apply preserves_bind; [apply preserves_modify; now intros s | intros _].
    apply preserves_try_finally.
    + apply preserves_try_catch; [| intros e; apply Hadd].
      apply preserves_bind.
      { unfold ChatManager.buildContext.
        apply preserves_bind; [apply preserves_gets | intros s; apply preserves_lift]. }
      intros context. apply preserves_bind.
      { apply preserves_request; now intros s. }
      intros response. apply preserves_bind; [apply preserves_lift | intros success].
      apply preserves_bind.
      { destruct (truthy success); [apply preserves_lift | apply preserves_ret]. }
      intros reply. destruct (truthy reply); apply Hadd.
    + apply preserves_bind; [| intros _; apply preserves_modify; now intros s].
      unfold ChatManager.hideTypingIndicator. now apply preserves_update.
  - revert st Hst. change (preserves history_bounded ChatManager.addWelcomeMessage).
    unfold ChatManager.addWelcomeMessage.
    apply preserves_bind; [apply preserves_gets | intros user].
    destruct (truthy user); [| apply preserves_ret].
    apply preserves_bind; [apply preserves_lift | intros name; apply Hadd].
  - unfold ChatManager.clearMessages, getElementById, update, bind, gets, modify, ret.
    now destruct (document st !! "chat-messages").
  - intros text Hbox Htext. cbv zeta.
    rewrite (addMessage_history_eq role content text st Hbox Htext).
    split.
    + rewrite drop_app_le by (unfold CONFIG.MAX_CHAT_MESSAGES; lia). apply last_snoc.
    + exists (firstn (List.length (messages st) + 1 - CONFIG.MAX_CHAT_MESSAGES)
                (messages st ++ [(role, content)])).
      symmetry. apply firstn_skipn.
Qed.

End History.

Section Blank.
Context `{Host}.

Lemma skip_space_blank fuel l :
  (List.length l <= fuel)%nat ->
  forallb (fun b => existsb (Nat.eqb b) [9; 10; 11; 12; 13; 32]) l = true ->
  skip_space whiteSpace fuel l = [].
Proof.
  revert l. induction fuel as [| fuel IH]; intros [| b l] Hlen Hl; try reflexivity.
  - cbn in Hlen. lia.
  - cbn [forallb] in Hl. apply andb_true_iff in Hl as [Hb Hl].
    cbn [List.length] in Hlen.
    assert (Hstrip : strip_one whiteSpace (b :: l) = Some l).
    { cbn [existsb] in Hb.
      repeat (apply orb_true_iff in Hb as [Hb | Hb];
              [apply Nat.eqb_eq in Hb; subst b; reflexivity |]).
      discriminate. }
    cbn [skip_space]. rewrite Hstrip. apply IH; [lia | exact Hl].
Qed.

Lemma trim_blank s : is_blank s = true -> trim s = "".
Proof.
  intros Hs. unfold trim, trimStart_bytes.
  rewrite skip_space_blank; [reflexivity | lia |].
  unfold bytes_of, is_blank in *. revert Hs.
  induction (list_ascii_of_string s) as [| c l IH]; [reflexivity |].
  cbn [forallb List.map]. intros Hs. apply andb_true_iff in Hs as [Hc Hs].
  now rewrite Hc, IH.
Qed.

(** X16. A blank message is not sent. When the chat box is empty
    or holds nothing but spaces, tabs and line breaks, [sendMessage] does
    nothing: no message is added, no request is sent, the box keeps its
    content. *)
Theorem blank_message_is_not_sent st o input :
  document st !! "chat-input" = Some input ->
  is_blank (value input) = true ->
  ChatManager.sendMessage o st = (st, Normal tt).
Proof.
  intros Hinput Hblank. unfold ChatManager.sendMessage, getElementById.
  unfold bind at 1. unfold gets at 1. rewrite Hinput.
  unfold bind at 1. unfold gets at 1. now rewrite (trim_blank _ Hblank).
Qed.

End Blank.

Section Pending.
Context `{Host}.

Lemma sendMessage_split o st :
  ChatManager.sendMessage o st
  = (began <~ ChatManager.sendMessage_begin ;;
     if began then ChatManager.sendMessage_resume o else ret tt) st.
Proof.
  unfold ChatManager.sendMessage, ChatManager.sendMessage_begin,
    ChatManager.sendMessage_resume, ChatManager.showTypingIndicator,
    ChatManager.hideTypingIndicator, ChatManager.buildContext,
    APIClient.sendChatMessage, APIClient.sendChatMessage_send, APIClient.post,
    APIClient.post_send, APIClient.request,
    try_finally, try_catch, bind, getElementById, update, gets, modify, ret, throw, lift.
  destruct (document st !! "chat-input") as [input |]; [| reflexivity].
  destruct (_ || _); [reflexivity |].
  destruct (ChatManager.addMessage "user" _ st) as [st1 [[] | e]]; [| reflexivity].
  cbn [document with_document with_isTyping].
  destruct (alter _ "chat-input" (document st1) !! "chat-messages");
    cbn [homework timetable grades currentUser with_document with_isTyping].
  all: destruct (ChatManager.contextFor _ _ _ _ _) as [context | ec].
  all: try (destruct (APIClient.request_send _ _ _) as [st6 [[] | e6]]; [reflexivity |]).
  all: match goal with
       | |- context [ChatManager.addMessage "assistant" ?c ?s] =>
           destruct (ChatManager.addMessage "assistant" c s) as [st7 [[] | e7]]; reflexivity
       end.
Qed.

Lemma addMessage_keeps I role content st :
  chat_invariant I -> I st -> I (fst (ChatManager.addMessage role content st)).
Proof.
  intros [Hupd Hmsg] Hst.
  unfold ChatManager.addMessage, getElementById, update, bind, gets, lift, modify, ret.
  destruct (document st !! "chat-messages"); [| exact Hst].
  destruct (DOMString_nullable content); [| exact Hst].
  cbn [messages with_document with_messages fst].
  destruct (Nat.ltb _ _); cbn [fst].
  - apply Hupd, Hmsg, Hmsg, Hupd, Hst.
  - apply Hmsg, Hupd, Hst.
Qed.

Lemma has_input_chat_invariant :
  chat_invariant (fun s => is_Some (document s !! "chat-input")).
Proof.
  split; [| intros v s Hs; exact Hs].
  intros id f s [el Hel]. cbn. rewrite lookup_alter.
  destruct (decide (id = "chat-input")) as [-> |]; rewrite Hel; eauto.
Qed.

(** X17. The chat takes one question at a time.
    [sendMessage] is its first half, up to the request, followed by its
    second half when a request is under way. Once the first half has
    sent a request, [isTyping] is set and any further [sendMessage] does
    nothing, whatever is typed in the box meanwhile; the second half
    always resets [isTyping], however the response is handled. *)
Theorem chat_takes_one_question_at_a_time st o :
  ChatManager.sendMessage o st
    = (began <~ ChatManager.sendMessage_begin ;;
       if began then ChatManager.sendMessage_resume o else ret tt) st /\
  (forall st1,
     ChatManager.sendMessage_begin st = (st1, Normal true) ->
     isTyping st1 = true /\
     forall o' text,
       let st2 := fst (update "chat-input" (with_value text) st1) in
       ChatManager.sendMessage o' st2 = (st2, Normal tt)) /\
  (forall st1, isTyping (fst (ChatManager.sendMessage_resume o st1)) = false).
Proof.
  split; [apply sendMessage_split |]. split.
  - intros st1 Hbegin.
    assert (Hst1 : isTyping st1 = true /\ is_Some (document st1 !! "chat-input")).
    { revert Hbegin.
      unfold ChatManager.sendMessage_begin, ChatManager.showTypingIndicator,
        ChatManager.hideTypingIndicator, ChatManager.buildContext,
        APIClient.sendChatMessage_send, APIClient.post_send, getElementById.
      unfold bind at 1. unfold gets at 1.
      destruct (document st !! "chat-input") as [input |] eqn:Hinput; [| discriminate].
      unfold bind at 1. unfold gets at 1.
      destruct (_ || _); [discriminate |].
      unfold bind at 1.
      pose proof (addMessage_keeps _ "user" (JStr (trim (value input))) st
                    has_input_chat_invariant (ex_intro _ input Hinput)) as Hkeep.
      destruct (ChatManager.addMessage "user" _ st) as [sa [[] | e]]; [| discriminate].
      cbn [fst] in Hkeep.
      unfold try_finally, try_catch, bind, update, gets, modify, ret, throw, lift.
      cbn [document with_document with_isTyping].
      assert (H1 : is_Some (alter (with_value "") "chat-input" (document sa)
                              !! "chat-input")).
      { destruct Hkeep as [el Hel]. rewrite lookup_alter_eq, Hel. now eexists. }
      assert (H2 : forall c,
                is_Some (alter c "chat-messages"
                           (alter (with_value "") "chat-input" (document sa))
                           !! "chat-input"))
        by (intros c; now rewrite lookup_alter_ne by discriminate).
      destruct (alter _ "chat-input" (document sa) !! "chat-messages");
        cbn [homework timetable grades currentUser with_document with_isTyping].
      all: destruct (ChatManager.contextFor _ _ _ _ _) as [context | ec].
      all: try rewrite request_send_eq.
      all: try match goal with
           | |- context [defaultHeaders ?s] => destruct (defaultHeaders s)
           end.
      all: try match goal with
           | |- context [ChatManager.addMessage "assistant" ?c ?s] =>
               destruct (ChatManager.addMessage "assistant" c s) as [st7 [[] | e7]]
           end.
      all: try discriminate.
      all: intros [= <-]; split; [reflexivity |]; cbn.
      all: first [exact H1 | apply H2]. }
    destruct Hst1 as [Htyping [input1 Hinput1]].
    split; [exact Htyping |].
    intros o' text. cbv zeta.
    unfold ChatManager.sendMessage, getElementById, update, modify.
    cbn [fst]. unfold bind at 1. unfold gets at 1.
    cbn [document with_document]. rewrite lookup_alter_eq, Hinput1. cbn [fmap option_fmap option_map].
    unfold bind at 1. unfold gets at 1. cbn [isTyping with_document].
    rewrite Htyping, orb_true_r. reflexivity.
  - intros st1. unfold ChatManager.sendMessage_resume, try_finally.
    destruct (try_catch _ _ st1) as [st2 c].
    unfold ChatManager.hideTypingIndicator, bind, update, modify. cbn.
    now destruct c.
Qed.

End Pending.

Section Indicator.
Context `{Host}.

Lemma filter_skipn_le {A} (p : A -> bool) n (l : list A) :
  (List.length (List.filter p (skipn n l)) <= List.length (List.filter p l))%nat.
Proof.
  revert n. induction l as [| x l IH]; intros [| n]; cbn; try lia.
  specialize (IH n). destruct (p x); cbn; lia.
Qed.

Lemma remove_indicator_count l :
  List.length (List.filter is_indicator (ChatManager.remove_indicator l))
  = pred (List.length (List.filter is_indicator l)).
Proof.
  induction l as [| x l IH]; [reflexivity |].
  destruct x; cbn; try exact IH. reflexivity.
Qed.

Lemma addMessage_indicators role content st :
  (indicators (fst (ChatManager.addMessage role content st)) <= indicators st)%nat.
Proof.
  unfold ChatManager.addMessage, getElementById, update, bind, gets, lift, modify, ret.
  destruct (document st !! "chat-messages") as [box |] eqn:Hbox; [| cbn; lia].
  destruct (DOMString_nullable content) as [text | e]; [| cbn; lia].
  cbn [messages with_document with_messages].
  assert (Happ : List.length (List.filter is_indicator (children box ++ [NMessage role text]))
                 = List.length (List.filter is_indicator (children box)))
    by (rewrite List.filter_app, length_app; cbn; lia).
  destruct (Nat.ltb _ _); unfold indicators; cbn [fst document with_document with_messages];
    rewrite ?lookup_alter_eq, Hbox; cbn [fmap option_fmap option_map children with_children].
  - etransitivity; [apply filter_skipn_le |]. rewrite Happ. lia.
  - rewrite Happ. lia.
Qed.

(** X18. The typing indicator never stays. If the chat
    container holds no typing indicator before [sendMessage], it holds
    none after, whatever the outcome of the request and even when
    building the context or displaying the answer fails. *)
Theorem typing_indicator_never_stays o st :
  indicators st = 0 -> indicators (fst (ChatManager.sendMessage o st)) = 0.
Proof.
  intros H0.
  assert (Hkeep : forall n r c, preserves (fun s => (indicators s <= n)%nat)
                                  (ChatManager.addMessage r c)).
  { intros n r c s Hs. pose proof (addMessage_indicators r c s). cbn beta. lia. }
  assert (Hrest : forall (m : M unit) s4,
            preserves (fun s => (indicators s <= 1)%nat) m ->
            (indicators s4 <= 1)%nat ->
            indicators
              (fst (try_finally m
                      (_ <~ ChatManager.hideTypingIndicator ;; modify (with_isTyping false))
                      s4)) = 0).
  { intros m s4 Hm H4. specialize (Hm s4 H4). unfold try_finally.
    destruct (m s4) as [s5 c5]. cbn [fst] in Hm.
    unfold ChatManager.hideTypingIndicator, bind, update, modify.
    assert (H6 : indicators
                   (with_isTyping false
                      (with_document
                         (alter (fun el => with_children
                                             (ChatManager.remove_indicator (children el)) el)
                            "chat-messages" (document s5)) s5)) = 0).
    { unfold indicators in *. cbn [document with_document with_isTyping].
      rewrite lookup_alter_eq.
      destruct (document s5 !! "chat-messages") as [box |]; [| reflexivity].
      cbn [fmap option_fmap option_map children with_children].
      rewrite remove_indicator_count. lia. }
    now destruct c5. }
  unfold ChatManager.sendMessage, getElementById.
  unfold bind at 1. unfold gets at 1.
  destruct (document st !! "chat-input") as [input |]; [| exact H0].
  unfold bind at 1. unfold gets at 1.
  destruct (_ || _); [exact H0 |].
  unfold bind at 1.
  pose proof (addMessage_indicators "user" (JStr (trim (value input))) st) as H1.
  destruct (ChatManager.addMessage "user" _ st) as [s1 [[] | e]]; cbn [fst] in H1 |- *;
    [| lia].
  unfold bind at 1. unfold update at 1, modify at 1.
  unfold bind at 1. unfold ChatManager.showTypingIndicator, getElementById.
  unfold bind at 1. unfold gets at 1. cbn [document with_document].
  rewrite lookup_alter_ne by discriminate.
  match goal with
  | |- context [try_finally ?m _] =>
      assert (Hbody : preserves (fun s => (indicators s <= 1)%nat) m)
  end.
  { apply preserves_try_catch; [| intros e; apply Hkeep].
    apply preserves_bind.
    { unfold ChatManager.buildContext.
      apply preserves_bind; [apply preserves_gets | intros s; apply preserves_lift]. }
    intros context. apply preserves_bind.
    { apply preserves_request; now intros s. }
    intros response. apply preserves_bind; [apply preserves_lift | intros success].
    apply preserves_bind.
    { destruct (truthy success); [apply preserves_lift | apply preserves_ret]. }
    intros reply. destruct (truthy reply); apply Hkeep. }
  destruct (document s1 !! "chat-messages") as [box |] eqn:Hbox.
  - unfold update at 1, modify at 1. unfold bind at 1. unfold modify at 1.
    apply Hrest; [exact Hbody |].
    unfold indicators in *. cbn [document with_document with_isTyping].
    rewrite lookup_alter_eq, lookup_alter_ne, Hbox by discriminate.
    rewrite Hbox in H1.
    cbn [fmap option_fmap option_map children with_children].
    rewrite List.filter_app, length_app. cbn. lia.
  - unfold ret at 1. unfold bind at 1. unfold modify at 1.
    apply Hrest; [exact Hbody |].
    unfold indicators in *. cbn [document with_document with_isTyping].
    rewrite lookup_alter_ne, Hbox by discriminate. lia.
Qed.

End Indicator.

Section ChatContext.
Context `{Host}.

Lemma pick_names v names o : pick v names = Normal o -> List.map fst o = List.map fst names.
Proof.
  revert o. induction names as [| [a p] names IH]; intros o; cbn.
  - now intros [= <-].
  - destruct (GetV v p) as [x |]; [cbn | discriminate].
    destruct (pick v names) as [l |]; [cbn | discriminate].
    intros [= <-]. cbn. now rewrite (IH l).
Qed.

Lemma mapC_Forall2 f l l' :
  mapC f l = Normal l' -> Forall2 (fun x y => f x = Normal y) l l'.
Proof.
  revert l'. induction l as [| x l IH]; intros l'; cbn.
  - intros [= <-]. constructor.
  - destruct (f x) as [y |] eqn:Hy; [cbn | discriminate].
    destruct (mapC f l) as [ys |]; [cbn | discriminate].
    intros [= <-]. constructor; [exact Hy | now apply IH].
Qed.

Lemma slice_map_extract what data n names v :
  slice_map what data n
    (fun x => cbind (pick x names) (fun o => Normal (JObj o))) = Normal v ->
  extract_of data n names v.
Proof.
  destruct data as [| | | | | entries |]; try discriminate. cbn [slice_map].
  destruct (mapC _ (firstn n entries)) as [items |] eqn:Hitems; [cbn | discriminate].
  intros [= <-]. exists entries, items. split; [reflexivity |]. split; [reflexivity |].
  apply mapC_Forall2 in Hitems. split.
  - rewrite <- (Forall2_length _ _ _ Hitems), length_firstn. lia.
  - eapply Forall2_impl; [exact Hitems |]. intros entry item. cbn.
    destruct (pick entry names) as [o |] eqn:Ho; [cbn | discriminate].
    intros [= <-]. exists o. split; [reflexivity |]. split; [reflexivity |].
    now apply (pick_names entry).
Qed.

(** X19. What [buildContext] sends. The context always holds
    the profile, and no key other than [student], [homework],
    [timetable], [grades] and [summary]. Each of the three lists is
    present exactly when the message, in lower case, contains one of its
    keywords; it then holds at most 10, 15 and 20 entries, the first of
    the cached list in order, each reduced to the listed fields. The
    summary is present only when no list is, and holds the three
    lengths. *)
Theorem context_holds_bounded_extracts message homework timetable grades student context :
  ChatManager.contextFor message homework timetable grades student = Normal context ->
  exists fields,
    context = JObj fields /\
    assoc "student" fields = Some student /\
    (forall k, is_Some (assoc k fields) ->
       In k ["student"; "homework"; "timetable"; "grades"; "summary"]) /\
    (is_Some (assoc "homework" fields) <->
     includes_any (String_toLowerCase message)
       ["devoir"; "dm"; "exercice"; "travail"; "demain"; "semaine"] = true) /\
    (is_Some (assoc "timetable" fields) <->
     includes_any (String_toLowerCase message)
       ["emploi"; "cours"; "horaire"; "quand"; "prochain"] = true) /\
    (is_Some (assoc "grades" fields) <->
     includes_any (String_toLowerCase message) ["note"; "moyenne"; "résultat"] = true) /\
    (forall v, assoc "homework" fields = Some v ->
       extract_of homework 10
         [("subject", "subject"); ("description", "description");
          ("date", "date"); ("done", "done")] v) /\
    (forall v, assoc "timetable" fields = Some v ->
       extract_of timetable 15
         [("subject", "subject"); ("teacher", "teacher"); ("start", "start");
          ("end", "end"); ("room", "classroom")] v) /\
    (forall v, assoc "grades" fields = Some v ->
       extract_of grades 20
         [("subject", "subject"); ("grade", "grade"); ("out_of", "out_of");
          ("date", "date")] v) /\
    (forall v, assoc "summary" fields = Some v ->
       assoc "homework" fields = None /\ assoc "timetable" fields = None /\
       assoc "grades" fields = None /\
       exists h t g,
         GetV homework "length" = Normal h /\ GetV timetable "length" = Normal t /\
         GetV grades "length" = Normal g /\
         v = JObj [("homework_count", h); ("timetable_count", t); ("grades_count", g)]).
Proof.
  unfold ChatManager.contextFor.
  destruct (includes_any _ ["devoir"; "dm"; "exercice"; "travail"; "demain"; "semaine"]);
    [destruct (slice_map "data.homework" homework 10 _) as [hw |] eqn:Hhw;
       [apply slice_map_extract in Hhw | discriminate] |];
    cbn [cbind app];
    (destruct (includes_any _ ["emploi"; "cours"; "horaire"; "quand"; "prochain"]);
     [destruct (slice_map "data.timetable" timetable 15 _) as [tt |] eqn:Htt;
        [apply slice_map_extract in Htt | discriminate] |]);
    cbn [cbind app];
    (destruct (includes_any _ ["note"; "moyenne"; "résultat"]);
     [destruct (slice_map "data.grades" grades 20 _) as [gr |] eqn:Hgr;
        [apply slice_map_extract in Hgr | discriminate] |]);
    cbn [cbind app assoc String.eqb Ascii.eqb Bool.eqb].
  all: try (destruct (GetV homework "length") as [h |]; [cbn [cbind] | discriminate];
            destruct (GetV timetable "length") as [t |]; [cbn [cbind] | discriminate];
            destruct (GetV grades "length") as [g |]; [cbn [cbind] | discriminate]).
  all: intros [= <-]; eexists; split; [reflexivity |].
  all: split; [reflexivity |].
  all: split;
    [ intros k [v Hk]; cbn in Hk;
      repeat match type of Hk with
             | (if String.eqb k ?n then _ else _) = _ =>
                 destruct (String.eqb_spec k n) as [-> | _]; [cbn; tauto |]
             end; discriminate |].
  all: do 3 (split;
         [cbn [assoc String.eqb Ascii.eqb Bool.eqb app];
          split; [first [now intros _ | now intros [? [=]]]
                 | first [discriminate | intros _; now eexists]] |]).
  all: (split; [| split; [| split]]);
    cbn [assoc String.eqb Ascii.eqb Bool.eqb app]; intros v Hv;
    try discriminate; try (injection Hv as <-; assumption).
  all: injection Hv as <-; repeat (split; [reflexivity |]); exists h, t, g; auto.
Qed.

End ChatContext.

(** ** The login forms, further *)

Section Forms.
Context `{Host}.

Lemma showError_refuses message st :
  exists st', AuthManager.showError message st = (st', Normal tt) /\
              form_refused message st st'.
Proof.
  unfold AuthManager.showError, getElementById, update, bind, gets, modify, ret.
  destruct (document st !! "login-error") as [el |] eqn:Hel.
  - eexists. split; [reflexivity |]. unfold form_refused, login_error_shown. cbn.
    repeat split.
    + intros id Hid. now apply lookup_alter_ne.
    + intros _. rewrite lookup_alter_eq, Hel. cbn. eexists. split; [reflexivity |].
      split; [reflexivity | set_solver].
  - exists st. split; [reflexivity |]. unfold form_refused. repeat split.
    intros [el Hel']. congruence.
Qed.

(** X20. The login forms require every field. When a field
    of the direct form is blank (the URL and the user name after
    trimming), or a field of the CAS form or its ENT, submitting the form
    sends no request and changes nothing in the session or on the page,
    except that the login error shows [Veuillez remplir tous les
    champs]. *)
Theorem login_forms_require_every_field st o :
  (forall url user password account,
     document st !! "pronote-url-direct" = Some url ->
     document st !! "username-direct" = Some user ->
     document st !! "password-direct" = Some password ->
     document st !! "account-type" = Some account ->
     trim (value url) = "" \/ trim (value user) = "" \/ value password = "" ->
     exists st',
       AuthManager.handleDirectLogin o st = (st', Normal tt) /\
       form_refused "Veuillez remplir tous les champs" st st') /\
  (forall url user password ent,
     document st !! "pronote-url-cas" = Some url ->
     document st !! "username-cas" = Some user ->
     document st !! "password-cas" = Some password ->
     document st !! "ent-selector" = Some ent ->
     trim (value url) = "" \/ trim (value user) = "" \/ value password = "" \/
     value ent = "" ->
     exists st',
       AuthManager.handleCASLogin o st = (st', Normal tt) /\
       form_refused "Veuillez remplir tous les champs" st st').
Proof.
  split.
  - intros url user password account Hurl Huser Hpass Haccount Hblank.
    unfold AuthManager.handleDirectLogin.
    unfold bind at 1. rewrite (element_found _ _ _ _ Hurl).
    unfold bind at 1. rewrite (element_found _ _ _ _ Huser).
    unfold bind at 1. rewrite (element_found _ _ _ _ Hpass).
    unfold bind at 1. rewrite (element_found _ _ _ _ Haccount).
    replace (_ || _ || _) with true; [apply showError_refuses |].
    symmetry. destruct Hblank as [-> | [-> | ->]]; cbn; now rewrite ?orb_true_r.
  - intros url user password ent Hurl Huser Hpass Hent Hblank.
    unfold AuthManager.handleCASLogin.
    unfold bind at 1. rewrite (element_found _ _ _ _ Hurl).
    unfold bind at 1. rewrite (element_found _ _ _ _ Huser).
    unfold bind at 1. rewrite (element_found _ _ _ _ Hpass).
    unfold bind at 1. rewrite (element_found _ _ _ _ Hent).
    replace (_ || _ || _ || _) with true; [apply showError_refuses |].
    symmetry. destruct Hblank as [-> | [-> | [-> | ->]]]; cbn; now rewrite ?orb_true_r.
Qed.

End Forms.

Section Failure.
Context `{Host}.

Lemma setLoading_false_over st :
  loading_over (fst (AuthManager.setLoading false "Chargement..." st)).
Proof.
  unfold AuthManager.setLoading, loading_over, bind, getElementById, gets, update,
    modify, ret.
  destruct (document st !! "loading-overlay") as [overlay |] eqn:Hoverlay; cbn.
  - split; [reflexivity |]. intros el. rewrite lookup_alter_eq, Hoverlay. cbn.
    intros [= <-]. cbn. intros Hin. apply elem_of_difference in Hin as [_ Hin].
    apply Hin. now apply elem_of_singleton.
  - split; [reflexivity |]. intros el. congruence.
Qed.

Lemma setLoading_frame isLoading message st :
  let st' := fst (AuthManager.setLoading isLoading message st) in
  snd (AuthManager.setLoading isLoading message st) = Normal tt /\
  accessToken st' = accessToken st /\ sessionStorage st' = sessionStorage st /\
  currentUser st' = currentUser st /\ sent st' = sent st /\
  homework st' = homework st /\ timetable st' = timetable st /\ grades st' = grades st /\
  messages st' = messages st /\ isTyping st' = isTyping st.
Proof.
  unfold AuthManager.setLoading, bind, getElementById, gets, update, modify, ret.
  destruct (document st !! "loading-overlay"), (document st !! "loading-text"),
    isLoading; cbn; auto 12.
Qed.

(** X21. A failed login is reported. When the request of a
    direct login fails, [handleDirectLogin] does not throw; the login
    error shows the message of the failure, or [Erreur de connexion] if
    it has none; the loading state is over; the profile is unchanged, and
    so is the token store unless the response was a 401, which empties
    it. *)
Theorem failed_login_is_reported o e st :
  sendable st -> settled o = Throw e ->
  login_form_filled st -> is_Some (document st !! "login-error") ->
  exists st',
    AuthManager.handleDirectLogin o st = (st', Normal tt) /\
    login_error_shown
      (if String.eqb (errMessage e) "" then "Erreur de connexion" else errMessage e) st' /\
    loading_over st' /\
    currentUser st' = currentUser st /\
    (unauthorized o = false ->
     accessToken st' = accessToken st /\ sessionStorage st' = sessionStorage st) /\
    (unauthorized o = true -> token_absent st').
Proof.
  intros [h Hh] He
    (url & user & password & account & Hurl & Hurl' & Huser & Huser' & Hpass & Hpass'
       & Haccount) [err Herr].
  unfold AuthManager.handleDirectLogin.
  unfold bind at 1. rewrite (element_found _ _ _ _ Hurl).
  unfold bind at 1. rewrite (element_found _ _ _ _ Huser).
  unfold bind at 1. rewrite (element_found _ _ _ _ Hpass).
  unfold bind at 1. rewrite (element_found _ _ _ _ Haccount).
  destruct (String.eqb_spec (trim (value url)) "") as [? | _]; [contradiction |].
  destruct (String.eqb_spec (trim (value user)) "") as [? | _]; [contradiction |].
  destruct (String.eqb_spec (value password) "") as [? | _]; [contradiction |].
  cbn [orb].
  unfold bind at 1.
  pose proof (setLoading_frame true "Connexion en cours..." st) as Hframe1.
  pose proof (setLoading_other true "Connexion en cours..." st "login-error"
                ltac:(discriminate) ltac:(discriminate)) as Herr1.
  destruct (AuthManager.setLoading true "Connexion en cours..." st) as [st1 c1].
  cbn [fst snd] in Hframe1, Herr1.
  destruct Hframe1 as (-> & Ha1 & Hs1 & Hu1 & _).
  rewrite Herr in Herr1.
  unfold try_finally, try_catch.
  unfold APIClient.loginDirect, APIClient.post. unfold bind at 1. unfold bind at 1.
  rewrite request_eq.
  assert (Hh1 : defaultHeaders st1 = Normal h)
    by (unfold defaultHeaders in *; now rewrite Ha1).
  rewrite Hh1, He.
  set (st2 := if unauthorized o then _ else _).
  assert (Hst2 : document st2 = document st1 /\ currentUser st2 = currentUser st1 /\
                 (unauthorized o = false ->
                  accessToken st2 = accessToken st1 /\
                  sessionStorage st2 = sessionStorage st1) /\
                 (unauthorized o = true -> token_absent st2)).
  { unfold st2. destruct (unauthorized o); cbn; repeat split; try discriminate.
    apply lookup_delete_eq. }
  clearbody st2. destruct Hst2 as (Hd2 & Hu2 & Hkeep2 & Hlost2).
  unfold AuthManager.showError, bind, getElementById, gets, update, modify.
  rewrite Hd2, Herr1.
  set (st3 := with_document _ st2).
  pose proof (setLoading_frame false "Chargement..." st3) as Hframe4.
  pose proof (setLoading_other false "Chargement..." st3 "login-error"
                ltac:(discriminate) ltac:(discriminate)) as Herr4.
  pose proof (setLoading_false_over st3) as Hover.
  destruct (AuthManager.setLoading false "Chargement..." st3) as [st4 c4].
  cbn [fst snd] in Hframe4, Herr4, Hover.
  destruct Hframe4 as (-> & Ha4 & Hs4 & Hu4 & _).
  exists st4. split; [reflexivity |]. split; [| split; [exact Hover | split; [| split]]].
  - unfold login_error_shown. rewrite Herr4.
    unfold st3. cbn. rewrite Hd2, lookup_alter_eq, Herr1. cbn.
    eexists. split; [reflexivity |]. split; [reflexivity |].
    apply elem_of_union_l. now apply elem_of_singleton.
  - rewrite Hu4. unfold st3. cbn. congruence.
  - intros Hun. destruct (Hkeep2 Hun) as [Hka Hks].
    rewrite Ha4, Hs4. unfold st3. cbn. split; congruence.
  - intros Hun. destruct (Hlost2 Hun) as [Hla Hls].
    unfold token_absent. rewrite Ha4, Hs4. unfold st3. cbn. now split.
Qed.

End Failure.

(** Normal form of a state written with the setters. *)
Ltac flat :=
  cbn [with_document with_sent with_messages with_currentUser with_accessToken
       with_sessionStorage with_isTyping with_submitDisabled with_homework
       with_timetable with_grades repainted issued logged
       document accessToken currentUser homework timetable grades messages isTyping
       sessionStorage submitDisabled sent clock].

Ltac flat_in H :=
  cbn [with_document with_sent with_messages with_currentUser with_accessToken
       with_sessionStorage with_isTyping with_submitDisabled with_homework
       with_timetable with_grades repainted issued logged
       document accessToken currentUser homework timetable grades messages isTyping
       sessionStorage submitDisabled sent clock] in H.

Ltac lookup_with H :=
  flat; rewrite ?lookup_alter_ne by discriminate; exact H.

Section Accepted.
Context `{Host}.

Lemma loginDirect_accepted_eq pronoteUrl username password accountType o v st h token t :
  defaultHeaders st = Normal h -> answered o v ->
  (exists success, GetV v "success" = Normal success /\ truthy success = true) ->
  GetV v "access_token" = Normal token -> truthy token = true ->
  ToString token = Normal t ->
  APIClient.loginDirect pronoteUrl username password accountType o st
  = (logged token t
       (issued "/api/auth/login/direct"
          (mkOptions (Some "POST")
             (Some (JObj [ ("pronote_url", pronoteUrl); ("username", username);
                           ("password", password);
                           ("account_type", or_default accountType (JNum 3)) ])) ∅)
          h st),
     Normal v).
Proof.
  intros Hh Hans (success & Hs & Hsuccess) Ht Htoken Hstring.
  apply settled_answered in Hans as [Hset Hun].
  unfold APIClient.loginDirect, APIClient.post. unfold bind at 1.
  rewrite request_eq, Hh, Hun, Hset.
  unfold bind at 1. unfold lift at 1. rewrite Hs, Hsuccess.
  unfold bind at 1. unfold bind at 1. unfold lift at 1. rewrite Ht, Htoken.
  unfold APIClient.saveToken, bind, lift, modify, ret. rewrite Hstring.
  reflexivity.
Qed.

Lemma loadHomework_begin_eq st h el :
  document st !! "homework-list" = Some el -> defaultHeaders st = Normal h ->
  exists body,
    PronoteDataManager.loadHomework_begin st
    = (issued "/api/pronote/homework" (mkOptions (Some "POST") (Some body) ∅) h
         (repainted "homework-list" [NLoading] st), Normal true).
Proof.
  intros Hel Hh. unfold PronoteDataManager.loadHomework_begin, getElementById.
  unfold bind at 1. unfold gets at 1. rewrite Hel.
  unfold bind at 1. unfold PronoteDataManager.showLoading, update, modify.
  unfold try_catch, bind, gets, APIClient.getHomework_send, APIClient.post_send.
  rewrite request_send_eq.
  change (defaultHeaders (with_document _ st)) with (defaultHeaders st). rewrite Hh.
  eexists. reflexivity.
Qed.

Lemma loadTimetable_begin_eq st h el :
  document st !! "timetable-list" = Some el -> defaultHeaders st = Normal h ->
  exists body,
    PronoteDataManager.loadTimetable_begin st
    = (issued "/api/pronote/timetable" (mkOptions (Some "POST") (Some body) ∅) h
         (repainted "timetable-list" [NLoading] st), Normal true).
Proof.
  intros Hel Hh. unfold PronoteDataManager.loadTimetable_begin, getElementById.
  unfold bind at 1. unfold gets at 1. rewrite Hel.
  unfold bind at 1. unfold PronoteDataManager.showLoading, update, modify.
  unfold try_catch, bind, gets, APIClient.getTimetable_send, APIClient.post_send.
  rewrite request_send_eq.
  change (defaultHeaders (with_document _ st)) with (defaultHeaders st). rewrite Hh.
  eexists. reflexivity.
Qed.

Lemma loadGrades_begin_eq st h el :
  document st !! "grades-list" = Some el -> defaultHeaders st = Normal h ->
  PronoteDataManager.loadGrades_begin st
  = (issued "/api/pronote/grades" (mkOptions (Some "POST") None ∅) h
       (repainted "grades-list" [NLoading] st), Normal true).
Proof.
  intros Hel Hh. unfold PronoteDataManager.loadGrades_begin, getElementById.
  unfold bind at 1. unfold gets at 1. rewrite Hel.
  unfold bind at 1. unfold PronoteDataManager.showLoading, update, modify.
  unfold try_catch, APIClient.getGrades_send, APIClient.post_send.
  cbn [or_default truthy]. unfold bind, ret. rewrite request_send_eq.
  change (defaultHeaders (with_document _ st)) with (defaultHeaders st). now rewrite Hh.
Qed.

(** [addMessage] with a text, on a page that has the chat container: it
    writes to that container and to the history, and the message is the
    last one shown. *)
Lemma addMessage_present role text st :
  is_Some (document st !! "chat-messages") ->
  exists g msgs,
    ChatManager.addMessage role (JStr text) st
    = (with_messages msgs (with_document (alter g "chat-messages" (document st)) st),
       Normal tt) /\
    last_message (with_messages msgs
                    (with_document (alter g "chat-messages" (document st)) st))
    = Some (NMessage role text).
Proof.
  intros Hbox.
  destruct (addMessage_spec role (JStr text) st Hbox) as (st' & Heq & Hlast & _).
  destruct Hbox as [box Hbox]. rewrite Heq. revert Heq.
  unfold ChatManager.addMessage, getElementById, update, bind, gets, lift, modify, ret.
  rewrite Hbox. cbn [DOMString_nullable ToString messages with_document with_messages].
  destruct (Nat.ltb _ _); intros [= <-].
  - match type of Hlast with
    | last_message ?s = _ =>
        assert (Hshape : exists g msgs,
                  s = with_messages msgs
                        (with_document (alter g "chat-messages" (document st)) st))
    end.
    { eexists _, _. unfold with_messages, with_document. cbn.
      rewrite alter_alter_eq. reflexivity. }
    destruct Hshape as (g & msgs & Hshape). exists g, msgs.
    split; [now rewrite Hshape | now rewrite <- Hshape].
  - eexists _, _. split; [reflexivity | exact Hlast].
Qed.

Lemma bearer_headers st token t :
  accessToken st = token -> truthy token = true -> ToString token = Normal t ->
  defaultHeaders st
  = Normal (<["Authorization" := ("Bearer " ++ t)%string]>
              ({[ "Content-Type" := "application/json" ]} : gmap string string)).
Proof. intros Ha Htoken Ht. unfold defaultHeaders. now rewrite Ha, Htoken, Ht. Qed.

Lemma onLoginSuccess_spec s token t student name class class_text
    e_name e_class e_login e_dash e_hw e_tt e_gr e_chat :
  accessToken s = token -> truthy token = true -> ToString token = Normal t ->
  currentUser s = student -> truthy student = true ->
  GetV student "student_name" = Normal (JStr name) ->
  GetV student "class_name" = Normal class ->
  DOMString_nullable (if truthy class then class else JStr "Classe non disponible")
    = Normal class_text ->
  document s !! "student-name" = Some e_name ->
  document s !! "student-class" = Some e_class ->
  document s !! "login-screen" = Some e_login ->
  document s !! "dashboard-screen" = Some e_dash ->
  document s !! "homework-list" = Some e_hw ->
  document s !! "timetable-list" = Some e_tt ->
  document s !! "grades-list" = Some e_gr ->
  document s !! "chat-messages" = Some e_chat ->
  exists st',
    AuthManager.onLoginSuccess s = (st', Normal tt) /\
    (accessToken st' = accessToken s /\ sessionStorage st' = sessionStorage s /\
     currentUser st' = currentUser s) /\
    (document st' !! "student-name" = Some (with_textContent name e_name) /\
     document st' !! "student-class" = Some (with_textContent class_text e_class) /\
     document st' !! "dashboard-screen"
       = Some (with_classList ({["active"]} ∪ classList e_dash) e_dash) /\
     document st' !! "login-screen"
       = Some (with_classList (classList e_login ∖ {["active"]}) e_login)) /\
    (shows "homework-list" [NLoading] st' /\ shows "timetable-list" [NLoading] st' /\
     shows "grades-list" [NLoading] st') /\
    last_message st' = Some (NMessage "assistant" (welcome name)) /\
    exists homework timetable grades,
      sent st' = sent s ++
        [ ("http://localhost:8000/api/pronote/homework", homework);
          ("http://localhost:8000/api/pronote/timetable", timetable);
          ("http://localhost:8000/api/pronote/grades", grades) ] /\
      bearer t homework /\ bearer t timetable /\ bearer t grades.
Proof.
  intros Ha Htoken Ht Hu Htruthy Hname Hclass Hctext
    He_name He_class He_login He_dash He_hw He_tt He_gr He_chat.
  unfold AuthManager.onLoginSuccess.
  unfold bind at 1. unfold gets at 1. rewrite Hu.
  unfold bind at 1. unfold lift at 1. rewrite Hname.
  unfold bind at 1. rewrite (element_found _ _ _ _ He_name).
  unfold bind at 1. unfold lift at 1. cbn [DOMString_nullable ToString].
  unfold bind at 1. unfold update at 1, modify at 1. flat.
  unfold bind at 1. unfold lift at 1. rewrite Hclass.
  unfold bind at 1. erewrite element_found by lookup_with He_class.
  unfold bind at 1. unfold lift at 1. rewrite Hctext.
  unfold bind at 1. unfold update at 1, modify at 1. flat.
  unfold bind at 1. erewrite element_found by lookup_with He_login.
  unfold bind at 1. unfold update at 1, modify at 1. flat.
  unfold bind at 1. erewrite element_found by lookup_with He_dash.
  unfold bind at 1. unfold update at 1, modify at 1. flat.
  (* the three loads begin *)
  unfold bind at 1. unfold PronoteDataManager.loadAllData_begin.
  unfold bind at 1.
  match goal with
  | |- context [PronoteDataManager.loadHomework_begin ?S] =>
      destruct (loadHomework_begin_eq S _ e_hw ltac:(lookup_with He_hw)
                  (bearer_headers S token t ltac:(exact Ha) Htoken Ht))
        as [body_hw ->]
  end.
  flat. unfold bind at 1.
  match goal with
  | |- context [PronoteDataManager.loadTimetable_begin ?S] =>
      destruct (loadTimetable_begin_eq S _ e_tt ltac:(lookup_with He_tt)
                  (bearer_headers S token t ltac:(exact Ha) Htoken Ht))
        as [body_tt ->]
  end.
  flat. unfold bind at 1.
  match goal with
  | |- context [PronoteDataManager.loadGrades_begin ?S] =>
      rewrite (loadGrades_begin_eq S _ e_gr ltac:(lookup_with He_gr)
                 (bearer_headers S token t ltac:(exact Ha) Htoken Ht))
  end.
  flat. unfold ret at 1.
  (* the greeting *)
  unfold ChatManager.addWelcomeMessage.
  unfold bind at 1. unfold gets at 1. flat. rewrite Hu, Htruthy.
  unfold bind at 1. unfold lift at 1. rewrite Hname. cbn [cbind ToString].
  match goal with
  | |- context [ChatManager.addMessage "assistant" (JStr ?text) ?S] =>
      destruct (addMessage_present "assistant" text S) as (g & msgs & -> & Hlast)
  end.
  { flat. rewrite ?lookup_alter_ne by discriminate. rewrite He_chat. now eexists. }
  eexists. split; [reflexivity |].
  split; [flat; auto |].
  split.
  { flat. repeat split.
    - rewrite ?lookup_alter_ne by discriminate. now rewrite lookup_alter_eq, He_name.
    - rewrite ?lookup_alter_ne by discriminate. rewrite lookup_alter_eq.
      rewrite ?lookup_alter_ne by discriminate. now rewrite He_class.
    - rewrite ?lookup_alter_ne by discriminate. rewrite lookup_alter_eq.
      rewrite ?lookup_alter_ne by discriminate. now rewrite He_dash.
    - rewrite ?lookup_alter_ne by discriminate. rewrite lookup_alter_eq.
      rewrite ?lookup_alter_ne by discriminate. now rewrite He_login. }
  split.
  { unfold shows. flat. repeat split.
    - rewrite ?lookup_alter_ne by discriminate. rewrite lookup_alter_eq.
      rewrite ?lookup_alter_ne by discriminate. now rewrite He_hw.
    - rewrite ?lookup_alter_ne by discriminate. rewrite lookup_alter_eq.
      rewrite ?lookup_alter_ne by discriminate. now rewrite He_tt.
    - rewrite ?lookup_alter_ne by discriminate. rewrite lookup_alter_eq.
      rewrite ?lookup_alter_ne by discriminate. now rewrite He_gr. }
  split; [exact Hlast |].
  flat. eexists _, _, _. split; [rewrite <- !app_assoc; reflexivity |].
  unfold bearer. cbn [headers].
  repeat split; rewrite lookup_union_r by apply lookup_empty; apply lookup_insert_eq.
Qed.

(** X22. An accepted login opens the dashboard. When the
    backend accepts a direct login with a token and a profile, the token
    is stored, the profile is the current user and
    [authManager.isAuthenticated()] answers [true]; the loading state is
    over; the header shows the name and the class of the student (or
    [Classe non disponible]); the dashboard replaces the login screen;
    the three lists show their loading indicator, their requests having
    been sent in the order homework, timetable, grades with the bearer
    token; and the chat ends with the welcome message. *)
Theorem accepted_login_opens_the_dashboard st o v token t student name class class_text :
  sendable st -> answered o v ->
  (exists success, GetV v "success" = Normal success /\ truthy success = true) ->
  GetV v "access_token" = Normal token -> truthy token = true ->
  ToString token = Normal t ->
  GetV v "student" = Normal student ->
  GetV student "student_name" = Normal (JStr name) ->
  GetV student "class_name" = Normal class ->
  DOMString_nullable (if truthy class then class else JStr "Classe non disponible")
    = Normal class_text ->
  login_form_filled st -> page_has dashboard_elements st ->
  exists st',
    AuthManager.handleDirectLogin o st = (st', Normal tt) /\
    (accessToken st' = token /\ sessionStorage st' !! "access_token" = Some t /\
     currentUser st' = student /\
     AuthManager.isAuthenticated st' = (st', Normal true)) /\
    loading_over st' /\
    ((exists el, document st' !! "student-name" = Some el /\ textContent el = name) /\
     (exists el, document st' !! "student-class" = Some el /\ textContent el = class_text) /\
     (exists el, document st' !! "dashboard-screen" = Some el /\ "active" ∈ classList el) /\
     (exists el, document st' !! "login-screen" = Some el /\ "active" ∉ classList el)) /\
    (shows "homework-list" [NLoading] st' /\ shows "timetable-list" [NLoading] st' /\
     shows "grades-list" [NLoading] st') /\
    last_message st' = Some (NMessage "assistant" (welcome name)) /\
    exists login homework timetable grades,
      sent st' = sent st ++
        [ ("http://localhost:8000/api/auth/login/direct", login);
          ("http://localhost:8000/api/pronote/homework", homework);
          ("http://localhost:8000/api/pronote/timetable", timetable);
          ("http://localhost:8000/api/pronote/grades", grades) ] /\
      bearer t homework /\ bearer t timetable /\ bearer t grades.
Proof.
  intros [h Hh] Hans Hsuccess Htok Htoken Ht Hstudent Hname Hclass Hctext
    (url & user & password & account & Hurl & Hurl' & Huser & Huser' & Hpass & Hpass'
       & Haccount) Hpage.
  assert (Htruthy : truthy student = true /\ student <> JNull)
    by (destruct student; try discriminate; split; [reflexivity | discriminate]).
  destruct Htruthy as [Htruthy Hnotnull].
  assert (Hel : forall id, In id dashboard_elements -> exists el, document st !! id = Some el)
    by (intros id Hid; apply (Hpage id Hid)).
  destruct (Hel "student-name") as [e_name He_name]; [cbn; tauto |].
  destruct (Hel "student-class") as [e_class He_class]; [cbn; tauto |].
  destruct (Hel "login-screen") as [e_login He_login]; [cbn; tauto |].
  destruct (Hel "dashboard-screen") as [e_dash He_dash]; [cbn; tauto |].
  destruct (Hel "homework-list") as [e_hw He_hw]; [cbn; tauto |].
  destruct (Hel "timetable-list") as [e_tt He_tt]; [cbn; tauto |].
  destruct (Hel "grades-list") as [e_gr He_gr]; [cbn; tauto |].
  destruct (Hel "chat-messages") as [e_chat He_chat]; [cbn; tauto |].
  clear Hel Hpage.
  unfold AuthManager.handleDirectLogin.
  unfold bind at 1. rewrite (element_found _ _ _ _ Hurl).
  unfold bind at 1. rewrite (element_found _ _ _ _ Huser).
  unfold bind at 1. rewrite (element_found _ _ _ _ Hpass).
  unfold bind at 1. rewrite (element_found _ _ _ _ Haccount).
  destruct (String.eqb_spec (trim (value url)) "") as [? | _]; [contradiction |].
  destruct (String.eqb_spec (trim (value user)) "") as [? | _]; [contradiction |].
  destruct (String.eqb_spec (value password) "") as [? | _]; [contradiction |].
  cbn [orb].
  (* the overlay is shown *)
  unfold bind at 1.
  pose proof (setLoading_frame true "Connexion en cours..." st) as Hframe1.
  pose proof (fun id H1 H2 => setLoading_other true "Connexion en cours..." st id H1 H2)
    as Hother1.
  destruct (AuthManager.setLoading true "Connexion en cours..." st) as [st1 c1].
  cbn [fst snd] in Hframe1, Hother1.
  destruct Hframe1 as (-> & Ha1 & Hs1 & Hu1 & Hsent1 & _).
  rewrite <- (Hother1 "student-name") in He_name by discriminate.
  rewrite <- (Hother1 "student-class") in He_class by discriminate.
  rewrite <- (Hother1 "login-screen") in He_login by discriminate.
  rewrite <- (Hother1 "dashboard-screen") in He_dash by discriminate.
  rewrite <- (Hother1 "homework-list") in He_hw by discriminate.
  rewrite <- (Hother1 "timetable-list") in He_tt by discriminate.
  rewrite <- (Hother1 "grades-list") in He_gr by discriminate.
  rewrite <- (Hother1 "chat-messages") in He_chat by discriminate.
  clear Hother1.
  assert (Hh1 : defaultHeaders st1 = Normal h)
    by (unfold defaultHeaders in *; now rewrite Ha1).
  (* the login *)
  unfold try_finally, try_catch.
  unfold bind at 1.
  rewrite (loginDirect_accepted_eq _ _ _ _ o v st1 h token t Hh1 Hans Hsuccess Htok Htoken Ht).
  destruct Hsuccess as (success & Hs & Hsuccess).
  unfold bind at 1. unfold lift at 1. rewrite Hs, Hsuccess.
  unfold bind at 1. unfold lift at 1. rewrite Hstudent.
  unfold bind at 1. unfold modify at 1.
  match goal with
  | |- context [AuthManager.onLoginSuccess ?S] =>
      destruct (onLoginSuccess_spec S token t student name class class_text
                  e_name e_class e_login e_dash e_hw e_tt e_gr e_chat)
        as (st3 & -> & (Ha3 & Hs3 & Hu3) & (Hn3 & Hc3 & Hd3 & Hl3) & (Hhw3 & Htt3 & Hgr3)
              & Hlast3 & (rhw & rtt & rgr & Hsent3 & Hbearer));
        try assumption; try reflexivity
  end.
  (* the overlay is hidden *)
  pose proof (setLoading_frame false "Chargement..." st3) as Hframe4.
  pose proof (fun id H1 H2 => setLoading_other false "Chargement..." st3 id H1 H2)
    as Hother4.
  pose proof (setLoading_false_over st3) as Hover.
  destruct (AuthManager.setLoading false "Chargement..." st3) as [st4 c4].
  cbn [fst snd] in Hframe4, Hother4, Hover.
  destruct Hframe4 as (-> & Ha4 & Hs4 & Hu4 & Hsent4 & _).
  exists st4. split; [reflexivity |].
  flat_in Ha3. flat_in Hs3. flat_in Hu3. flat_in Hsent3.
  split.
  { rewrite Ha4, Hs4, Hu4, Ha3, Hs3, Hu3. repeat split.
    - apply lookup_insert_eq.
    - unfold AuthManager.isAuthenticated, APIClient.isAuthenticated, bind, gets, ret.
      rewrite Ha4, Ha3, Htoken, Hu4, Hu3. now destruct student. }
  split; [exact Hover |].
  split.
  { repeat split.
    - eexists. rewrite Hother4 by discriminate. split; [exact Hn3 | reflexivity].
    - eexists. rewrite Hother4 by discriminate. split; [exact Hc3 | reflexivity].
    - eexists. rewrite Hother4 by discriminate. split; [exact Hd3 |].
      cbn. apply elem_of_union_l. now apply elem_of_singleton.
    - eexists. rewrite Hother4 by discriminate. split; [exact Hl3 |].
      cbn. intros Hin. apply elem_of_difference in Hin as [_ Hin].
      apply Hin. now apply elem_of_singleton. }
  split.
  { unfold shows in *. rewrite !Hother4 by discriminate. auto. }
  split.
  { unfold last_message in *. now rewrite Hother4 by discriminate. }
  eexists _, rhw, rtt, rgr. split; [| exact Hbearer].
  rewrite Hsent4, Hsent3, Hsent1, <- app_assoc. reflexivity.
Qed.

End Accepted.

Section Half.
Context `{Host}.

(** X23. A login accepted without a profile is left half
    done. When the backend answers a success with a token but with no
    [student] (or a [null] one), the token is stored all the same, while
    the login screen stays with an error and the rest of the page is
    untouched; [authManager.isAuthenticated()] then answers [true] when
    [student] was missing and [false] when it was [null]. *)
Theorem login_without_profile_is_half_done st o v token t student :
  sendable st -> answered o v ->
  (exists success, GetV v "success" = Normal success /\ truthy success = true) ->
  GetV v "access_token" = Normal token -> truthy token = true ->
  ToString token = Normal t ->
  GetV v "student" = Normal student -> student = JUndefined \/ student = JNull ->
  login_form_filled st -> is_Some (document st !! "login-error") ->
  exists st' message,
    AuthManager.handleDirectLogin o st = (st', Normal tt) /\
    login_error_shown message st' /\ loading_over st' /\
    accessToken st' = token /\ sessionStorage st' !! "access_token" = Some t /\
    currentUser st' = student /\
    (forall id, id <> "login-error" -> id <> "loading-overlay" -> id <> "loading-text" ->
       document st' !! id = document st !! id) /\
    (student = JUndefined -> AuthManager.isAuthenticated st' = (st', Normal true)) /\
    (student = JNull -> AuthManager.isAuthenticated st' = (st', Normal false)).
Proof.
  intros [h Hh] Hans Hsuccess Htok Htoken Ht Hstudent Hnone
    (url & user & password & account & Hurl & Hurl' & Huser & Huser' & Hpass & Hpass'
       & Haccount) [err Herr].
  unfold AuthManager.handleDirectLogin.
  unfold bind at 1. rewrite (element_found _ _ _ _ Hurl).
  unfold bind at 1. rewrite (element_found _ _ _ _ Huser).
  unfold bind at 1. rewrite (element_found _ _ _ _ Hpass).
  unfold bind at 1. rewrite (element_found _ _ _ _ Haccount).
  destruct (String.eqb_spec (trim (value url)) "") as [? | _]; [contradiction |].
  destruct (String.eqb_spec (trim (value user)) "") as [? | _]; [contradiction |].
  destruct (String.eqb_spec (value password) "") as [? | _]; [contradiction |].
  cbn [orb].
  unfold bind at 1.
  pose proof (setLoading_frame true "Connexion en cours..." st) as Hframe1.
  pose proof (fun id H1 H2 => setLoading_other true "Connexion en cours..." st id H1 H2)
    as Hother1.
  destruct (AuthManager.setLoading true "Connexion en cours..." st) as [st1 c1].
  cbn [fst snd] in Hframe1, Hother1.
  destruct Hframe1 as (-> & Ha1 & Hs1 & Hu1 & _).
  assert (Herr1 : document st1 !! "login-error" = Some err)
    by (rewrite Hother1 by discriminate; exact Herr).
  assert (Hh1 : defaultHeaders st1 = Normal h)
    by (unfold defaultHeaders in *; now rewrite Ha1).
  unfold try_finally, try_catch.
  unfold bind at 1.
  rewrite (loginDirect_accepted_eq _ _ _ _ o v st1 h token t Hh1 Hans Hsuccess Htok Htoken Ht).
  destruct Hsuccess as (success & Hs & Hsuccess).
  unfold bind at 1. unfold lift at 1. rewrite Hs, Hsuccess.
  unfold bind at 1. unfold lift at 1. rewrite Hstudent.
  unfold bind at 1. unfold modify at 1.
  unfold AuthManager.onLoginSuccess.
  unfold bind at 1. unfold gets at 1.
  cbn [currentUser with_currentUser].
  unfold bind at 1. unfold lift at 1.
  assert (Hthrow : exists e, GetV student "student_name" = Throw e)
    by (destruct Hnone as [-> | ->]; eexists; reflexivity).
  destruct Hthrow as [e ->].
  unfold AuthManager.showError, bind, getElementById, gets, update, modify.
  cbn [document with_document with_currentUser logged issued with_accessToken
         with_sessionStorage with_sent].
  rewrite Herr1.
  match goal with
  | |- context [AuthManager.setLoading false "Chargement..." ?S] => set (st3 := S)
  end.
  pose proof (setLoading_frame false "Chargement..." st3) as Hframe4.
  pose proof (fun id H1 H2 => setLoading_other false "Chargement..." st3 id H1 H2)
    as Hother4.
  pose proof (setLoading_false_over st3) as Hover.
  destruct (AuthManager.setLoading false "Chargement..." st3) as [st4 c4].
  cbn [fst snd] in Hframe4, Hother4, Hover.
  destruct Hframe4 as (-> & Ha4 & Hs4 & Hu4 & _).
  exists st4. eexists. split; [reflexivity |].
  split.
  { unfold login_error_shown. rewrite Hother4 by discriminate. unfold st3. cbn.
    rewrite lookup_alter_eq, Herr1. cbn.
    eexists. split; [reflexivity |]. split; [reflexivity |].
    apply elem_of_union_l. now apply elem_of_singleton. }
  split; [exact Hover |].
  assert (Ha : accessToken st4 = token) by (rewrite Ha4; reflexivity).
  assert (Hu : currentUser st4 = student) by (rewrite Hu4; reflexivity).
  split; [exact Ha |].
  split; [rewrite Hs4; unfold st3; cbn; apply lookup_insert_eq |].
  split; [exact Hu |].
  split.
  { intros id Hid Hoverlay Htext. rewrite Hother4 by assumption. unfold st3. cbn.
    rewrite lookup_alter_ne by congruence. now apply Hother1. }
  unfold AuthManager.isAuthenticated, APIClient.isAuthenticated, bind, gets, ret.
  rewrite Ha, Htoken, Hu. split; intros ->; reflexivity.
Qed.

End Half.

Section CAS.
Context `{Host}.

(** X24. A CAS login that fails is reported. With the CAS
    form filled in, an answer without [success] shows [Échec de
    l'authentification CAS], and a failed request shows the message of
    the failure (or [Erreur d'authentification CAS]); in both cases
    [handleCASLogin] does not throw, the loading state is over and the
    profile is unchanged; the token store is unchanged too, unless the
    response was a 401, which empties it. *)
Theorem cas_login_reports_what_went_wrong o st :
  sendable st -> cas_form_filled st -> is_Some (document st !! "login-error") ->
  (forall v,
     answered o v -> falsy_property v "success" ->
     exists st',
       AuthManager.handleCASLogin o st = (st', Normal tt) /\
       login_error_shown "Échec de l'authentification CAS" st' /\
       loading_over st' /\ currentUser st' = currentUser st /\
       accessToken st' = accessToken st /\ sessionStorage st' = sessionStorage st) /\
  (forall e,
     settled o = Throw e ->
     exists st',
       AuthManager.handleCASLogin o st = (st', Normal tt) /\
       login_error_shown
         (if String.eqb (errMessage e) "" then "Erreur d'authentification CAS"
          else errMessage e) st' /\
       loading_over st' /\ currentUser st' = currentUser st /\
       (unauthorized o = false ->
        accessToken st' = accessToken st /\ sessionStorage st' = sessionStorage st) /\
       (unauthorized o = true -> token_absent st')).
Proof.
  intros [h Hh]
    (url & user & password & ent & Hurl & Hurl' & Huser & Huser' & Hpass & Hpass'
       & Hent & Hent') [err Herr].
  (* what the two cases share: the form is read, the overlay shown *)
  assert (Hstart : exists st1,
            document st1 !! "login-error" = Some err /\
            accessToken st1 = accessToken st /\ sessionStorage st1 = sessionStorage st /\
            currentUser st1 = currentUser st /\
            AuthManager.handleCASLogin o st
            = try_finally
                (try_catch
                   (response <~ APIClient.loginCAS (JStr (trim (value url)))
                                  (JStr (trim (value user))) (JStr (value password))
                                  (JStr (value ent)) o ;;
                    success <~ lift (GetV response "success") ;;
                    if truthy success then
                      student <~ lift (GetV response "student") ;;
                      _ <~ modify (with_currentUser student) ;;
                      AuthManager.onLoginSuccess
                    else AuthManager.showError "Échec de l'authentification CAS")
                   (fun error =>
                      AuthManager.showError
                        (if String.eqb (errMessage error) ""
                         then "Erreur d'authentification CAS"
                         else errMessage error)))
                (AuthManager.setLoading false "Chargement...") st1).
  { unfold AuthManager.handleCASLogin.
    unfold bind at 1. rewrite (element_found _ _ _ _ Hurl).
    unfold bind at 1. rewrite (element_found _ _ _ _ Huser).
    unfold bind at 1. rewrite (element_found _ _ _ _ Hpass).
    unfold bind at 1. rewrite (element_found _ _ _ _ Hent).
    destruct (String.eqb_spec (trim (value url)) "") as [? | _]; [contradiction |].
    destruct (String.eqb_spec (trim (value user)) "") as [? | _]; [contradiction |].
    destruct (String.eqb_spec (value password) "") as [? | _]; [contradiction |].
    destruct (String.eqb_spec (value ent) "") as [? | _]; [contradiction |].
    cbn [orb]. unfold bind at 1.
    pose proof (setLoading_frame true "Authentification CAS en cours..." st) as Hframe1.
    pose proof (setLoading_other true "Authentification CAS en cours..." st "login-error"
                  ltac:(discriminate) ltac:(discriminate)) as Herr1.
    destruct (AuthManager.setLoading true _ st) as [st1 c1].
    cbn [fst snd] in Hframe1, Herr1.
    destruct Hframe1 as (-> & Ha1 & Hs1 & Hu1 & _).
    exists st1. rewrite Herr1. auto. }
  destruct Hstart as (st1 & Herr1 & Ha1 & Hs1 & Hu1 & ->).
  assert (Hh1 : defaultHeaders st1 = Normal h)
    by (unfold defaultHeaders in *; now rewrite Ha1).
  (* what the two cases share: the error is shown, the overlay hidden *)
  assert (Hend : forall message st2,
            document st2 = document st1 ->
            exists st3 st',
              AuthManager.showError message st2 = (st3, Normal tt) /\
              AuthManager.setLoading false "Chargement..." st3 = (st', Normal tt) /\
              login_error_shown message st' /\ loading_over st' /\
              currentUser st' = currentUser st2 /\
              accessToken st' = accessToken st2 /\
              sessionStorage st' = sessionStorage st2).
  { intros message st2 Hd2.
    set (st3 := with_document
                  (alter (fun el => with_classList ({["show"]} ∪ classList el)
                                      (with_textContent message el))
                     "login-error" (document st2)) st2).
    assert (Hshow : AuthManager.showError message st2 = (st3, Normal tt)).
    { unfold AuthManager.showError, bind, getElementById, gets, update, modify.
      now rewrite Hd2, Herr1. }
    pose proof (setLoading_frame false "Chargement..." st3) as Hframe4.
    pose proof (setLoading_other false "Chargement..." st3 "login-error"
                  ltac:(discriminate) ltac:(discriminate)) as Herr4.
    pose proof (setLoading_false_over st3) as Hover.
    destruct (AuthManager.setLoading false "Chargement..." st3) as [st4 c4] eqn:Hload.
    cbn [fst snd] in Hframe4, Herr4, Hover.
    destruct Hframe4 as (-> & Ha4 & Hs4 & Hu4 & _).
    exists st3, st4. split; [exact Hshow |]. split; [exact Hload |]. split; [| auto].
    unfold login_error_shown. rewrite Herr4. unfold st3. cbn.
    rewrite lookup_alter_eq, Hd2, Herr1. cbn.
    eexists. split; [reflexivity |]. split; [reflexivity |].
    apply elem_of_union_l. now apply elem_of_singleton. }
  split.
  - intros v Hans (success & Hs & Hfalsy).
    destruct (loginCAS_rejected (JStr (trim (value url))) (JStr (trim (value user)))
                (JStr (value password)) (JStr (value ent)) o v st1 h Hh1 Hans)
      as (st2 & Hlogin & Ha2 & Hs2 & Hu2 & Hd2).
    { exists success. split; [exact Hs | now left]. }
    unfold try_finally, try_catch. unfold bind at 1. rewrite Hlogin.
    unfold bind at 1. unfold lift at 1. rewrite Hs, Hfalsy.
    destruct (Hend "Échec de l'authentification CAS" st2 Hd2)
      as (st3 & st' & Hshow & Hload & Hshown & Hover & Hu & Ha & Hst).
    rewrite Hshow, Hload.
    exists st'. split; [reflexivity |]. split; [exact Hshown |]. split; [exact Hover |].
    repeat split; congruence.
  - intros e He.
    unfold try_finally, try_catch, APIClient.loginCAS, APIClient.post.
    unfold bind at 1. unfold bind at 1. rewrite request_eq, Hh1, He.
    set (st2 := if unauthorized o then _ else _).
    assert (Hst2 : document st2 = document st1 /\ currentUser st2 = currentUser st1 /\
                   (unauthorized o = false ->
                    accessToken st2 = accessToken st1 /\
                    sessionStorage st2 = sessionStorage st1) /\
                   (unauthorized o = true -> token_absent st2)).
    { unfold st2. destruct (unauthorized o); cbn; repeat split; try discriminate.
      apply lookup_delete_eq. }
    clearbody st2. destruct Hst2 as (Hd2 & Hu2 & Hkeep2 & Hlost2).
    destruct (Hend (if String.eqb (errMessage e) "" then "Erreur d'authentification CAS"
                    else errMessage e) st2 Hd2)
      as (st3 & st' & Hshow & Hload & Hshown & Hover & Hu & Ha & Hst).
    rewrite Hshow, Hload.
    exists st'. split; [reflexivity |]. split; [exact Hshown |]. split; [exact Hover |].
    split; [congruence |]. split.
    + intros Hun. destruct (Hkeep2 Hun). split; congruence.
    + intros Hun. destruct (Hlost2 Hun) as [Hla Hls]. split; congruence.
Qed.

End CAS.

(** ** Logging out, on the page *)

Section Forget.
Context `{Host}.

Lemma same_values_refl d : same_values d d.
Proof. intros id el Hel. now exists el. Qed.

Lemma same_values_trans d1 d2 d3 :
  same_values d1 d2 -> same_values d2 d3 -> same_values d1 d3.
Proof.
  intros H12 H23 id el3 Hel3.
  destruct (H23 id el3 Hel3) as (el2 & Hel2 & Hv & Hd & Hf).
  destruct (H12 id el2 Hel2) as (el1 & Hel1 & Hv' & Hd' & Hf').
  exists el1. repeat split; congruence.
Qed.

Lemma same_values_alter f id d : keeps_value f -> same_values d (alter f id d).
Proof.
  intros Hf k el'. rewrite lookup_alter.
  destruct (decide (id = k)) as [-> |]; [| intros Hel; now exists el'].
  destruct (d !! k) as [el |]; [| discriminate]. cbn. intros [= <-].
  exists el. split; [reflexivity | apply Hf].
Qed.

Lemma form_is_reset_same id d d' :
  same_values d d' -> form_is_reset id d -> form_is_reset id d'.
Proof.
  intros Hsame Hreset k el' Hel' Hform.
  destruct (Hsame k el' Hel') as (el & Hel & Hv & Hd & Hf).
  rewrite Hv, Hd. apply (Hreset k el Hel). congruence.
Qed.

Lemma repainted_absent id nodes st :
  document st !! id = None -> repainted id nodes st = st.
Proof.
  intros Hid. unfold repainted.
  replace (alter _ id (document st)) with (document st); [now destruct st |].
  symmetry. apply alter_id. intros x Hx. congruence.
Qed.

Lemma clearMessages_eq st :
  ChatManager.clearMessages st
  = (with_messages [] (repainted "chat-messages" [NSpace; NGreeting; NSpace] st), Normal tt).
Proof.
  unfold ChatManager.clearMessages, getElementById, update, bind, gets, modify, ret.
  destruct (document st !! "chat-messages") eqn:Hbox; [reflexivity |].
  now rewrite (repainted_absent _ _ st Hbox).
Qed.

Lemma showEmpty_if_present id message st :
  (container <~ getElementById id ;;
   match container with
   | Some _ => PronoteDataManager.showEmpty id message
   | None => ret tt
   end) st
  = (repainted id (empty_state message) st, Normal tt).
Proof.
  unfold getElementById, PronoteDataManager.showEmpty, update, bind, gets, modify, ret.
  destruct (document st !! id) eqn:Hid; [reflexivity |].
  now rewrite (repainted_absent _ _ st Hid).
Qed.

Lemma clearAllData_eq st :
  PronoteDataManager.clearAllData st
  = (repainted "grades-list" (empty_state connect_message)
       (repainted "timetable-list" (empty_state connect_message)
          (repainted "homework-list" (empty_state connect_message)
             (with_homework (JArr []) (with_timetable (JArr []) (with_grades (JArr []) st))))),
     Normal tt).
Proof.
  unfold PronoteDataManager.clearAllData. unfold bind at 1. unfold modify at 1.
  cbn [forEach]. unfold bind at 1. rewrite showEmpty_if_present.
  unfold bind at 1. rewrite showEmpty_if_present.
  unfold bind at 1. rewrite showEmpty_if_present. reflexivity.
Qed.

Lemma reset_eq id st el :
  document st !! id = Some el ->
  reset id st
  = (with_document
       ((fun el => if decide (form el = Some id) then with_value (defaultValue el) el else el)
          <$> document st) st, Normal tt).
Proof.
  intros Hel. unfold reset. unfold bind at 1. now rewrite (element_found _ _ _ _ Hel).
Qed.

Lemma setLoading_values isLoading message st :
  same_values (document st) (document (fst (AuthManager.setLoading isLoading message st))).
Proof.
  unfold AuthManager.setLoading, bind, getElementById, gets, update, modify, ret.
  destruct (document st !! "loading-overlay"), (document st !! "loading-text"),
    isLoading; cbn [fst document with_document with_submitDisabled];
    repeat (eapply same_values_trans; [| apply same_values_alter; now intros []]);
    apply same_values_refl.
Qed.

Lemma reset_form_is_reset id (d : gmap string Element) :
  form_is_reset id
    ((fun el => if decide (form el = Some id) then with_value (defaultValue el) el else el)
       <$> d).
Proof.
  intros k el'. rewrite lookup_fmap.
  destruct (d !! k) as [el |]; [| discriminate]. cbn. intros [= <-].
  destruct (decide (form el = Some id)); [reflexivity | contradiction].
Qed.

Lemma reset_keeps_reset id id' (d : gmap string Element) :
  form_is_reset id d ->
  form_is_reset id
    ((fun el => if decide (form el = Some id') then with_value (defaultValue el) el else el)
       <$> d).
Proof.
  intros Hreset k el'. rewrite lookup_fmap.
  destruct (d !! k) as [el |] eqn:Hel; [| discriminate]. cbn. intros [= <-].
  destruct (decide (form el = Some id')); [reflexivity | now apply (Hreset k)].
Qed.

Lemma reset_classList id (el : Element) :
  classList (if decide (form el = Some id) then with_value (defaultValue el) el else el)
  = classList el.
Proof. now destruct (decide _). Qed.

Lemma reset_children id (el : Element) :
  children (if decide (form el = Some id) then with_value (defaultValue el) el else el)
  = children el.
Proof. now destruct (decide _). Qed.

(** X25. Logging out forgets the session on the page.
    Whatever the outcome of the logout request, [handleLogout] does not
    throw and leaves no cached data and no chat history; the three lists
    show [Connectez-vous pour voir vos données] and the chat its static
    greeting; both login forms are back to their default values; the
    login screen replaces the dashboard and the loading state is
    over. *)
Theorem logout_forgets_the_session st o :
  page_has logout_elements st ->
  exists st',
    AuthManager.handleLogout o st = (st', Normal tt) /\
    (homework st' = JArr [] /\ timetable st' = JArr [] /\ grades st' = JArr [] /\
     messages st' = []) /\
    (forall id, In id ["homework-list"; "timetable-list"; "grades-list"] ->
       is_Some (document st !! id) -> shows id (empty_state connect_message) st') /\
    (is_Some (document st !! "chat-messages") ->
     shows "chat-messages" [NSpace; NGreeting; NSpace] st') /\
    (form_is_reset "login-form-direct" (document st') /\
     form_is_reset "login-form-cas" (document st')) /\
    ((exists el, document st' !! "login-screen" = Some el /\ "active" ∈ classList el) /\
     (exists el, document st' !! "dashboard-screen" = Some el /\
                 "active" ∉ classList el)) /\
    loading_over st'.
Proof.
  intros Hpage.
  destruct (Hpage "dashboard-screen") as [e_dash He_dash]; [cbn; tauto |].
  destruct (Hpage "login-screen") as [e_login He_login]; [cbn; tauto |].
  destruct (Hpage "login-form-direct") as [e_direct He_direct]; [cbn; tauto |].
  destruct (Hpage "login-form-cas") as [e_cas He_cas]; [cbn; tauto |].
  unfold AuthManager.handleLogout, try_finally, try_catch.
  (* the try block *)
  unfold bind at 1.
  pose proof (setLoading_frame true "Déconnexion..." st) as Hframe1.
  pose proof (fun id H1 H2 => setLoading_other true "Déconnexion..." st id H1 H2) as Hother1.
  destruct (AuthManager.setLoading true "Déconnexion..." st) as [st1 c1].
  cbn [fst snd] in Hframe1, Hother1. destruct Hframe1 as (-> & _).
  pose proof (logout_clears o st1) as [_ Hdoc2].
  destruct (APIClient.logout o st1) as [st2 c2]. cbn [fst] in Hdoc2.
  assert (Hlook : forall id, id <> "loading-overlay" -> id <> "loading-text" ->
            document st2 !! id = document st !! id)
    by (intros id H1 H2; rewrite Hdoc2; now apply Hother1).
  clear Hother1 Hdoc2.
  assert (Hfinal : forall c : Completion unit,
            exists st',
              (let (st', c') := (_ <~ AuthManager.onLogoutSuccess ;;
                                 AuthManager.setLoading false "Chargement...") st2 in
               match c' with
               | Normal _ => (st', c)
               | Throw e => (st', Throw e)
               end) = (st', c) /\
              (homework st' = JArr [] /\ timetable st' = JArr [] /\ grades st' = JArr [] /\
               messages st' = []) /\
              (forall id, In id ["homework-list"; "timetable-list"; "grades-list"] ->
                 is_Some (document st !! id) ->
                 shows id (empty_state connect_message) st') /\
              (is_Some (document st !! "chat-messages") ->
               shows "chat-messages" [NSpace; NGreeting; NSpace] st') /\
              (form_is_reset "login-form-direct" (document st') /\
               form_is_reset "login-form-cas" (document st')) /\
              ((exists el, document st' !! "login-screen" = Some el /\
                           "active" ∈ classList el) /\
               (exists el, document st' !! "dashboard-screen" = Some el /\
                           "active" ∉ classList el)) /\
              loading_over st').
  { intros c.
    unfold bind at 1. unfold AuthManager.onLogoutSuccess.
    unfold bind at 1. unfold modify at 1.
    unfold bind at 1.
    erewrite element_found by (flat; rewrite Hlook by discriminate; exact He_dash).
    unfold bind at 1. unfold update at 1, modify at 1. flat.
    unfold bind at 1.
    erewrite element_found
      by (flat; rewrite lookup_alter_ne by discriminate; rewrite Hlook by discriminate;
          exact He_login).
    unfold bind at 1. unfold update at 1, modify at 1. flat.
    unfold bind at 1.
    erewrite reset_eq
      by (flat; rewrite !lookup_alter_ne by discriminate; rewrite Hlook by discriminate;
          exact He_direct).
    flat. unfold bind at 1.
    erewrite reset_eq
      by (flat; rewrite lookup_fmap, !lookup_alter_ne by discriminate;
          rewrite Hlook by discriminate; rewrite He_cas; reflexivity).
    flat. unfold bind at 1. rewrite clearMessages_eq. flat.
    rewrite clearAllData_eq. flat.
    match goal with
    | |- context [AuthManager.setLoading false "Chargement..." ?S] => set (s3 := S)
    end.
    pose proof (setLoading_frame false "Chargement..." s3) as Hframe4.
    pose proof (fun id H1 H2 => setLoading_other false "Chargement..." s3 id H1 H2)
      as Hother4.
    pose proof (setLoading_values false "Chargement..." s3) as Hvalues4.
    pose proof (setLoading_false_over s3) as Hover.
    destruct (AuthManager.setLoading false "Chargement..." s3) as [st4 c4].
    cbn [fst snd] in Hframe4, Hother4, Hvalues4, Hover.
    destruct Hframe4 as (-> & _ & _ & _ & _ & Hhw4 & Htt4 & Hgr4 & Hmsg4 & _).
    exists st4. split; [reflexivity |].
    split; [rewrite Hhw4, Htt4, Hgr4, Hmsg4; unfold s3; flat; auto |].
    split.
    { intros id Hid [el Hel]. unfold shows.
      cbn in Hid.
      destruct Hid as [<- | [<- | [<- | []]]];
        rewrite Hother4 by discriminate; unfold s3; flat;
        rewrite ?lookup_alter_ne by discriminate; rewrite lookup_alter_eq;
        rewrite ?lookup_alter_ne by discriminate; rewrite !lookup_fmap;
        rewrite ?lookup_alter_ne by discriminate; rewrite Hlook by discriminate;
        now rewrite Hel. }
    split.
    { intros [el Hel]. unfold shows. rewrite Hother4 by discriminate. unfold s3. flat.
      rewrite ?lookup_alter_ne by discriminate. rewrite lookup_alter_eq.
      rewrite !lookup_fmap. rewrite ?lookup_alter_ne by discriminate.
      rewrite Hlook by discriminate. now rewrite Hel. }
    split.
    { assert (Hsame : forall id,
                form_is_reset id
                  ((fun el => if decide (form el = Some "login-form-cas")
                              then with_value (defaultValue el) el else el)
                     <$> ((fun el => if decide (form el = Some "login-form-direct")
                                     then with_value (defaultValue el) el else el)
                            <$> alter (fun el => with_classList ({["active"]} ∪ classList el) el)
                                  "login-screen"
                                  (alter (fun el => with_classList
                                                      (classList el ∖ {["active"]}) el)
                                     "dashboard-screen" (document st2)))) ->
                form_is_reset id (document st4)).
      { intros id. apply form_is_reset_same.
        eapply same_values_trans; [| exact Hvalues4].
        unfold s3. flat.
        repeat (eapply same_values_trans; [| apply same_values_alter; now intros []]).
        apply same_values_refl. }
      split; apply Hsame.
      - apply reset_keeps_reset, reset_form_is_reset.
      - apply reset_form_is_reset. }
    split; [| exact Hover].
    split.
    - rewrite Hother4 by discriminate. unfold s3. flat.
      rewrite ?lookup_alter_ne by discriminate. rewrite !lookup_fmap.
      rewrite lookup_alter_eq. rewrite ?lookup_alter_ne by discriminate.
      rewrite Hlook by discriminate. rewrite He_login. cbn [fmap option_fmap option_map].
      eexists. split; [reflexivity |]. rewrite !reset_classList. cbn.
      apply elem_of_union_l. now apply elem_of_singleton.
    - rewrite Hother4 by discriminate. unfold s3. flat.
      rewrite ?lookup_alter_ne by discriminate. rewrite !lookup_fmap.
      rewrite ?lookup_alter_ne by discriminate. rewrite lookup_alter_eq.
      rewrite Hlook by discriminate. rewrite He_dash. cbn [fmap option_fmap option_map].
      eexists. split; [reflexivity |]. rewrite !reset_classList. cbn.
      intros Hin. apply elem_of_difference in Hin as [_ Hin].
      apply Hin. now apply elem_of_singleton. }
  destruct c2 as [[] | e2]; cbn [ret]; apply (Hfinal (Normal tt)).
Qed.

End Forget.

(** ** Instances

    The further properties at the example states. *)

Lemma failed_request_carries_the_server_message_witness :
  snd (@APIClient.request example_host "/api/auth/login/direct"
         (mkOptions (Some "POST") None ∅)
         (Response 403 (Json (JObj [("detail", JStr "Identifiants invalides")])))
         fresh_app)
  = Throw (mkError "Error" "Identifiants invalides") /\
  snd (@APIClient.request example_host "/api/auth/login/direct"
         (mkOptions (Some "POST") None ∅)
         (Response 422 (Json validation_error))
         fresh_app)
  = Throw (mkError "Error" "[object Object]") /\
  snd (@APIClient.request example_host "/api/auth/login/direct"
         (mkOptions (Some "POST") None ∅)
         (Response 502 (NotJson (mkError "SyntaxError" "Unexpected token <")))
         fresh_app)
  = Throw (mkError "Error" "Erreur HTTP 502").
Proof.
  split; [| split].
  - destruct (@failed_request_carries_the_server_message example_host fresh_app
                "/api/auth/login/direct" (mkOptions (Some "POST") None ∅) 403)
      as (_ & _ & _ & _ & Hdetail & _); [eexists; reflexivity | reflexivity | reflexivity |].
    apply (Hdetail [("detail", JStr "Identifiants invalides")]); [reflexivity | discriminate].
  - destruct (@failed_request_carries_the_server_message example_host fresh_app
                "/api/auth/login/direct" (mkOptions (Some "POST") None ∅) 422)
      as (_ & _ & _ & _ & _ & Hlist & _); [eexists; reflexivity | reflexivity | reflexivity |].
    apply (Hlist _ [("loc", JArr [JStr "body"; JStr "username"]);
                    ("msg", JStr "field required");
                    ("type", JStr "value_error.missing")]); reflexivity.
  - destruct (@failed_request_carries_the_server_message example_host fresh_app
                "/api/auth/login/direct" (mkOptions (Some "POST") None ∅) 502)
      as (Hgeneric & _); [eexists; reflexivity | reflexivity | reflexivity |].
    apply Hgeneric.
Defined.

Lemma unreadable_grade_spoils_average_witness :
  exists a,
    @PronoteDataManager.gradesAverage example_host [math_grade; absent_grade]
      = Normal ([math_grade; absent_grade], Some a) /\
    PrimFloat.is_nan a = true /\ @toFixed2 example_host a = "NaN".
Proof.
  destruct (@unreadable_grade_spoils_average example_host [math_grade; absent_grade]
              [math_grade; absent_grade] (Some nan) absent_grade)
    as (a & Ha & Hnan & Htext).
  - vm_compute. reflexivity.
  - right. now left.
  - left. exists (JStr "Abs"), nan. repeat split.
  - exists a. split; [| now split]. rewrite <- Ha. vm_compute. reflexivity.
Defined.

Lemma request_returns_iff_witness :
  snd (@APIClient.request example_host "/api/health" (mkOptions (Some "GET") None ∅)
         (Response 200 (Json (JObj [("status", JStr "ok")]))) logged_in_app)
  = Normal (JObj [("status", JStr "ok")]).
Proof.
  destruct (@request_returns_iff example_host logged_in_app "/api/health"
              (mkOptions (Some "GET") None ∅)
              (Response 200 (Json (JObj [("status", JStr "ok")])))
              (JObj [("status", JStr "ok")])) as [_ Hback].
  - eexists. reflexivity.
  - apply Hback. exists 200%nat. split; reflexivity.
Defined.

Lemma loginCAS_outcomes_witness :
  (exists st',
     @APIClient.loginCAS example_host (JStr "https://demo.index-education.net/pronote/")
       (JStr "alice") (JStr "secret") (JStr "ac_rennes")
       (Response 200 (Json login_accepted)) fresh_app
       = (st', Normal login_accepted) /\
     accessToken st' = JStr "abc123" /\
     sessionStorage st' !! "access_token" = Some "abc123") /\
  (exists st',
     @APIClient.loginCAS example_host (JStr "https://demo.index-education.net/pronote/")
       (JStr "alice") (JStr "secret") (JStr "ac_rennes")
       (Response 200 (Json login_unsaved)) fresh_app
       = (st', Throw TypeError_to_primitive) /\
     accessToken st' = JNull /\ sessionStorage st' = ∅).
Proof.
  split.
  - destruct (@loginCAS_outcomes example_host fresh_app
                (JStr "https://demo.index-education.net/pronote/") (JStr "alice")
                (JStr "secret") (JStr "ac_rennes") (Response 200 (Json login_accepted)))
      as [Haccepted _].
    + eexists. reflexivity.
    + apply Haccepted; try reflexivity.
      * exists 200%nat. split; reflexivity.
      * exists (JBool true). split; reflexivity.
  - destruct (@loginCAS_outcomes example_host fresh_app
                (JStr "https://demo.index-education.net/pronote/") (JStr "alice")
                (JStr "secret") (JStr "ac_rennes") (Response 200 (Json login_unsaved)))
      as (_ & Hunsaved & _).
    + eexists. reflexivity.
    + apply (Hunsaved login_unsaved (JObj [("toString", JNum 1)])); try reflexivity.
      * exists 200%nat. split; reflexivity.
      * exists (JBool true). split; reflexivity.
Defined.

Lemma bearer_follows_the_session_witness :
  let st1 := fst (@APIClient.loginDirect example_host
                    (JStr "https://demo.index-education.net/pronote/") (JStr "alice")
                    (JStr "secret") (JNum 3) (Response 200 (Json login_accepted))
                    fresh_app) in
  exists config,
    sent (fst (@APIClient.request example_host "/api/pronote/grades"
                 (mkOptions (Some "POST") None ∅)
                 (NetworkFailure (mkError "TypeError" "Failed to fetch")) st1))
      = sent st1 ++ [("http://localhost:8000/api/pronote/grades", config)] /\
    authorization (headers config)
      = {[ "Authorization" := "Bearer abc123" ]}.
Proof.
  cbv zeta.
  destruct (@bearer_follows_the_session example_host fresh_app "/api/pronote/grades"
              (mkOptions (Some "POST") None ∅)
              (NetworkFailure (mkError "TypeError" "Failed to fetch")))
    as [Hlogin _].
  - intros k [x Hx]. simpl in Hx. rewrite lookup_empty in Hx. discriminate.
  - apply (Hlogin (JStr "https://demo.index-education.net/pronote/") (JStr "alice")
                  (JStr "secret") (JNum 3) (JStr "ac_rennes")
                  (Response 200 (Json login_accepted)) login_accepted
                  (JStr "abc123") "abc123"); try reflexivity.
    + eexists. reflexivity.
    + exists 200%nat. split; reflexivity.
    + exists (JBool true). split; reflexivity.
    + now left.
Defined.

Lemma expired_session_while_loading_witness :
  exists st',
    @PronoteDataManager.loadGrades example_host (Response 401 (Json (JObj []))) logged_in_app
      = (st', Normal tt) /\
    session_lost "grades-list" "Erreur lors du chargement des notes" logged_in_app st' /\
    AuthManager.isAuthenticated st' = (st', Normal false).
Proof.
  destruct (@expired_session_while_loading example_host (fun _ => ret tt) (fun _ => ret tt)
              logged_in_app (Json (JObj []))) as (_ & _ & Hgrades).
  - eexists. reflexivity.
  - apply Hgrades. vm_compute. eauto.
Defined.

Lemma chat_history_is_bounded_witness :
  history_bounded
    (fst (@ChatManager.sendMessage example_host
            (Response 200 (Json (JObj [("success", JBool true);
                                       ("response", JStr "Tu as deux devoirs.")])))
            logged_in_app)).
Proof.
  destruct (@chat_history_is_bounded example_host logged_in_app
              (Response 200 (Json (JObj [("success", JBool true);
                                         ("response", JStr "Tu as deux devoirs.")])))
              "user" (JStr "Bonjour")) as (_ & Hsend & _).
  - unfold history_bounded. simpl. lia.
  - exact Hsend.
Defined.

Lemma blank_message_is_not_sent_witness :
  @ChatManager.sendMessage example_host
    (Response 200 (Json (JObj [("success", JBool true)]))) idle_app
  = (idle_app, Normal tt).
Proof.
  apply (@blank_message_is_not_sent example_host idle_app _ (with_value "  " blank));
    reflexivity.
Defined.

Lemma typing_indicator_never_stays_witness :
  indicators
    (fst (@ChatManager.sendMessage example_host
            (NetworkFailure (mkError "TypeError" "Failed to fetch")) logged_in_app)) = 0%nat.
Proof.
  apply (@typing_indicator_never_stays example_host). reflexivity.
Defined.

Lemma context_holds_bounded_extracts_witness :
  exists context fields,
    @ChatManager.contextFor example_host "Quels sont mes devoirs ?" example_homework
      (JArr []) (JArr []) (JObj [("student_name", JStr "Alice")]) = Normal context /\
    context = JObj fields /\
    assoc "student" fields = Some (JObj [("student_name", JStr "Alice")]) /\
    is_Some (assoc "homework" fields) /\
    (forall v, assoc "homework" fields = Some v ->
       extract_of example_homework 10
         [("subject", "subject"); ("description", "description");
          ("date", "date"); ("done", "done")] v).
Proof.
  destruct (@ChatManager.contextFor example_host "Quels sont mes devoirs ?" example_homework
              (JArr []) (JArr []) (JObj [("student_name", JStr "Alice")]))
    as [context | e] eqn:Hcontext; [| vm_compute in Hcontext; discriminate].
  destruct (@context_holds_bounded_extracts example_host _ _ _ _ _ _ Hcontext)
    as (fields & Hfields & Hstudent & _ & Hhomework & _ & _ & Hextract & _).
  exists context, fields. repeat split; try assumption.
  apply Hhomework. reflexivity.
Defined.

Lemma failed_login_is_reported_witness :
  exists st',
    @AuthManager.handleDirectLogin example_host
      (Response 403 (Json (JObj [("detail", JStr "Identifiants invalides")]))) fresh_app
      = (st', Normal tt) /\
    login_error_shown "Identifiants invalides" st' /\
    loading_over st' /\ token_absent st'.
Proof.
  destruct (@failed_login_is_reported example_host
              (Response 403 (Json (JObj [("detail", JStr "Identifiants invalides")])))
              (mkError "Error" "Identifiants invalides") fresh_app)
    as (st' & Hrun & Hshown & Hover & _ & Hstore & _).
  - eexists. reflexivity.
  - reflexivity.
  - do 4 eexists. repeat split; try reflexivity; vm_compute; discriminate.
  - vm_compute. eauto.
  - exists st'. split; [exact Hrun |]. split; [exact Hshown |]. split; [exact Hover |].
    destruct (Hstore eq_refl) as [Htoken Hstorage]. split.
    + now rewrite Htoken.
    + now rewrite Hstorage.
Defined.

Lemma accepted_login_opens_the_dashboard_witness :
  exists st',
    @AuthManager.handleDirectLogin example_host (Response 200 (Json login_accepted)) fresh_app
      = (st', Normal tt) /\
    AuthManager.isAuthenticated st' = (st', Normal true) /\
    (exists el, document st' !! "student-name" = Some el /\ textContent el = "Alice") /\
    (exists el, document st' !! "student-class" = Some el /\
                textContent el = "Classe non disponible") /\
    shows "grades-list" [NLoading] st' /\
    last_message st' = Some (NMessage "assistant" (welcome "Alice")).
Proof.
  destruct (@accepted_login_opens_the_dashboard example_host fresh_app
              (Response 200 (Json login_accepted)) login_accepted
              (JStr "abc123") "abc123" (JObj [("student_name", JStr "Alice")])
              "Alice" JUndefined "Classe non disponible")
    as (st' & Hrun & (_ & _ & _ & Hauth) & _ & (Hname & Hclass & _) & (_ & _ & Hgrades)
        & Hlast & _); try reflexivity.
  - eexists. reflexivity.
  - exists 200%nat. split; reflexivity.
  - exists (JBool true). split; reflexivity.
  - do 4 eexists. repeat split; try reflexivity; vm_compute; discriminate.
  - intros id Hid. simpl in Hid.
    repeat destruct Hid as [<- | Hid]; try contradiction; vm_compute; eauto.
  - exists st'. auto 10.
Defined.

Lemma login_without_profile_is_half_done_witness :
  exists st' message,
    @AuthManager.handleDirectLogin example_host
      (Response 200 (Json login_without_profile)) fresh_app = (st', Normal tt) /\
    login_error_shown message st' /\
    accessToken st' = JStr "abc123" /\ currentUser st' = JUndefined /\
    AuthManager.isAuthenticated st' = (st', Normal true).
Proof.
  destruct (@login_without_profile_is_half_done example_host fresh_app
              (Response 200 (Json login_without_profile)) login_without_profile
              (JStr "abc123") "abc123" JUndefined)
    as (st' & message & Hrun & Hshown & _ & Htoken & _ & Huser & _ & Hauth & _);
    try reflexivity.
  - eexists. reflexivity.
  - exists 200%nat. split; reflexivity.
  - exists (JBool true). split; reflexivity.
  - now left.
  - do 4 eexists. repeat split; try reflexivity; vm_compute; discriminate.
  - vm_compute. eauto.
  - exists st', message. auto 10.
Defined.

Lemma cas_login_reports_what_went_wrong_witness :
  exists st',
    @AuthManager.handleCASLogin example_host
      (Response 200 (Json (JObj [("success", JBool false)]))) cas_app = (st', Normal tt) /\
    login_error_shown "Échec de l'authentification CAS" st' /\
    loading_over st' /\ accessToken st' = JNull.
Proof.
  destruct (@cas_login_reports_what_went_wrong example_host
              (Response 200 (Json (JObj [("success", JBool false)]))) cas_app)
    as [Hrejected _].
  - eexists. reflexivity.
  - do 4 eexists. repeat split; try reflexivity; vm_compute; discriminate.
  - vm_compute. eauto.
  - destruct (Hrejected (JObj [("success", JBool false)]))
      as (st' & Hrun & Hshown & Hover & _ & Htoken & _).
    + exists 200%nat. split; reflexivity.
    + exists (JBool false). split; reflexivity.
    + exists st'. auto.
Defined.

Lemma logout_forgets_the_session_witness :
  exists st',
    @AuthManager.handleLogout example_host
      (NetworkFailure (mkError "TypeError" "Failed to fetch")) logged_in_app
      = (st', Normal tt) /\
    messages st' = [] /\
    shows "grades-list" (empty_state connect_message) st' /\
    form_is_reset "login-form-direct" (document st') /\
    (exists el, document st' !! "login-screen" = Some el /\ "active" ∈ classList el).
Proof.
  destruct (@logout_forgets_the_session example_host logged_in_app
              (NetworkFailure (mkError "TypeError" "Failed to fetch")))
    as (st' & Hrun & (_ & _ & _ & Hmessages) & Hlists & _ & (Hform & _) & (Hscreen & _) & _).
  - intros id Hid. simpl in Hid.
    repeat destruct Hid as [<- | Hid]; try contradiction; vm_compute; eauto.
  - exists st'. split; [exact Hrun |]. split; [exact Hmessages |].
    split; [| now split].
    apply Hlists; [simpl; tauto | vm_compute; eauto].
Defined.

Lemma loadTabData_fetches_missing_data_witness :
  exists st1,
    @PronoteDataManager.loadGrades example_host (Response 200 (Json grades_received))
      logged_in_app = (st1, Normal tt) /\
    grades st1 = JArr [math_grade; art_grade] /\
    @App.loadTabData example_host (fun _ => ret tt) (fun _ => ret tt) (JStr "grades")
      (NetworkFailure (mkError "TypeError" "Failed to fetch")) st1 = (st1, Normal tt).
Proof.
  destruct (@loadTabData_fetches_missing_data example_host (fun _ => ret tt)
              (fun _ => ret tt) logged_in_app (Response 200 (Json grades_received)))
    as (_ & _ & _ & Hcached).
  apply (Hcached grades_received math_grade [art_grade]).
  - vm_compute. eauto.
  - eexists. reflexivity.
  - exists 200%nat. split; reflexivity.
  - exists (JBool true). split; reflexivity.
  - reflexivity.
Defined.

Lemma loadENTs_fills_the_selector_witness :
  shows "ent-selector"
    [NOption "ac_rennes" "Académie de Rennes"; NOption "monlycee" "Mon lycée"]
    (fst (@AuthManager.loadENTs example_host (Response 200 (Json example_ents)) fresh_app)).
Proof.
  destruct (@loadENTs_fills_the_selector example_host (Response 200 (Json example_ents))
              fresh_app) as (_ & _ & Hlist).
  destruct (Hlist example_ents
              [("ac_rennes", "Académie de Rennes"); ("monlycee", "Mon lycée")])
    as [Hoptions _].
  - eexists. reflexivity.
  - exists 200%nat. split; reflexivity.
  - reflexivity.
  - apply (Hoptions (control "login-form-cas" "")). reflexivity.
Defined.

Lemma chat_takes_one_question_at_a_time_witness :
  let st1 := fst (@ChatManager.sendMessage_begin example_host logged_in_app) in
  let st2 := fst (update "chat-input" (with_value "Et mes notes ?") st1) in
  @ChatManager.sendMessage_begin example_host logged_in_app = (st1, Normal true) /\
  isTyping st1 = true /\
  @ChatManager.sendMessage example_host
    (Response 200 (Json (JObj [("success", JBool true)]))) st2 = (st2, Normal tt).
Proof.
  cbv zeta.
  assert (Hbegin : @ChatManager.sendMessage_begin example_host logged_in_app
                   = (fst (@ChatManager.sendMessage_begin example_host logged_in_app),
                      Normal true))
    by (vm_compute; reflexivity).
  destruct (@chat_takes_one_question_at_a_time example_host logged_in_app
              (NetworkFailure (mkError "TypeError" "Failed to fetch")))
    as (_ & Hbusy & _).
  destruct (Hbusy _ Hbegin) as [Htyping Hnone].
  split; [exact Hbegin |]. split; [exact Htyping | apply Hnone].
Defined.

Lemma login_forms_require_every_field_witness :
  exists st',
    @AuthManager.handleDirectLogin example_host
      (Response 200 (Json login_accepted)) nameless_app = (st', Normal tt) /\
    form_refused "Veuillez remplir tous les champs" nameless_app st'.
Proof.
  destruct (@login_forms_require_every_field example_host nameless_app
              (Response 200 (Json login_accepted))) as [Hdirect _].
  apply (Hdirect (control "login-form-direct" "https://demo.index-education.net/pronote/")
                 (control "login-form-direct" "   ")
                 (control "login-form-direct" "secret")
                 (control "login-form-direct" "3")); try reflexivity.
  right. left. reflexivity.
Defined.
